(** * Irrigation planner: the calculation engine

    A shallow embedding of the calculation functions of the irrigation
    planner (water balance, Hazen-Williams hydraulics, zone split, bill of
    materials, seasonal simulation, design response) and the proofs of the
    properties its specification states about them.

    Numbers.  A JavaScript number is modelled by [JS.num]: a real number, or
    one of the three special values [PInf], [NInf] and [NaN].  Arithmetic on
    finite values is exact (no binary64 rounding, no overflow); the special
    values appear where the language produces them from finite operands
    (division by zero, the square root or a fractional power of a negative
    number) and propagate as ECMAScript prescribes.  The sign of zero is not
    modelled.  [Math.pow] on a positive base is the real power function,
    [Math.sqrt] the real square root.  The module [Binary64] repeats the
    water balance on IEEE 754 binary64 numbers, to show where rounding
    does and does not change what is proved in exact arithmetic.

    Inputs.  The functions of [script.js] read their parameters from form
    fields; the record [Legacy.Dom] holds the numbers those fields parse to,
    and the functions take it as an argument.  The mutable
    [AppState.calculationState] is passed and returned explicitly. *)

From Stdlib Require Import Reals Lra Lia List String ZArith Bool.
From Stdlib Require Floats.
Import ListNotations.
Local Open Scope R_scope.

(** ** JavaScript numbers *)

Module JS.

Inductive num : Type :=
| Fin (r : R)
| PInf
| NInf
| NaN.

Coercion Fin : R >-> num.

(** The infinite result of a product or quotient whose finite factor is [r]:
    [r * Infinity], and [NaN] for [0 * Infinity]. *)
Definition inf_of_sign (r : R) : num :=
  if Rlt_dec 0 r then PInf else if Rlt_dec r 0 then NInf else NaN.

Definition neg (x : num) : num :=
  match x with
  | Fin a => Fin (- a)
  | PInf => NInf
  | NInf => PInf
  | NaN => NaN
  end.

Definition add (x y : num) : num :=
  match x, y with
  | NaN, _ | _, NaN => NaN
  | Fin a, Fin b => Fin (a + b)
  | PInf, NInf | NInf, PInf => NaN
  | PInf, _ | _, PInf => PInf
  | NInf, _ | _, NInf => NInf
  end.

Definition sub (x y : num) : num := add x (neg y).

Definition mul (x y : num) : num :=
  match x, y with
  | NaN, _ | _, NaN => NaN
  | Fin a, Fin b => Fin (a * b)
  | Fin a, PInf | PInf, Fin a => inf_of_sign a
  | Fin a, NInf | NInf, Fin a => inf_of_sign (- a)
  | PInf, PInf | NInf, NInf => PInf
  | PInf, NInf | NInf, PInf => NInf
  end.

Definition div (x y : num) : num :=
  match x, y with
  | NaN, _ | _, NaN => NaN
  | Fin a, Fin b => if Req_dec_T b 0 then inf_of_sign a else Fin (a / b)
  | Fin _, PInf | Fin _, NInf => Fin 0
  | PInf, Fin b => if Rlt_dec b 0 then NInf else PInf
  | NInf, Fin b => if Rlt_dec b 0 then PInf else NInf
  | _, _ => NaN
  end.

(** Relational operators: every comparison with [NaN] is false. *)
Definition ltb (x y : num) : bool :=
  match x, y with
  | NaN, _ | _, NaN => false
  | Fin a, Fin b => if Rlt_dec a b then true else false
  | Fin _, PInf => true
  | Fin _, NInf => false
  | PInf, _ => false
  | NInf, NInf => false
  | NInf, _ => true
  end.

Definition leb (x y : num) : bool :=
  match x, y with
  | NaN, _ | _, NaN => false
  | Fin a, Fin b => if Rle_dec a b then true else false
  | Fin _, PInf => true
  | Fin _, NInf => false
  | PInf, PInf => true
  | PInf, _ => false
  | NInf, _ => true
  end.

Definition gtb (x y : num) : bool := ltb y x.
Definition geb (x y : num) : bool := leb y x.

(** Strict equality [===] on numbers. *)
Definition seqb (x y : num) : bool :=
  match x, y with
  | Fin a, Fin b => if Req_dec_T a b then true else false
  | PInf, PInf | NInf, NInf => true
  | _, _ => false
  end.

Definition Math_max (x y : num) : num :=
  match x, y with
  | NaN, _ | _, NaN => NaN
  | Fin a, Fin b => Fin (Rmax a b)
  | PInf, _ | _, PInf => PInf
  | NInf, z | z, NInf => z
  end.

Definition Math_min (x y : num) : num :=
  match x, y with
  | NaN, _ | _, NaN => NaN
  | Fin a, Fin b => Fin (Rmin a b)
  | NInf, _ | _, NInf => NInf
  | PInf, z | z, PInf => z
  end.

(** Truthiness of a number: [0] and [NaN] are falsy. *)
Definition truthy (x : num) : bool :=
  match x with
  | Fin a => if Req_dec_T a 0 then false else true
  | NaN => false
  | PInf | NInf => true
  end.

(** [x || d] on numbers. *)
Definition or_else (x d : num) : num := if truthy x then x else d.

Definition isFinite (x : num) : bool :=
  match x with Fin _ => true | _ => false end.

Definition Math_ceil (x : num) : num :=
  match x with Fin a => Fin (IZR (Zceil a)) | _ => x end.

Definition Math_floor (x : num) : num :=
  match x with Fin a => Fin (IZR (Zfloor a)) | _ => x end.

(** [Math.round] rounds half up: [floor (x + 0.5)]. *)
Definition Math_round (x : num) : num :=
  match x with Fin a => Fin (IZR (Zfloor (a + / 2))) | _ => x end.

(** [+x.toFixed(d)]: the decimal with [d] fraction digits nearest to [x],
    halves away from zero; at or beyond [1e21] the number itself. *)
Definition toFixed (x : num) (d : nat) : num :=
  match x with
  | Fin a =>
      if Rle_dec (10 ^ 21) (Rabs a) then Fin a
      else if Rlt_dec a 0
           then Fin (- (IZR (Zfloor (- a * 10 ^ d + / 2)) / 10 ^ d))
           else Fin (IZR (Zfloor (a * 10 ^ d + / 2)) / 10 ^ d)
  | _ => x
  end.

Definition Math_sqrt (x : num) : num :=
  match x with
  | Fin a => if Rlt_dec a 0 then NaN else Fin (sqrt a)
  | PInf => PInf
  | NInf | NaN => NaN
  end.

(** [Math.pow x y] for a finite exponent [y]. *)
Definition Math_pow (x : num) (y : R) : num :=
  if Req_dec_T y 0 then Fin 1
  else
    match x with
    | NaN => NaN
    | Fin a =>
        if Rlt_dec 0 a then Fin (Rpower a y)
        else if Req_dec_T a 0 then (if Rlt_dec 0 y then Fin 0 else PInf)
        else if Req_dec_T y (IZR (Zfloor y)) then Fin (powerRZ a (Zfloor y))
        else NaN
    | PInf => if Rlt_dec 0 y then PInf else Fin 0
    | NInf =>
        if Rlt_dec 0 y
        then (if Req_dec_T y (IZR (Zfloor y))
              then (if Z.odd (Zfloor y) then NInf else PInf)
              else PInf)
        else Fin 0
    end.

Definition Math_PI : num := Fin PI.

(** [parseFloat] applied to a value that already is a number returns it. *)
Definition parseFloat (x : num) : num := x.

(** The length an array-like [{length: x}] has for [Array.from]. *)
Definition toLength (x : num) : nat :=
  match x with
  | Fin a => Z.to_nat (Z.min (if Rlt_dec a 0 then Zceil a else Zfloor a) (2 ^ 53 - 1))
  | PInf => Z.to_nat (2 ^ 53 - 1)
  | NInf | NaN => O
  end.

(** [l.reduce(f)] without an initial value; [None] is the TypeError raised
    on an empty array. *)
Definition reduce1 {A : Type} (f : A -> A -> A) (l : list A) : option A :=
  match l with
  | [] => None
  | x :: t => Some (fold_left f t x)
  end.

(** [l.forEach((x, idx) => out.push(f idx x))], from index [i] on. *)
Fixpoint mapi_from {A B : Type} (f : nat -> A -> B) (i : nat) (l : list A) : list B :=
  match l with
  | [] => []
  | x :: t => f i x :: mapi_from f (S i) t
  end.

(** [l.indexOf(x)] on an array of numbers; [None] is [-1]. *)
Fixpoint indexOf (x : num) (l : list num) : option nat :=
  match l with
  | [] => None
  | y :: t => if seqb y x then Some O else option_map S (indexOf x t)
  end.

(** [Math.max(...l)]. *)
Definition Math_max_list (l : list num) : num := fold_left Math_max l NInf.

End JS.

Declare Scope js_scope.
Delimit Scope js_scope with js.
Bind Scope js_scope with JS.num.
Infix "+" := JS.add : js_scope.
Infix "-" := JS.sub : js_scope.
Infix "*" := JS.mul : js_scope.
Infix "/" := JS.div : js_scope.
Infix "<?" := JS.ltb (at level 70, no associativity) : js_scope.
Infix "<=?" := JS.leb (at level 70, no associativity) : js_scope.
Infix ">?" := JS.gtb (at level 70, no associativity) : js_scope.
Infix "||" := JS.or_else (at level 50, left associativity) : js_scope.

Import JS.

(** ** The planner in Thai units (rai, baht): FAO-56 water balance,
    Hazen-Williams hydraulics, costing *)

Module Planner.

Local Open Scope string_scope.
Local Open Scope js_scope.

Definition RAI_PER_HA : num := 6.25.

Record StageDays : Type := mkStageDays
  { initial : num; development : num; mid : num; late : num }.

Definition DEFAULT_STAGE_DAYS : StageDays :=
  {| initial := 20; development := 30; mid := 40; late := 30 |}.

Definition raiToHa (rai : num) : num := rai / RAI_PER_HA.

(** What [getPlannerInputs] returns: the parsed form fields. *)
Record Inputs : Type := mkInputs
  { cropType : string;
    areaRai : num;
    kc : num;
    kcInitial : num;
    kcDevelopment : num;
    kcMid : num;
    kcLate : num;
    eto : num;
    rainfall : num;
    efficiency : num;
    mainDiameter : num;
    maxLateral : num;
    hoursPerDay : num;
    spacingX : num;
    spacingY : num;
    layoutMode : string }.

Definition computeSeasonalKc (inputs : Inputs) : num :=
  let stageDays := DEFAULT_STAGE_DAYS in
  let totalDays :=
    initial stageDays + development stageDays + mid stageDays + late stageDays in
  let weightedKc :=
    (kcInitial inputs * initial stageDays +
     kcDevelopment inputs * development stageDays +
     kcMid inputs * mid stageDays +
     kcLate inputs * late stageDays) / totalDays in
  weightedKc || kc inputs || 1.0.

Definition calculateEffectiveRainFAO56 (rainfallMm : num) : num :=
  let P := Math_max 0 rainfallMm in
  let Pe := if P <=? 250 then (P * (125 - 0.2 * P)) / 125 else 125 + 0.1 * P in
  Math_max 0 Pe.

Record Layout : Type := mkLayout
  { fieldSide : num;
    lateralCount : num;
    avgLateralLength : num;
    mainLength : num;
    lateralLength : num;
    totalPipeLength : num }.

Definition calculateLayoutLengths (areaM2 spacingY : num) (layoutMode : string)
  : Layout :=
  let fieldSide := Math_sqrt (Math_max 1 areaM2) in
  let lateralSpacing := Math_max 0.5 (spacingY || 12) in
  let lateralCount := Math_max 1 (Math_ceil (fieldSide / lateralSpacing)) in
  let baseLateralLength := fieldSide * lateralCount in
  let baseMainLength := fieldSide in
  let factor : num := if String.eqb layoutMode "ai" then 0.9 else 1.05 in
  let mainLength := baseMainLength * factor in
  let lateralLength := baseLateralLength * factor in
  {| fieldSide := fieldSide;
     lateralCount := lateralCount;
     avgLateralLength := fieldSide;
     mainLength := Math_max 10 (Math_round mainLength);
     lateralLength := Math_max 10 (Math_round lateralLength);
     totalPipeLength := Math_max 20 (Math_round (mainLength + lateralLength)) |}.

Record Hydraulics : Type := mkHydraulics
  { hf : num;
    headLossPercent : num;
    lateralHeadLossPercent : num;
    velocity : num;
    withinLimit : bool;
    totalHead : num }.

(** [operatingHead] is the optional fifth parameter; callers that omit it
    pass its default, [30]. *)
Definition calculateHydraulics
  (flowM3s totalPipeLength mainDiameterMm lateralLength operatingHead : num)
  : Hydraulics :=
  let diameterM := (mainDiameterMm || 110) / 1000 in
  let length := Math_max 1 (totalPipeLength || 100) in
  let C : num := 150 in
  let hf :=
    (10.67 * Math_pow flowM3s 1.852 * length) /
    (Math_pow C 1.852 * Math_pow diameterM 4.871) in
  let headLossPercent := (hf / operatingHead) * 100 in
  let lateralHeadLossPercent :=
    ((hf * (lateralLength || length) / length) / operatingHead) * 100 in
  let area := Math_PI * Math_pow diameterM 2 * 0.25 in
  let velocity := if area >? 0 then flowM3s / area else 0 in
  {| hf := hf;
     headLossPercent := Math_max 0 (Math_min 100 (toFixed headLossPercent 2));
     lateralHeadLossPercent :=
       Math_max 0 (Math_min 100 (toFixed lateralHeadLossPercent 2));
     velocity := toFixed velocity 3;
     withinLimit := (headLossPercent <=? 5) && (lateralHeadLossPercent <=? 5);
     totalHead := operatingHead + hf |}.

Record PumpPower : Type := mkPumpPower { hp : num; kw : num }.

(** [pumpEfficiency] is the optional third parameter, default [0.65]. *)
Definition calculatePumpPowerHP (flowLps totalHead pumpEfficiency : num)
  : PumpPower :=
  let hp := (flowLps * totalHead) / (pumpEfficiency * 75) in
  {| hp := toFixed hp 2; kw := toFixed ((hp || 0) * 0.746) 2 |}.

Record WaterDemand : Type := mkWaterDemand
  { areaM2 : num;
    seasonalKc : num;
    etc : num;
    effectiveRain : num;
    netIrrigation : num;
    appliedEfficiency : num;
    appliedDepth : num;
    waterDemandLday : num }.

Definition calculateWaterDemandLperDay (inputs : Inputs) : WaterDemand :=
  let areaRai := parseFloat (areaRai inputs) || 0 in
  let areaM2 := areaRai * 1600 in
  let seasonalKc := computeSeasonalKc inputs in
  let etc := eto inputs * seasonalKc in
  let effectiveRain := calculateEffectiveRainFAO56 (rainfall inputs) in
  let netIrrigation := Math_max 0 (etc - effectiveRain) in
  let efficiency := Math_max 0.01 ((parseFloat (efficiency inputs) || 80) / 100) in
  let appliedDepth := netIrrigation / efficiency in
  let waterDemand := appliedDepth * areaM2 in
  {| areaM2 := areaM2;
     seasonalKc := seasonalKc;
     etc := etc;
     effectiveRain := effectiveRain;
     netIrrigation := netIrrigation;
     appliedEfficiency := efficiency;
     appliedDepth := appliedDepth;
     waterDemandLday := waterDemand |}.

Definition calculatePipeLengthFromArea (inputs : Inputs) : num :=
  let areaM2 := (parseFloat (areaRai inputs) || 0) * 1600 in
  let layout := calculateLayoutLengths areaM2 (spacingY inputs) (layoutMode inputs) in
  totalPipeLength layout.

(** [hoursPerDay] is the number the field [hoursPerDay] parses to, [24] when
    the field is absent or empty. *)
Definition calculateMaxLateralLengthFromDemand
  (hoursPerDay : num) (waterDemandLday mainDiameterMm userMaxLateral : num) : num :=
  let diameter := parseFloat (mainDiameterMm || 110) in
  let maxLateralSetting := parseFloat (userMaxLateral || 100) in
  let flowTotalLps := waterDemandLday / (Math_max 1 hoursPerDay * 3600) in
  let flowPerLateralLps := flowTotalLps / 10 in
  let flowRate := flowPerLateralLps / 1000 in
  let diameterM := diameter / 1000 in
  let C : num := 150 in
  let maxHeadLoss : num := 0.05 * 30 in
  let maxLength :=
    (maxHeadLoss * Math_pow C 1.852 * Math_pow diameterM 4.871) /
    (10.67 * Math_pow flowRate 1.852) in
  Math_min maxLateralSetting (Math_max 20 (toFixed maxLength 1)).

(** The object [buildDesignFromInputs] returns.  The source spreads the
    water-demand and layout objects into it; here they are the fields
    [demand] and [layout], and [design.mainLength] reads
    [mainLength (layout design)]. *)
Record Design : Type := mkDesign
  { demand : WaterDemand;
    flowLps : num;
    flowM3s : num;
    designSpacingX : num;
    designSpacingY : num;
    sprinklerCount : num;
    valves : num;
    layout : Layout;
    designHeadLossPercent : num;
    designLateralHeadLossPercent : num;
    designVelocity : num;
    designTotalHead : num;
    hydraulics : Hydraulics;
    pumpPowerHp : num;
    pumpPowerKw : num }.

Definition buildDesignFromInputs (inputs : Inputs) : Design :=
  let demand := calculateWaterDemandLperDay inputs in
  let secondsPerDay := Math_max 1 (hoursPerDay inputs || 24) * 3600 in
  let flowLps := waterDemandLday demand / secondsPerDay in
  let flowM3s := flowLps / 1000 in
  let spacingX := Math_max 0.5 (spacingX inputs || 12) in
  let spacingY := Math_max 0.5 (spacingY inputs || 12) in
  let sprinklerCount :=
    Math_max 1 (Math_ceil (areaM2 demand / (spacingX * spacingY))) in
  let layout := calculateLayoutLengths (areaM2 demand) spacingY (layoutMode inputs) in
  let hydraulics :=
    calculateHydraulics flowM3s (totalPipeLength layout) (mainDiameter inputs)
      (lateralLength layout) 30 in
  let pumpPower := calculatePumpPowerHP flowLps (totalHead hydraulics) 0.65 in
  let valves := Math_max 1 (Math_ceil (sprinklerCount / 100)) in
  {| demand := demand;
     flowLps := flowLps;
     flowM3s := flowM3s;
     designSpacingX := spacingX;
     designSpacingY := spacingY;
     sprinklerCount := sprinklerCount;
     valves := valves;
     layout := layout;
     designHeadLossPercent := headLossPercent hydraulics;
     designLateralHeadLossPercent := lateralHeadLossPercent hydraulics;
     designVelocity := velocity hydraulics;
     designTotalHead := totalHead hydraulics;
     hydraulics := hydraulics;
     pumpPowerHp := hp pumpPower;
     pumpPowerKw := kw pumpPower |}.

Record CostItem : Type := mkCostItem
  { name : string; qty : num; unit : string; unitPrice : num }.

Section Costing.

(** The text a template literal substitutes for a number. *)
Variable Number_toString : num -> string.

Definition buildCostItems (design : Design) (inputs : Inputs) : list CostItem :=
  let mainPipeLen := mainLength (layout design) || 0 in
  let lateralPipeLen := lateralLength (layout design) || 0 in
  let sprinklers := sprinklerCount design || 0 in
  let valves :=
    Math_max 1 (valves design || Math_round ((areaRai inputs || 0) / 4) || 1) in
  let pumpHp := pumpPowerHp design || 0 in
  [ {| name := "Main pipe Ø" ++ Number_toString (mainDiameter inputs || 75) ++ " mm";
       qty := mainPipeLen; unit := "m"; unitPrice := 120 |};
    {| name := "Lateral pipe Ø32 mm";
       qty := lateralPipeLen; unit := "m"; unitPrice := 70 |};
    {| name := "Sprinkler heads";
       qty := sprinklers; unit := "pcs"; unitPrice := 85 |};
    {| name := "Control valves";
       qty := valves; unit := "pcs"; unitPrice := 550 |};
    {| name := "Filter set";
       qty := 1; unit := "set"; unitPrice := 9500 |};
    {| name := "Pump (approx " ++ Number_toString pumpHp ++ " hp)";
       qty := 1; unit := "set"; unitPrice := 45000 |} ].

(** What [onShowBOM] renders: the rows of the table and the grand total.
    [lastPlannerDesign] is the module-level variable, [None] before the
    first recalculation. *)
Definition onShowBOM (lastPlannerDesign : option Design) (inputs : Inputs)
  : list CostItem * num :=
  let design :=
    match lastPlannerDesign with
    | Some d => d
    | None => buildDesignFromInputs inputs
    end in
  let items := buildCostItems design inputs in
  let totalCost :=
    fold_left (fun totalCost it => totalCost + qty it * unitPrice it) items (Fin 0) in
  (items, totalCost).

End Costing.

Definition MONTH_NAMES : list string :=
  ["Jan"; "Feb"; "Mar"; "Apr"; "May"; "Jun";
   "Jul"; "Aug"; "Sep"; "Oct"; "Nov"; "Dec"].

Definition daysInMonth : list num :=
  [Fin 31; Fin 28; Fin 31; Fin 30; Fin 31; Fin 30;
   Fin 31; Fin 31; Fin 30; Fin 31; Fin 30; Fin 31].

(** The body of the loop over the ET0 fields: the demand pushed for month
    [idx].  [rainInputs] holds the numbers the rainfall fields parse to;
    a missing field counts as [0]. *)
Definition monthDemandAt
  (areaM2 kcInitial kcMid kcLate : num) (rainInputs : list num)
  (idx : nat) (eto : num) : num :=
  let rainfall := nth idx rainInputs (Fin 0) in
  let kc :=
    if (idx <=? 1)%nat then kcInitial
    else if ((2 <=? idx)%nat && (idx <=? 7)%nat)%bool then kcMid
    else kcLate in
  let etc := kc * eto in
  let netIrrigation := Math_max 0 (etc - rainfall) in
  let monthlyDepth := netIrrigation * nth idx daysInMonth NaN in
  let monthDemand := monthlyDepth * areaM2 in
  Math_round monthDemand.

Record SeasonalSummary : Type := mkSeasonalSummary
  { totalDemand : num;
    maxDemand : num;
    maxMonthIndex : option nat;
    peakMonthName : option string;
    avgEto : num }.

(** [None]: the summary is left as it was (no months). *)
Definition updateSeasonalSummary (monthlyDemand monthlyEto monthlyRain : list num)
  : option SeasonalSummary :=
  let totalDemand := fold_left add monthlyDemand (Fin 0) in
  match monthlyDemand with
  | [] => None
  | _ =>
      let maxDemand := Math_max_list monthlyDemand in
      let maxMonthIndex := indexOf maxDemand monthlyDemand in
      let avgEto :=
        match monthlyEto with
        | [] => Fin 0
        | _ => fold_left add monthlyEto (Fin 0) / INR (List.length monthlyEto)
        end in
      Some {| totalDemand := totalDemand;
              maxDemand := maxDemand;
              maxMonthIndex := maxMonthIndex;
              peakMonthName :=
                match maxMonthIndex with
                | Some i => nth_error MONTH_NAMES i
                | None => None
                end;
              avgEto := avgEto |}
  end.

(** [areaRai], [kcInitial], [kcMid], [kcLate] are the parsed form fields,
    [etoInputs] and [rainInputs] the parsed cells of the monthly table.
    The result is the monthly demand series handed to the charts and the
    summary computed from it. *)
Definition runSeasonalSimulation
  (areaRai kcInitial kcMid kcLate : num) (etoInputs rainInputs : list num)
  : option (list num * option SeasonalSummary) :=
  let areaM2 := areaRai * 1600 in
  match etoInputs, rainInputs with
  | [], _ | _, [] => None
  | _, _ =>
      let monthlyDemand :=
        mapi_from (monthDemandAt areaM2 kcInitial kcMid kcLate rainInputs) 0 etoInputs in
      let monthlyEto := etoInputs in
      let monthlyRain :=
        mapi_from (fun idx _ => nth idx rainInputs (Fin 0)) 0 etoInputs in
      Some (monthlyDemand, updateSeasonalSummary monthlyDemand monthlyEto monthlyRain)
  end.

(** The listener of the field [area-value] installed by
    [initPlannerInputs]: the number written back to the field and to the
    slider.  [value] is the number the text of the field parses to, [NaN]
    when it does not parse. *)
Definition areaValue_oninput (value : num) : num :=
  let v := parseFloat value || 1 in
  let v := if v <? 1 then Fin 1 else v in
  let v := if v >? 100 then Fin 100 else v in
  v.

(** [hoursPerDayField] is the number the field [hoursPerDay] parses to,
    [None] when the page has no such field; [hoursPerDayOverride] and
    [lateralLengthOverride] are the optional fourth and fifth parameters,
    [None] when omitted. *)
Definition calculateHeadLossPercent (hoursPerDayField : option num)
  (waterDemandLday pipeLength mainDiameterMm : num)
  (hoursPerDayOverride lateralLengthOverride : option num) : num :=
  let hoursPerDay :=
    parseFloat
      match hoursPerDayOverride with
      | Some h => h
      | None => match hoursPerDayField with Some v => v | None => Fin 24 end
      end in
  let secondsPerDay := Math_max 1 hoursPerDay * 3600 in
  let flowRateLps := waterDemandLday / secondsPerDay in
  let hydraulics :=
    calculateHydraulics (flowRateLps / 1000) pipeLength mainDiameterMm
      match lateralLengthOverride with
      | Some l => l || pipeLength * 0.6
      | None => pipeLength * 0.6
      end
      30 in
  headLossPercent hydraulics.

(** What [onValidateHydraulics] hands to the validation card and stores in
    the current project: the verdict and its note. *)
Definition onValidateHydraulics (lastPlannerDesign : option Design) (inputs : Inputs)
  : bool * string :=
  let design :=
    match lastPlannerDesign with
    | Some d => d
    | None => buildDesignFromInputs inputs
    end in
  let headLoss := designHeadLossPercent design || 0 in
  let lateralLoss := designLateralHeadLossPercent design || 0 in
  let valid := (headLoss <=? 5) && (lateralLoss <=? 5) in
  let notes :=
    if valid
    then "Head loss ≤ 5% and lateral length within limit."
    else "Head loss or lateral pipe length exceeds the allowable limit. Consider increasing the main pipe diameter or dividing the field into more zones to reduce lateral length." in
  (valid, notes).

Record PumpSelection : Type := mkPumpSelection
  { suggestedPower : string; suggestedHead : string }.

Record DesignResponse : Type := mkDesignResponse
  { recommendations : list string; pumpSelection : PumpSelection }.

(** [inputs] is what [getPlannerInputs] returns inside [buildDesignJSON];
    [outputsHeadLoss] and [outputsWaterDemand] are the numbers that
    [design.outputs.headLoss] and [design.outputs.waterDemand] parse to,
    [NaN] when they do not parse. *)
Definition buildDesignResponseJSON (inputs : Inputs)
  (outputsHeadLoss outputsWaterDemand : num) : DesignResponse :=
  let recs : list string := [] in
  let headLoss := parseFloat outputsHeadLoss || 0 in
  let diameter := mainDiameter inputs in
  let recs :=
    if headLoss >? 5
    then (recs ++ ["Increase main pipe diameter to reduce head loss below 5%"])%list
    else (recs ++ ["Head loss is within target (≤ 5%)"])%list in
  let recs :=
    if (diameter <? 75) && (areaRai inputs >? 20)
    then (recs ++ ["For areas >20 Rai, use a main pipe at least Ø75 mm"])%list
    else recs in
  let waterDemand := parseFloat outputsWaterDemand || 0 in
  let recs :=
    if waterDemand >? 200000
    then (recs ++ ["Select a pump larger than 200 m³/day (≥ 7.5 kW)"])%list
    else (recs ++ ["A medium-size pump is sufficient for this design (~5.5 kW)"])%list in
  let recs :=
    match recs with
    | [] => (recs ++ ["Design meets key requirements; no major issues flagged"])%list
    | _ => recs
    end in
  {| recommendations := recs;
     pumpSelection :=
       {| suggestedPower := if waterDemand >? 200000 then "7.5 kW" else "5.5 kW";
          suggestedHead := if headLoss >? 5 then "40 m" else "30 m" |} |}.

Record Preset : Type := mkPreset { preset_eto : list num; preset_rain : list num }.

Definition presets_normal : Preset :=
  {| preset_eto :=
       [Fin 4.5; Fin 4.6; Fin 4.8; Fin 5.0; Fin 5.2; Fin 5.1;
        Fin 5.0; Fin 4.9; Fin 4.7; Fin 4.6; Fin 4.5; Fin 4.4];
     preset_rain :=
       [Fin 2.5; Fin 2.0; Fin 2.0; Fin 1.8; Fin 1.5; Fin 1.2;
        Fin 1.0; Fin 1.0; Fin 2.2; Fin 3.0; Fin 3.5; Fin 3.8] |}.

Definition presets_dry : Preset :=
  {| preset_eto :=
       [Fin 4.8; Fin 4.9; Fin 5.2; Fin 5.4; Fin 5.6; Fin 5.5;
        Fin 5.4; Fin 5.3; Fin 5.0; Fin 4.9; Fin 4.8; Fin 4.7];
     preset_rain :=
       [Fin 1.5; Fin 1.2; Fin 1.0; Fin 0.8; Fin 0.6; Fin 0.5;
        Fin 0.5; Fin 0.6; Fin 1.0; Fin 1.5; Fin 1.8; Fin 2.0] |}.

Definition presets_wet : Preset :=
  {| preset_eto :=
       [Fin 4.2; Fin 4.3; Fin 4.5; Fin 4.7; Fin 4.9; Fin 4.8;
        Fin 4.7; Fin 4.6; Fin 4.4; Fin 4.3; Fin 4.2; Fin 4.1];
     preset_rain :=
       [Fin 3.5; Fin 3.2; Fin 3.0; Fin 2.8; Fin 2.5; Fin 2.4;
        Fin 2.3; Fin 2.2; Fin 3.0; Fin 4.0; Fin 4.5; Fin 4.8] |}.

(** The property names every object inherits from [Object.prototype]:
    [presets[mode]] is a truthy value, not a preset, for each of them. *)
Definition Object_prototype_names : list string :=
  [ "constructor"; "hasOwnProperty"; "isPrototypeOf"; "propertyIsEnumerable";
    "toLocaleString"; "toString"; "valueOf"; "__proto__";
    "__defineGetter__"; "__defineSetter__"; "__lookupGetter__"; "__lookupSetter__" ].

(** [presets[mode] || presets.normal]; [None] when it is an inherited
    member, which has no [eto] and no [rain]. *)
Definition selectPreset (mode : string) : option Preset :=
  if String.eqb mode "normal" then Some presets_normal
  else if String.eqb mode "dry" then Some presets_dry
  else if String.eqb mode "wet" then Some presets_wet
  else if existsb (String.eqb mode) Object_prototype_names then None
  else Some presets_normal.

(** [series[idx].toFixed(1)] for the cells [0 .. cells - 1]: the numbers
    their texts parse to.  [None] is the TypeError raised at the first cell
    whose index has no entry in [series]. *)
Fixpoint fillCells (series : list num) (idx cells : nat) : option (list num) :=
  match cells with
  | O => Some []
  | S n =>
      match nth_error series idx with
      | Some v => option_map (cons (toFixed v 1)) (fillCells series (S idx) n)
      | None => None
      end
  end.

(** [etoCells] and [rainCells] count the fields of class [monthly-eto] and
    [monthly-rainfall] of the monthly table.  The result holds the numbers
    the two columns parse to afterwards; [None] is a TypeError, raised
    after the cells before the failing one were written. *)
Definition loadScenarioPreset (mode : string) (etoCells rainCells : nat)
  : option (list num * list num) :=
  let series (f : Preset -> list num) : list num :=
    match selectPreset mode with
    | Some preset => f preset
    | None => []
    end in
  match fillCells (series preset_eto) 0 etoCells with
  | Some etoValues =>
      match fillCells (series preset_rain) 0 rainCells with
      | Some rainValues => Some (etoValues, rainValues)
      | None => None
      end
  | None => None
  end.

End Planner.

(** ** The hectare-based calculator of [script.js] and the design
    response built from its state *)

Module Legacy.

Local Open Scope string_scope.
Local Open Scope js_scope.

(** The numbers the form fields [area], [kc], [eto], [rainfall],
    [main-diameter] and [max-lateral] parse to. *)
Record Dom : Type := mkDom
  { dom_area : num;
    dom_kc : num;
    dom_eto : num;
    dom_rainfall : num;
    dom_main_diameter : num;
    dom_max_lateral : num }.

Definition calculateWaterDemand (dom : Dom) : num :=
  let area := dom_area dom in
  let kc := dom_kc dom in
  let eto := dom_eto dom in
  let rainfall := dom_rainfall dom in
  let etc := kc * eto in
  let netIrrigation := Math_max 0 (etc - rainfall) in
  let waterDemand := netIrrigation * area * 10000 in
  waterDemand.

Definition calculatePipeLength (dom : Dom) : num :=
  let area := dom_area dom in
  let areaM2 := area * 10000 in
  let sideLength := Math_sqrt areaM2 in
  let estimatedLength := sideLength * 2 * 1.2 in
  Math_round estimatedLength.

Definition calculateHeadLoss (dom : Dom) : num :=
  let waterDemand := calculateWaterDemand dom in
  let flowRate := waterDemand / (24 * 3600) in
  let flowRateM3s := flowRate / 1000 in
  let diameter := dom_main_diameter dom / 1000 in
  let length := calculatePipeLength dom in
  let C : num := 150 in
  let hf :=
    10.67 * Math_pow flowRateM3s 1.852 * length /
    (Math_pow C 1.852 * Math_pow diameter 4.871) in
  let operatingHead : num := 30 in
  let headLossPercent := (hf / operatingHead) * 100 in
  Math_max 0 (Math_min 100 headLossPercent).

(** The flow and the diameter [calculateHeadLoss] computes from the form,
    in m3/s and in m. *)
Definition headLossFlowM3s (dom : Dom) : num :=
  calculateWaterDemand dom / (24 * 3600) / 1000.

Definition headLossDiameterM (dom : Dom) : num := dom_main_diameter dom / 1000.

Definition calculateMaxLateralLength (dom : Dom) : num :=
  let diameter := dom_main_diameter dom in
  let maxLateral := dom_max_lateral dom in
  let waterDemand := calculateWaterDemand dom in
  let flowPerLateral := waterDemand / 10 in
  let flowRate := flowPerLateral / (24 * 3600 * 1000) in
  let diameterM := diameter / 1000 in
  let C : num := 150 in
  let maxHeadLoss : num := 0.05 * 30 in
  let maxLength :=
    (maxHeadLoss * Math_pow C 1.852 * Math_pow diameterM 4.871) /
    (10.67 * Math_pow flowRate 1.852) in
  Math_min maxLateral (Math_max 50 maxLength).

Definition calculateZones (dom : Dom) : num :=
  let waterDemand := calculateWaterDemand dom in
  let maxZoneCapacity : num := 50000 in
  let zones := Math_ceil (waterDemand / maxZoneCapacity) in
  Math_max 1 zones.

Record BomItem : Type := mkBomItem
  { item : string; quantity : num; unit : string; unitPrice : num; total : num }.

(** The table [prices.pipe], keyed by diameter. *)
Definition prices_pipe : list (num * num) :=
  [ (Fin 50, Fin 2.5); (Fin 63, Fin 3.0); (Fin 75, Fin 3.5); (Fin 90, Fin 4.0);
    (Fin 110, Fin 5.0); (Fin 125, Fin 6.0); (Fin 140, Fin 7.0); (Fin 160, Fin 8.0) ].

Definition prices_fittings : num := 15.
Definition prices_valves : num := 25.
Definition prices_emitters : num := 0.5.
Definition prices_pump : num := 500.
Definition prices_controller : num := 200.

(** [table[key]]: [None] is [undefined]. *)
Fixpoint lookup (key : num) (table : list (num * num)) : option num :=
  match table with
  | [] => None
  | (k, v) :: t => if seqb k key then Some v else lookup key t
  end.

(** [v || d] where [v] may be [undefined]. *)
Definition or_default (v : option num) (d : num) : num :=
  match v with
  | Some x => x || d
  | None => d
  end.

(** [AppState.calculationState]. *)
Record CalculationState : Type := mkCalculationState
  { waterDemand : num;
    pipeLength : num;
    headLoss : num;
    maxLateralLength : num;
    validationStatus : string;
    validationNotes : list string;
    bom : list BomItem }.

Definition initialState : CalculationState :=
  {| waterDemand := 0;
     pipeLength := 0;
     headLoss := 0;
     maxLateralLength := 0;
     validationStatus := "pending";
     validationNotes := [];
     bom := [] |}.

Section Bom.

(** The text a template literal substitutes for a number. *)
Variable Number_toString : num -> string.

Definition calculateBOM (dom : Dom) : list BomItem :=
  let area := dom_area dom in
  let diameter := dom_main_diameter dom in
  let pipeLength := calculatePipeLength dom in
  let zones := calculateZones dom in
  let pipePrice := or_default (lookup diameter prices_pipe) 5.0 in
  let lateralLength := Math_ceil (pipeLength * 0.5) in
  let numFittings := Math_ceil (pipeLength / 20) in
  let numEmitters := Math_ceil (area * 10000) in
  [ {| item := "Main Pipe (" ++ Number_toString diameter ++ "mm)";
       quantity := Math_ceil pipeLength;
       unit := "m";
       unitPrice := pipePrice;
       total := Math_ceil pipeLength * pipePrice |};
    {| item := "Lateral Pipes (16mm)";
       quantity := lateralLength;
       unit := "m";
       unitPrice := 1.5;
       total := lateralLength * 1.5 |};
    {| item := "Pipe Fittings";
       quantity := numFittings;
       unit := "pcs";
       unitPrice := prices_fittings;
       total := numFittings * prices_fittings |};
    {| item := "Control Valves";
       quantity := zones;
       unit := "pcs";
       unitPrice := prices_valves;
       total := zones * prices_valves |};
    {| item := "Drip Emitters";
       quantity := numEmitters;
       unit := "pcs";
       unitPrice := prices_emitters;
       total := numEmitters * prices_emitters |};
    {| item := "Irrigation Pump";
       quantity := 1;
       unit := "pcs";
       unitPrice := prices_pump;
       total := prices_pump |};
    {| item := "Irrigation Controller";
       quantity := 1;
       unit := "pcs";
       unitPrice := prices_controller;
       total := prices_controller |} ].

(** The assignments of [calculateAll]; the fields it does not assign keep
    their value. *)
Definition calculateAll (dom : Dom) (state : CalculationState) : CalculationState :=
  {| waterDemand := calculateWaterDemand dom;
     pipeLength := calculatePipeLength dom;
     headLoss := calculateHeadLoss dom;
     maxLateralLength := calculateMaxLateralLength dom;
     validationStatus := validationStatus state;
     validationNotes := validationNotes state;
     bom := calculateBOM dom |}.

End Bom.

Record SatelliteData : Type := mkSatelliteData
  { ndviMean : num; slopeClass : string; soilType : string; satelliteTimestamp : string }.

Record ZoneDetail : Type := mkZoneDetail { zoneId : num; lengthM : num }.

Record Zones : Type := mkZones
  { count : num; lengthPerZoneM : num; details : list ZoneDetail }.

Record Validation : Type := mkValidation
  { status : string; notes : list string }.

Module Response.

Record t : Type := mk
  { waterDemandLday : num;
    pipeLengthM : num;
    headLossPercent : num;
    maxLateralLengthM : num;
    zones : Zones;
    validation : Validation;
    satelliteSummary : option SatelliteData;
    bom : list BomItem;
    totalCost : num;
    timestamp : string }.

End Response.

(** [state] is [AppState.calculationState], [satellite] is
    [AppState.satelliteSummary] ([None] for [null], which the response
    renders as the record of three nulls), [dom] the form fields that
    [calculateZones] reads, [now] the clock reading. *)
Definition buildDesignResponseFromState
  (state : CalculationState) (satellite : option SatelliteData)
  (dom : Dom) (now : string) : Response.t :=
  let zones := calculateZones dom in
  let bomTotal := fold_left (fun sum it => sum + total it) (bom state) (Fin 0) in
  let pipeLength := pipeLength state in
  let lengthPerZone := Math_ceil (pipeLength / zones) in
  {| Response.waterDemandLday := waterDemand state;
     Response.pipeLengthM := pipeLength;
     Response.headLossPercent := headLoss state;
     Response.maxLateralLengthM := maxLateralLength state;
     Response.zones :=
       {| count := zones;
          lengthPerZoneM := lengthPerZone;
          details :=
            map (fun i => {| zoneId := INR i + 1; lengthM := lengthPerZone |})
                (seq 0 (toLength zones)) |};
     Response.validation :=
       {| status := validationStatus state; notes := validationNotes state |};
     Response.satelliteSummary := satellite;
     Response.bom :=
       map (fun it =>
              {| item := item it;
                 quantity := quantity it;
                 unit := unit it;
                 unitPrice := unitPrice it;
                 total := total it |})
           (bom state);
     Response.totalCost := bomTotal;
     Response.timestamp := now |}.

Module Month.

Record t : Type := mk
  { month : option string; eto : num; rainfall : num; kc : num; waterDemand : num }.

End Month.

Definition months : list string :=
  ["Jan"; "Feb"; "Mar"; "Apr"; "May"; "Jun";
   "Jul"; "Aug"; "Sep"; "Oct"; "Nov"; "Dec"].

(** The body of the loop over the ET0 fields: the record pushed for the
    [i]-th field.  [rainfalls] holds the numbers the rainfall fields parse
    to, by month; a missing field counts as [0]. *)
Definition monthRecord
  (area kcInitial kcMid kcLate : num) (rainfalls : list num)
  (i : nat) (eto : num) : Month.t :=
  let rainfall := nth i rainfalls (Fin 0) in
  let kc :=
    if (i <? 3)%nat then kcInitial
    else if (i <? 9)%nat then kcMid
    else kcLate in
  let etc := kc * eto in
  let effectiveRainfall := rainfall * 0.8 in
  let netIrrigation := Math_max 0 (etc - effectiveRainfall) in
  let waterDemand := netIrrigation * area * 10000 in
  {| Month.month := nth_error months i;
     Month.eto := eto;
     Month.rainfall := rainfall;
     Month.kc := kc;
     Month.waterDemand := waterDemand |}.

Record SeasonalResult : Type := mkSeasonalResult
  { monthlyData : list Month.t;
    peakMonth : Month.t;
    peakRainfallMonth : Month.t;
    peakETOMonth : Month.t;
    avgDemand : num;
    avgRainfall : num;
    avgETO : num }.

(** [None]: the TypeError of [reduce] on an empty array (no ET0 field). *)
Definition runSeasonalSimulation
  (area kcInitial kcMid kcLate : num) (etos rainfalls : list num)
  : option SeasonalResult :=
  let monthlyData :=
    mapi_from (monthRecord area kcInitial kcMid kcLate rainfalls) 0 etos in
  match
    reduce1 (fun max curr =>
               if Month.waterDemand curr >? Month.waterDemand max then curr else max)
            monthlyData,
    reduce1 (fun max curr =>
               if Month.rainfall curr >? Month.rainfall max then curr else max)
            monthlyData,
    reduce1 (fun max curr =>
               if Month.eto curr >? Month.eto max then curr else max)
            monthlyData
  with
  | Some peakMonth, Some peakRainfallMonth, Some peakETOMonth =>
      Some {| monthlyData := monthlyData;
              peakMonth := peakMonth;
              peakRainfallMonth := peakRainfallMonth;
              peakETOMonth := peakETOMonth;
              avgDemand :=
                fold_left (fun sum m => sum + Month.waterDemand m) monthlyData (Fin 0) / 12;
              avgRainfall :=
                fold_left (fun sum m => sum + Month.rainfall m) monthlyData (Fin 0) / 12;
              avgETO :=
                fold_left (fun sum m => sum + Month.eto m) monthlyData (Fin 0) / 12 |}
  | _, _, _ => None
  end.

(** The listener of the field [area-value] installed by
    [setupEventListeners]: the number written back to the field and to the
    slider.  [value] is the number the text of the field parses to, [NaN]
    when it does not parse. *)
Definition areaValue_oninput (value : num) : num :=
  Math_max 1 (Math_min 100 (parseFloat value || 1)).

(** The assignments of [validateHydraulics] to the calculation state. *)
Definition validateHydraulics (dom : Dom) (state : CalculationState)
  : CalculationState :=
  let validationNotes : list string := [] in
  let isValid := true in
  let '(validationNotes, isValid) :=
    if headLoss state >? 15
    then ((validationNotes ++ ["Head loss exceeds 15% - consider larger pipe diameter"])%list,
          false)
    else if headLoss state >? 10
    then ((validationNotes ++ ["Head loss is high (10-15%) - monitor pressure"])%list, isValid)
    else ((validationNotes ++ ["Head loss is within acceptable range"])%list, isValid) in
  let maxLateralInput := dom_max_lateral dom in
  let '(validationNotes, isValid) :=
    if maxLateralLength state <? maxLateralInput * 0.8
    then ((validationNotes ++ ["Maximum lateral length may be too long for current setup"])%list,
          false)
    else (validationNotes, isValid) in
  let validationNotes :=
    if waterDemand state >? 100000
    then (validationNotes ++ ["High water demand - consider zone splitting"])%list
    else validationNotes in
  let area := dom_area dom in
  let diameter := dom_main_diameter dom in
  let '(validationNotes, isValid) :=
    if (area >? 50) && (diameter <? 110)
    then ((validationNotes ++ ["Large area detected - consider larger main pipe"])%list, false)
    else (validationNotes, isValid) in
  {| waterDemand := waterDemand state;
     pipeLength := pipeLength state;
     headLoss := headLoss state;
     maxLateralLength := maxLateralLength state;
     validationStatus := if isValid then "valid" else "invalid";
     validationNotes := validationNotes;
     bom := bom state |}.

Record Preset : Type := mkPreset { preset_eto : list num; preset_rainfall : list num }.

Definition presets_normal : Preset :=
  {| preset_eto :=
       [Fin 4.5; Fin 5.0; Fin 5.5; Fin 5.8; Fin 5.5; Fin 5.0;
        Fin 4.8; Fin 4.9; Fin 4.7; Fin 4.5; Fin 4.3; Fin 4.2];
     preset_rainfall :=
       [Fin 5; Fin 10; Fin 20; Fin 50; Fin 120; Fin 100;
        Fin 90; Fin 110; Fin 180; Fin 150; Fin 40; Fin 10] |}.

Definition presets_dry : Preset :=
  {| preset_eto :=
       [Fin 5.0; Fin 5.5; Fin 6.0; Fin 6.5; Fin 6.0; Fin 5.5;
        Fin 5.3; Fin 5.4; Fin 5.2; Fin 5.0; Fin 4.8; Fin 4.7];
     preset_rainfall :=
       [Fin 2; Fin 5; Fin 10; Fin 20; Fin 60; Fin 50;
        Fin 40; Fin 50; Fin 90; Fin 70; Fin 15; Fin 5] |}.

Definition presets_wet : Preset :=
  {| preset_eto :=
       [Fin 4.0; Fin 4.5; Fin 5.0; Fin 5.2; Fin 5.0; Fin 4.5;
        Fin 4.3; Fin 4.4; Fin 4.2; Fin 4.0; Fin 3.8; Fin 3.7];
     preset_rainfall :=
       [Fin 10; Fin 20; Fin 40; Fin 80; Fin 180; Fin 150;
        Fin 140; Fin 170; Fin 250; Fin 220; Fin 70; Fin 20] |}.

(** The property names every object inherits from [Object.prototype]:
    [presets[scenario]] is a truthy value, not a preset, for each of them. *)
Definition Object_prototype_names : list string :=
  [ "constructor"; "hasOwnProperty"; "isPrototypeOf"; "propertyIsEnumerable";
    "toLocaleString"; "toString"; "valueOf"; "__proto__";
    "__defineGetter__"; "__defineSetter__"; "__lookupGetter__"; "__lookupSetter__" ].

(** [presets[scenario] || presets.normal]; [None] when it is an inherited
    member, which has no [eto] and no [rainfall]. *)
Definition selectPreset (scenario : string) : option Preset :=
  if String.eqb scenario "normal" then Some presets_normal
  else if String.eqb scenario "dry" then Some presets_dry
  else if String.eqb scenario "wet" then Some presets_wet
  else if existsb (String.eqb scenario) Object_prototype_names then None
  else Some presets_normal.

(** [etoCells] and [rainfallCells] count the fields of class [monthly-eto]
    and [monthly-rainfall] of the monthly table.  The result holds the
    values assigned to the two columns, [None] inside a list standing for
    [undefined] (a cell beyond the twelfth); the outer [None] is the
    TypeError raised when the selected member has no series and there is a
    cell to fill. *)
Definition loadScenarioPreset (scenario : string) (etoCells rainfallCells : nat)
  : option (list (option num) * list (option num)) :=
  match selectPreset scenario with
  | Some preset =>
      Some (map (nth_error (preset_eto preset)) (seq 0 etoCells),
            map (nth_error (preset_rainfall preset)) (seq 0 rainfallCells))
  | None =>
      match etoCells, rainfallCells with
      | O, O => Some ([], [])
      | _, _ => None
      end
  end.

(** ** Projects *)

Record LatestMetrics : Type := mkLatestMetrics
  { demandLday : num;
    totalPipeLength : num;
    headLossPct : num;
    maxLateral : num;
    validationOk : bool;
    kc : option num;
    eto : option num;
    rainfall : option num;
    mainDiameter : option num }.

Module Project.

Record t : Type := mk
  { id : string;
    name : string;
    location : string;
    area : num;
    crop : string;
    lastUpdated : string;
    latestMetrics : LatestMetrics }.

End Project.

(** The fields [projects] and [currentProjectId] of [AppState]; [None] is
    [null]. *)
Record Projects : Type := mkProjects
  { projects : list Project.t; currentProjectId : option string }.

Definition getCurrentProject (app : Projects) : option Project.t :=
  match currentProjectId app with
  | Some current => find (fun p => String.eqb (Project.id p) current) (projects app)
  | None => None
  end.

(** The values [loadProject] assigns to the fields of the planner form. *)
Record FormValues : Type := mkFormValues
  { form_crop_type : string;
    form_area : num;
    form_area_value : num;
    form_kc : num;
    form_eto : num;
    form_rainfall : num;
    form_main_diameter : num;
    form_max_lateral : num }.

(** The new [AppState] and the values assigned to the form, [None] when no
    project has the identifier and nothing is assigned.  The recalculation
    that follows reads the form back and is not part of this function's
    result. *)
Definition loadProject (projectId : string) (app : Projects)
  : Projects * option FormValues :=
  match find (fun p => String.eqb (Project.id p) projectId) (projects app) with
  | None => (app, None)
  | Some project =>
      let metrics := Project.latestMetrics project in
      ({| projects := projects app; currentProjectId := Some projectId |},
       Some {| form_crop_type := Project.crop project;
               form_area := Project.area project;
               form_area_value := Project.area project;
               form_kc := or_default (kc metrics) 0.9;
               form_eto := or_default (eto metrics) 5.0;
               form_rainfall := or_default (rainfall metrics) 0;
               form_main_diameter := or_default (mainDiameter metrics) 110;
               form_max_lateral := maxLateral metrics || 100 |})
  end.

(** [name] and [location] are the trimmed texts of the two fields, [area]
    the number the area field parses to, [now] the text of [Date.now()] and
    [nowIso] the clock reading. *)
Definition createProject (name location : string) (area : num) (crop : string)
  (now nowIso : string) (app : Projects) : Projects * option FormValues :=
  if (String.eqb name EmptyString || String.eqb location EmptyString
      || negb (truthy area))%bool
  then (app, None)
  else
    let project :=
      {| Project.id := now;
         Project.name := name;
         Project.location := location;
         Project.area := area;
         Project.crop := crop;
         Project.lastUpdated := nowIso;
         Project.latestMetrics :=
           {| demandLday := 0;
              totalPipeLength := 0;
              headLossPct := 0;
              maxLateral := 0;
              validationOk := false;
              kc := None;
              eto := None;
              rainfall := None;
              mainDiameter := None |} |} in
    loadProject (Project.id project)
      {| projects := (projects app ++ [project])%list;
         currentProjectId := currentProjectId app |}.

(** [confirmed] is the answer to the confirmation dialog. *)
Definition deleteProject (confirmed : bool) (projectId : string) (app : Projects)
  : Projects :=
  if negb confirmed then app
  else
    {| projects :=
         filter (fun p => negb (String.eqb (Project.id p) projectId)) (projects app);
       currentProjectId :=
         match currentProjectId app with
         | Some current => if String.eqb current projectId then None else Some current
         | None => None
         end |}.

Definition editProject (projectId : string) (app : Projects)
  : Projects * option FormValues :=
  match find (fun p => String.eqb (Project.id p) projectId) (projects app) with
  | None => (app, None)
  | Some _ => loadProject projectId app
  end.

(** The project [find] returns is an element of the array: assigning to its
    fields changes the first project of that identifier in place. *)
Fixpoint assignFirst (projectId : string) (f : Project.t -> Project.t)
  (l : list Project.t) : list Project.t :=
  match l with
  | [] => []
  | p :: t =>
      if String.eqb (Project.id p) projectId then f p :: t
      else p :: assignFirst projectId f t
  end.

(** The assignments of [finalizeDesign] to the current project; without a
    current project nothing changes.  [nowIso] is the clock reading. *)
Definition finalizeDesign (dom : Dom) (state : CalculationState) (nowIso : string)
  (app : Projects) : Projects :=
  match getCurrentProject app, currentProjectId app with
  | Some _, Some current =>
      let kc := dom_kc dom in
      let eto := dom_eto dom in
      let rainfall := dom_rainfall dom in
      let diameter := dom_main_diameter dom in
      let maxLateral := dom_max_lateral dom in
      {| projects :=
           assignFirst current
             (fun project =>
                {| Project.id := Project.id project;
                   Project.name := Project.name project;
                   Project.location := Project.location project;
                   Project.area := Project.area project;
                   Project.crop := Project.crop project;
                   Project.lastUpdated := nowIso;
                   Project.latestMetrics :=
                     {| demandLday := waterDemand state;
                        totalPipeLength := pipeLength state;
                        headLossPct := headLoss state;
                        maxLateral := maxLateral;
                        validationOk := String.eqb (validationStatus state) "valid";
                        kc := Some kc;
                        eto := Some eto;
                        rainfall := Some rainfall;
                        mainDiameter := Some diameter |} |})
             (projects app);
         currentProjectId := currentProjectId app |}
  | _, _ => app
  end.

End Legacy.

(** ** The water balance on binary64 numbers *)

Module Binary64.

Import Floats.
#[local] Set Warnings "-inexact-float".
Local Open Scope float_scope.

(** [Math.max] of two numbers.  The sign of a zero result is not tracked. *)
Definition Math_max (x y : float) : float :=
  if orb (PrimFloat.is_nan x) (PrimFloat.is_nan y) then nan
  else if x <? y then y else x.

(** [x || d]: [0] and [NaN] are falsy. *)
Definition or_else (x d : float) : float :=
  if orb (PrimFloat.is_nan x) (x =? 0) then d else x.

(** The fields of the planner inputs that the water balance reads. *)
Record Inputs : Type := mkInputs
  { areaRai : float;
    kc : float;
    kcInitial : float;
    kcDevelopment : float;
    kcMid : float;
    kcLate : float;
    eto : float;
    rainfall : float;
    efficiency : float }.

Definition computeSeasonalKc (inputs : Inputs) : float :=
  let totalDays := 20 + 30 + 40 + 30 in
  let weightedKc :=
    (kcInitial inputs * 20 + kcDevelopment inputs * 30 +
     kcMid inputs * 40 + kcLate inputs * 30) / totalDays in
  or_else (or_else weightedKc (kc inputs)) 1.0.

Definition calculateEffectiveRainFAO56 (rainfallMm : float) : float :=
  let P := Math_max 0 rainfallMm in
  let Pe := if P <=? 250 then (P * (125 - 0.2 * P)) / 125 else 125 + 0.1 * P in
  Math_max 0 Pe.

Record WaterDemand : Type := mkWaterDemand
  { areaM2 : float;
    seasonalKc : float;
    etc : float;
    effectiveRain : float;
    netIrrigation : float;
    appliedEfficiency : float;
    appliedDepth : float;
    waterDemandLday : float }.

Definition calculateWaterDemandLperDay (inputs : Inputs) : WaterDemand :=
  let areaRai := or_else (areaRai inputs) 0 in
  let areaM2 := areaRai * 1600 in
  let seasonalKc := computeSeasonalKc inputs in
  let etc := eto inputs * seasonalKc in
  let effectiveRain := calculateEffectiveRainFAO56 (rainfall inputs) in
  let netIrrigation := Math_max 0 (etc - effectiveRain) in
  let efficiency := Math_max 0.01 (or_else (efficiency inputs) 80 / 100) in
  let appliedDepth := netIrrigation / efficiency in
  let waterDemand := appliedDepth * areaM2 in
  {| areaM2 := areaM2;
     seasonalKc := seasonalKc;
     etc := etc;
     effectiveRain := effectiveRain;
     netIrrigation := netIrrigation;
     appliedEfficiency := efficiency;
     appliedDepth := appliedDepth;
     waterDemandLday := waterDemand |}.

(** The worked example: Kc = 0.3 in every stage, ET0 = 5, no rain,
    efficiency 80 %, on [area] rai. *)
Definition golden (area : float) : Inputs :=
  {| areaRai := area; kc := 0.9; kcInitial := 0.3; kcDevelopment := 0.3;
     kcMid := 0.3; kcLate := 0.3; eto := 5; rainfall := 0; efficiency := 80 |}.

End Binary64.

(** ** The formulas as the specification writes them *)

Module Spec.

Local Open Scope js_scope.

(** Hazen-Williams friction loss, metric form (specification, 4.3):
    hf = 10.67 x Q^1.852 x L / (C^1.852 x D^4.871), C = 150. *)
Definition hazenWilliams (Q L D : num) : num :=
  10.67 * Math_pow Q 1.852 * L / (Math_pow 150 1.852 * Math_pow D 4.871).

(** clamp(x, 0, 100). *)
Definition clampPercent (x : num) : num := Math_max 0 (Math_min 100 x).

(** headLossPercent = clamp(hf / operatingHeadM x 100, 0, 100). *)
Definition headLossPercent (hf operatingHead : num) : num :=
  clampPercent (hf / operatingHead * 100).

(** zoneCount = max(1, ceil(waterDemandLPerDay / maxZoneCapacityLPerDay))
    (specification, 4.4). *)
Definition zoneCount (waterDemandLPerDay maxZoneCapacityLPerDay : num) : num :=
  Math_max 1 (Math_ceil (waterDemandLPerDay / maxZoneCapacityLPerDay)).

(** lengthPerZoneM = ceil(totalPipeLengthM / zoneCount). *)
Definition lengthPerZoneM (totalPipeLengthM zoneCount : num) : num :=
  Math_ceil (totalPipeLengthM / zoneCount).

(** The sum of [f] over the items of a bill, as in
    totalCost = sum of quantity x unitPrice over all items. *)
Fixpoint sumOf {A : Type} (f : A -> num) (items : list A) : num :=
  match items with
  | [] => Fin 0
  | x :: t => f x + sumOf f t
  end.

End Spec.

(** ** Named inputs used by the examples *)

Module Scenario.

Local Open Scope string_scope.

(** The planner form with Kc = 0.3 in all four stages, ET0 = 5, no rain,
    efficiency 80 %, and [area] rai. *)
Definition goldenStageKc (area : R) : Planner.Inputs :=
  Planner.mkInputs "Sugarcane" area 0.9 0.3 0.3 0.3 0.3 5 0 80 110 100 8 12 12
    "heuristic".

(** The same with the four stage values 0 and the scalar Kc = 0.3. *)
Definition goldenScalarKc (area : R) : Planner.Inputs :=
  Planner.mkInputs "Sugarcane" area 0.3 0 0 0 0 5 0 80 110 100 8 12 12
    "heuristic".

Definition goldenDepths (areaM2 demand : R) : Planner.WaterDemand :=
  {| Planner.areaM2 := areaM2;
     Planner.seasonalKc := 0.3;
     Planner.etc := 1.5;
     Planner.effectiveRain := 0;
     Planner.netIrrigation := 1.5;
     Planner.appliedEfficiency := 0.8;
     Planner.appliedDepth := 1.875;
     Planner.waterDemandLday := demand |}.

Definition goldenTenRai : Planner.WaterDemand := goldenDepths 16000 30000.

Definition goldenTenHectares : Planner.WaterDemand := goldenDepths 100000 187500.

(** The default form of [script.js] with an area of -1 ha: Kc = 1,
    ET0 = 5, no rain. *)
Definition negativeAreaDom : Legacy.Dom := Legacy.mkDom (-1) 1 5 0 110 100.

(** The planner form with an area of -1 rai, Kc = 1 in every stage. *)
Definition negativeAreaInputs : Planner.Inputs :=
  Planner.mkInputs "Sugarcane" (-1) 1 1 1 1 1 5 0 80 110 100 8 12 12 "heuristic".

(** The planner form with ET0 = -1 mm/day on 10 rai. *)
Definition negativeEtoInputs : Planner.Inputs :=
  Planner.mkInputs "Sugarcane" 10 1 1 1 1 1 (-1) 0 80 110 100 8 12 12 "heuristic".

(** The form of [script.js] as it loads: 10 ha, Kc = 0.9, ET0 = 5, no
    rain, a 110 mm main, laterals of at most 100 m. *)
Definition defaultDom : Legacy.Dom := Legacy.mkDom 10 0.9 5 0 110 100.

(** The state of the default form: 450000 L/day over 759 m of pipe, the
    head loss, the lateral length and the bill left at their initial
    values. *)
Definition defaultState : Legacy.CalculationState :=
  {| Legacy.waterDemand := 450000;
     Legacy.pipeLength := 759;
     Legacy.headLoss := 0;
     Legacy.maxLateralLength := 0;
     Legacy.validationStatus := "pending";
     Legacy.validationNotes := [];
     Legacy.bom := [] |}.

(** A clock reading. *)
Definition someTime : string := "2025-01-01T00:00:00.000Z".

(** A rendering of numbers for the examples: their text is not looked at. *)
Definition plainNumber (x : num) : string := EmptyString.

(** The preset "dry" of the monthly table of [script.js]. *)
Definition dryEto : list R :=
  [5.0; 5.5; 6.0; 6.5; 6.0; 5.5; 5.3; 5.4; 5.2; 5.0; 4.8; 4.7].

Definition dryRainfall : list R :=
  [2; 5; 10; 20; 60; 50; 40; 50; 90; 70; 15; 5].

(** A year in which one month, April, has an unusually high ET0 and no
    rain. *)
Definition hotAprilEto : list R :=
  [4; 4; 4; 8; 4; 4; 4; 4; 4; 4; 4; 4].

Definition hotAprilRainfall : list R :=
  [2; 2; 2; 0; 2; 2; 2; 2; 2; 2; 2; 2].

(** The monthly demands of that year on 1 ha with the stage coefficients
    0.5, 1 and 0.5, as [script.js] computes them (L/day). *)
Definition hotAprilLegacyDemand : list R :=
  [4000; 4000; 4000; 80000; 24000; 24000; 24000; 24000; 24000; 4000; 4000; 4000].

(** The monthly demands of that year on 1 rai with the same coefficients,
    as the planner computes them (L/month). *)
Definition hotAprilPlannerDemand : list R :=
  [0; 0; 99200; 384000; 99200; 96000; 99200; 99200; 0; 0; 0; 0].

End Scenario.

(** ** Facts about JavaScript numbers *)

Module JSFacts.

Lemma add_Fin (a b : R) : add (Fin a) (Fin b) = Fin (a + b).
Proof. reflexivity. Qed.

Lemma sub_Fin (a b : R) : sub (Fin a) (Fin b) = Fin (a - b).
Proof. reflexivity. Qed.

Lemma mul_Fin (a b : R) : mul (Fin a) (Fin b) = Fin (a * b).
Proof. reflexivity. Qed.

Lemma div_Fin (a b : R) : b <> 0 -> div (Fin a) (Fin b) = Fin (a / b).
Proof.
  intros Hb. unfold div.
  destruct (Req_dec_T b 0); [contradiction | reflexivity].
Qed.

Lemma div_Fin_zero (a : R) : 0 < a -> div (Fin a) (Fin 0) = PInf.
Proof.
  intros Ha. unfold div, inf_of_sign.
  destruct (Req_dec_T 0 0); [| lra].
  destruct (Rlt_dec 0 a); [reflexivity | lra].
Qed.

Lemma Math_max_Fin (a b : R) : Math_max (Fin a) (Fin b) = Fin (Rmax a b).
Proof. reflexivity. Qed.

Lemma Math_min_Fin (a b : R) : Math_min (Fin a) (Fin b) = Fin (Rmin a b).
Proof. reflexivity. Qed.

Lemma or_else_nz (a : R) (d : num) : a <> 0 -> or_else (Fin a) d = Fin a.
Proof.
  intros H. unfold or_else, truthy.
  destruct (Req_dec_T a 0); [contradiction | reflexivity].
Qed.

Lemma or_else_z (a : R) (d : num) : a = 0 -> or_else (Fin a) d = d.
Proof.
  intros H. unfold or_else, truthy.
  destruct (Req_dec_T a 0); [reflexivity | contradiction].
Qed.

Lemma leb_Fin_true (a b : R) : a <= b -> leb (Fin a) (Fin b) = true.
Proof.
  intros H. unfold leb. destruct (Rle_dec a b); [reflexivity | contradiction].
Qed.

Lemma leb_Fin_false (a b : R) : b < a -> leb (Fin a) (Fin b) = false.
Proof.
  intros H. unfold leb. destruct (Rle_dec a b); [lra | reflexivity].
Qed.

Lemma ltb_Fin_true (a b : R) : a < b -> ltb (Fin a) (Fin b) = true.
Proof.
  intros H. unfold ltb. destruct (Rlt_dec a b); [reflexivity | contradiction].
Qed.

Lemma ltb_Fin_false (a b : R) : b <= a -> ltb (Fin a) (Fin b) = false.
Proof.
  intros H. unfold ltb. destruct (Rlt_dec a b); [lra | reflexivity].
Qed.

Lemma Math_ceil_Fin (a : R) : Math_ceil (Fin a) = Fin (IZR (Zceil a)).
Proof. reflexivity. Qed.

Lemma Math_round_Fin (a : R) : Math_round (Fin a) = Fin (IZR (Zfloor (a + / 2))).
Proof. reflexivity. Qed.

Lemma Math_pow_pos (a y : R) :
  0 < a -> y <> 0 -> Math_pow (Fin a) y = Fin (Rpower a y).
Proof.
  intros Ha Hy. unfold Math_pow.
  destruct (Req_dec_T y 0); [contradiction |].
  destruct (Rlt_dec 0 a); [reflexivity | contradiction].
Qed.

Lemma Math_pow_zero (y : R) : 0 < y -> Math_pow (Fin 0) y = Fin 0.
Proof.
  intros Hy. unfold Math_pow.
  destruct (Req_dec_T y 0); [lra |].
  destruct (Rlt_dec 0 0); [lra |].
  destruct (Req_dec_T 0 0); [| lra].
  destruct (Rlt_dec 0 y); [reflexivity | contradiction].
Qed.

Lemma Rpower_pos (a y : R) : 0 < Rpower a y.
Proof. unfold Rpower. apply exp_pos. Qed.

End JSFacts.

Import JSFacts.

(** Evaluation of a JavaScript expression on finite operands: the
    arithmetic is pushed under [Fin], and each test on real numbers is
    settled by linear arithmetic where it can be. *)
Ltac js_cond :=
  match goal with
  | |- context [div (Fin ?a) (Fin ?b)] => rewrite (div_Fin a b) by lra
  | |- context [or_else (Fin ?a) ?d] =>
      first [rewrite (or_else_nz a d) by lra | rewrite (or_else_z a d) by lra]
  | |- context [Rmax ?a ?b] =>
      first [rewrite (Rmax_left a b) by lra | rewrite (Rmax_right a b) by lra]
  | |- context [Rmin ?a ?b] =>
      first [rewrite (Rmin_left a b) by lra | rewrite (Rmin_right a b) by lra]
  | |- context [leb (Fin ?a) (Fin ?b)] =>
      first [rewrite (leb_Fin_true a b) by lra | rewrite (leb_Fin_false a b) by lra]
  | |- context [ltb (Fin ?a) (Fin ?b)] =>
      first [rewrite (ltb_Fin_true a b) by lra | rewrite (ltb_Fin_false a b) by lra]
  | |- context [Math_pow (Fin ?a) ?y] =>
      first [rewrite (Math_pow_pos a y) by lra | rewrite (Math_pow_zero y) by lra]
  end.

Ltac js_eval :=
  unfold parseFloat, gtb, geb;
  repeat first
    [ progress rewrite ?add_Fin, ?sub_Fin, ?mul_Fin, ?Math_max_Fin, ?Math_min_Fin,
        ?Math_ceil_Fin, ?Math_round_Fin
    | js_cond ].

(** ** The water balance *)

Module WaterBalance.

Import Planner.

Ltac unfold_demand :=
  unfold calculateWaterDemandLperDay, computeSeasonalKc,
    calculateEffectiveRainFAO56, DEFAULT_STAGE_DAYS;
  cbn [areaRai kc kcInitial kcDevelopment kcMid kcLate eto rainfall efficiency
       initial development mid late].

(** C1.  The worked example of the water balance: Kc = 0.3 (as four equal
    stage values, or as the scalar fallback when the stage values are 0),
    ET0 = 5 mm/day, no rainfall, efficiency 80 %.  For 10 rai the area is
    16000 m2, ETc = 1.5, NIR = 1.5, applied depth = 1.875 mm/day and the
    demand is 30000 L/day; for 10 ha, entered as 62.5 rai, the area is
    100000 m2 and the demand is 187500 L/day, with the same depths. *)
Theorem golden_water_balance :
  calculateWaterDemandLperDay (Scenario.goldenStageKc 10) = Scenario.goldenTenRai /\
  calculateWaterDemandLperDay (Scenario.goldenScalarKc 10) = Scenario.goldenTenRai /\
  raiToHa 62.5 = Fin 10 /\
  calculateWaterDemandLperDay (Scenario.goldenStageKc 62.5) = Scenario.goldenTenHectares /\
  calculateWaterDemandLperDay (Scenario.goldenScalarKc 62.5) = Scenario.goldenTenHectares.
Proof.
  unfold Scenario.goldenTenRai, Scenario.goldenTenHectares, Scenario.goldenDepths.
  repeat split.
  - unfold Scenario.goldenStageKc. unfold_demand. js_eval. repeat (f_equal; try lra).
  - unfold Scenario.goldenScalarKc. unfold_demand. js_eval. repeat (f_equal; try lra).
  - unfold raiToHa, RAI_PER_HA. js_eval. f_equal. lra.
  - unfold Scenario.goldenStageKc. unfold_demand. js_eval. repeat (f_equal; try lra).
  - unfold Scenario.goldenScalarKc. unfold_demand. js_eval. repeat (f_equal; try lra).
Qed.


(** The hectare-based calculator of [script.js] has no efficiency step: for
    the same crop and climate on 10 ha it returns the net requirement,
    1.5 mm/day over 100000 m2. *)
Remark legacy_ten_hectares :
  Legacy.calculateWaterDemand (Legacy.mkDom 10 0.3 5 0 110 100) = Fin 150000.
Proof.
  unfold Legacy.calculateWaterDemand.
  cbn [Legacy.dom_area Legacy.dom_kc Legacy.dom_eto Legacy.dom_rainfall].
  js_eval. f_equal. lra.
Qed.

Lemma or_else_zero_idem (a : R) : or_else (Fin a) (Fin 0) = Fin a.
Proof.
  destruct (Req_dec_T a 0) as [H | H].
  - rewrite or_else_z by exact H. now rewrite H.
  - now rewrite or_else_nz.
Qed.

Lemma seasonalKc_finite (crop mode : string)
  (area k ki kd km kl e r f D M h sx sy : R) :
  exists s,
    computeSeasonalKc (mkInputs crop area k ki kd km kl e r f D M h sx sy mode) = Fin s /\
    (0 <= k -> 0 <= ki -> 0 <= kd -> 0 <= km -> 0 <= kl -> 0 <= s).
Proof.
  unfold computeSeasonalKc, DEFAULT_STAGE_DAYS.
  cbn [kc kcInitial kcDevelopment kcMid kcLate initial development mid late].
  rewrite ?mul_Fin, ?add_Fin. rewrite div_Fin by lra.
  set (w := (ki * 20 + kd * 30 + km * 40 + kl * 30) / (20 + 30 + 40 + 30)).
  destruct (Req_dec_T w 0) as [Hw | Hw].
  - rewrite (or_else_z w) by exact Hw.
    destruct (Req_dec_T k 0) as [Hk | Hk].
    + rewrite (or_else_z k) by exact Hk. exists 1.0. split; [reflexivity | intros; lra].
    + rewrite (or_else_nz k) by exact Hk.
      exists k. split; [reflexivity | intros; lra].
  - rewrite (or_else_nz w) by exact Hw. rewrite or_else_nz by exact Hw.
    exists w. split; [reflexivity |]. intros. unfold w. lra.
Qed.

(** The effective rainfall of a finite rainfall, as a real function. *)
Lemma effectiveRain_finite (r : R) :
  exists pe, calculateEffectiveRainFAO56 (Fin r) = Fin pe /\ 0 <= pe.
Proof.
  unfold calculateEffectiveRainFAO56. rewrite Math_max_Fin.
  set (P := Rmax 0 r).
  destruct (Rle_dec P 250) as [H | H].
  - rewrite leb_Fin_true by exact H.
    rewrite ?mul_Fin, ?sub_Fin, ?mul_Fin. rewrite div_Fin by lra.
    rewrite Math_max_Fin. eexists. split; [reflexivity | apply Rmax_l].
  - rewrite leb_Fin_false by lra.
    rewrite ?mul_Fin, ?add_Fin, ?Math_max_Fin.
    eexists. split; [reflexivity | apply Rmax_l].
Qed.

Lemma applied_efficiency_finite (f : R) :
  exists q, Math_max 0.01 (div (or_else (parseFloat (Fin f)) 80) 100) = Fin q /\ 0.01 <= q.
Proof.
  unfold parseFloat.
  destruct (Req_dec_T f 0) as [H | H].
  - rewrite or_else_z by exact H. rewrite div_Fin by lra. rewrite Math_max_Fin.
    eexists. split; [reflexivity | apply Rmax_l].
  - rewrite or_else_nz by exact H. rewrite div_Fin by lra. rewrite Math_max_Fin.
    eexists. split; [reflexivity | apply Rmax_l].
Qed.

(** On finite inputs every field of the water balance is finite. *)
Lemma demand_finite_form (crop mode : string)
  (area k ki kd km kl e r f D M h sx sy : R) :
  exists s pe q,
    0 <= pe /\ 0.01 <= q /\
    (0 <= k -> 0 <= ki -> 0 <= kd -> 0 <= km -> 0 <= kl -> 0 <= s) /\
    calculateWaterDemandLperDay
      (mkInputs crop area k ki kd km kl e r f D M h sx sy mode) =
    {| areaM2 := Fin (area * 1600);
       seasonalKc := Fin s;
       etc := Fin (e * s);
       effectiveRain := Fin pe;
       netIrrigation := Fin (Rmax 0 (e * s - pe));
       appliedEfficiency := Fin q;
       appliedDepth := Fin (Rmax 0 (e * s - pe) / q);
       waterDemandLday := Fin (Rmax 0 (e * s - pe) / q * (area * 1600)) |}.
Proof.
  destruct (seasonalKc_finite crop mode area k ki kd km kl e r f D M h sx sy)
    as (s & Hs & Hs0).
  destruct (effectiveRain_finite r) as (pe & Hpe & Hpe0).
  destruct (applied_efficiency_finite f) as (q & Hq & Hq0).
  exists s, pe, q. repeat split; try assumption.
  unfold calculateWaterDemandLperDay. rewrite Hs.
  cbn [areaRai eto rainfall efficiency]. rewrite Hpe, Hq.
  unfold parseFloat. rewrite ?or_else_zero_idem.
  rewrite ?mul_Fin, ?sub_Fin, ?Math_max_Fin. rewrite div_Fin by lra.
  rewrite ?mul_Fin. reflexivity.
Qed.

Lemma legacy_demand_form (area k e r D M : R) :
  Legacy.calculateWaterDemand (Legacy.mkDom area k e r D M) =
  Fin (Rmax 0 (k * e - r) * area * 10000).
Proof. reflexivity. Qed.

(** C2, as stated, fails.  With a negative area the demand is negative in
    both variants (the area is never clamped), and with a negative ET0 the
    crop evapotranspiration is negative, not 0. *)
Lemma water_demand_edge_counterexample :
  Legacy.calculateWaterDemand Scenario.negativeAreaDom = Fin (-50000) /\
  waterDemandLday (calculateWaterDemandLperDay Scenario.negativeAreaInputs) = Fin (-10000) /\
  etc (calculateWaterDemandLperDay Scenario.negativeEtoInputs) = Fin (-1).
Proof.
  repeat split.
  - unfold Scenario.negativeAreaDom. rewrite legacy_demand_form.
    js_eval. f_equal. lra.
  - unfold Scenario.negativeAreaInputs. unfold_demand.
    cbn [waterDemandLday]. js_eval. f_equal. lra.
  - unfold Scenario.negativeEtoInputs. unfold_demand.
    cbn [etc]. js_eval. f_equal. lra.
Qed.

(** C2, amended.  For finite inputs: when ET0 <= 0, the rainfall is not
    negative and no crop coefficient is negative, ETc <= 0, the net
    irrigation requirement is 0 and the demand is 0 in both variants;
    ETc = 0 when ET0 = 0; the demand is 0 when the area is 0, and it is
    not negative when the area is not negative. *)
Theorem water_demand_edge_cases
  (crop mode : string) (area k ki kd km kl e r f D M h sx sy : R) :
  exists dl x n dw,
    Legacy.calculateWaterDemand (Legacy.mkDom area k e r D M) = Fin dl /\
    (let w := calculateWaterDemandLperDay
                (mkInputs crop area k ki kd km kl e r f D M h sx sy mode) in
     etc w = Fin x /\ netIrrigation w = Fin n /\ waterDemandLday w = Fin dw) /\
    (e <= 0 -> 0 <= r -> 0 <= k -> 0 <= ki -> 0 <= kd -> 0 <= km -> 0 <= kl ->
     x <= 0 /\ n = 0 /\ dl = 0 /\ dw = 0) /\
    (e = 0 -> x = 0) /\
    (area = 0 -> dl = 0 /\ dw = 0) /\
    (0 <= area -> 0 <= dl /\ 0 <= dw).
Proof.
  destruct (demand_finite_form crop mode area k ki kd km kl e r f D M h sx sy)
    as (s & pe & q & Hpe & Hq & Hs & Hw).
  rewrite Hw, legacy_demand_form. cbn [etc netIrrigation waterDemandLday].
  do 4 eexists. split; [reflexivity |]. split; [repeat split; reflexivity |].
  assert (Hq' : 0 < / q) by (apply Rinv_0_lt_compat; lra).
  unfold Rdiv.
  split; [| split; [| split]].
  - intros He Hr Hk Hki Hkd Hkm Hkl. specialize (Hs Hk Hki Hkd Hkm Hkl).
    assert (Hx : e * s <= 0) by nra.
    repeat split.
    + exact Hx.
    + apply Rmax_left. lra.
    + rewrite Rmax_left by nra. ring.
    + rewrite Rmax_left by lra. ring.
  - intros He. subst e. ring.
  - intros Ha. subst area. split; ring.
  - intros Ha.
    pose proof (Rmax_l 0 (k * e - r)) as Hl.
    pose proof (Rmax_l 0 (e * s - pe)) as Hn.
    assert (0 <= Rmax 0 (e * s - pe) * / q) by nra.
    split; nra.
Qed.

(** The edge cases at ET0 = -1 on 10 units of area. *)
Lemma water_demand_edge_cases_witness :
  exists dl x n dw,
    Legacy.calculateWaterDemand (Legacy.mkDom 10 0.9 (-1) 0 110 100) = Fin dl /\
    (let w := calculateWaterDemandLperDay
                (mkInputs "Rice" 10 0.9 0.3 0.7 1 0.7 (-1) 0 80 110 100 8 12 12 "ai") in
     etc w = Fin x /\ netIrrigation w = Fin n /\ waterDemandLday w = Fin dw) /\
    x <= 0 /\ n = 0 /\ dl = 0 /\ dw = 0.
Proof.
  destruct (water_demand_edge_cases "Rice" "ai" 10 0.9 0.3 0.7 1 0.7 (-1) 0 80 110 100 8 12 12)
    as (dl & x & n & dw & Hl & Hw & He & _).
  exists dl, x, n, dw. split; [exact Hl |]. split; [exact Hw |].
  apply He; lra.
Defined.

End WaterBalance.

(** ** Effective rainfall *)

Module EffectiveRain.

Import Planner.

(** Over the real numbers, without rounding, the USDA-SCS formula does
    not decrease when the rainfall grows (for any two finite rainfalls,
    also across the breakpoint at 250 mm), and it is 0 for no rainfall.
    The doubles of the program follow it up to rounding only: see
    [Rounding]. *)
Lemma effective_rain_monotone (p1 p2 : R) :
  p1 <= p2 ->
  (exists e1 e2,
     calculateEffectiveRainFAO56 (Fin p1) = Fin e1 /\
     calculateEffectiveRainFAO56 (Fin p2) = Fin e2 /\
     e1 <= e2) /\
  calculateEffectiveRainFAO56 (Fin 0) = Fin 0.
Proof.
  intros Hle. split.
  - unfold calculateEffectiveRainFAO56. rewrite !Math_max_Fin.
    pose proof (Rmax_l 0 p1) as H1.
    pose proof (Rmax_l 0 p2) as H2.
    pose proof (Rle_max_compat_l _ _ 0 Hle) as H12.
    set (P1 := Rmax 0 p1) in *. set (P2 := Rmax 0 p2) in *.
    destruct (Rle_dec P1 250) as [L1 | L1];
      destruct (Rle_dec P2 250) as [L2 | L2].
    + rewrite !leb_Fin_true by assumption.
      rewrite ?mul_Fin, ?sub_Fin, ?mul_Fin. rewrite !div_Fin by lra.
      rewrite !Math_max_Fin. do 2 eexists. do 2 (split; [reflexivity |]).
      apply Rle_max_compat_l. nra.
    + rewrite (leb_Fin_true P1) by assumption.
      rewrite (leb_Fin_false P2) by lra.
      rewrite ?mul_Fin, ?sub_Fin, ?mul_Fin, ?add_Fin. rewrite !div_Fin by lra.
      rewrite !Math_max_Fin. do 2 eexists. do 2 (split; [reflexivity |]).
      apply Rle_max_compat_l. nra.
    + exfalso. lra.
    + rewrite !leb_Fin_false by lra.
      rewrite ?mul_Fin, ?add_Fin, ?Math_max_Fin.
      do 2 eexists. do 2 (split; [reflexivity |]).
      apply Rle_max_compat_l. lra.
  - unfold calculateEffectiveRainFAO56. js_eval. reflexivity.
Qed.

(** The two branches meet at the breakpoint: 250 mm of rain count as
    150 mm, and 300 mm as 155 mm. *)
Lemma effective_rain_values :
  calculateEffectiveRainFAO56 (Fin 250) = Fin 150 /\
  calculateEffectiveRainFAO56 (Fin 300) = Fin 155.
Proof.
  split; unfold calculateEffectiveRainFAO56; js_eval; f_equal; lra.
Qed.

End EffectiveRain.

(** ** Head loss *)

Module HeadLoss.

Import Planner.

Lemma Rpower_one (y : R) : Rpower 1 y = 1.
Proof. unfold Rpower. rewrite ln_1, Rmult_0_r. apply exp_0. Qed.

Lemma exp_le (x y : R) : x <= y -> exp x <= exp y.
Proof.
  intros [H | H].
  - left. now apply exp_increasing.
  - subst. right. reflexivity.
Qed.

Lemma Rpower_le_base (x y : R) : 0 < x <= 1 -> 1 <= y -> Rpower x y <= x.
Proof.
  intros [Hx0 Hx1] Hy. unfold Rpower.
  rewrite <- (exp_ln x Hx0) at 2. apply exp_le.
  assert (ln x <= 0).
  { destruct Hx1 as [Hlt | Heq].
    - left. rewrite <- ln_1. now apply ln_increasing.
    - subst. rewrite ln_1. lra. }
  nra.
Qed.

Lemma Rpower_ge_one (x y : R) : 1 <= x -> 0 <= y -> 1 <= Rpower x y.
Proof.
  intros Hx Hy. rewrite <- (Rpower_O x) by lra. now apply Rle_Rpower.
Qed.

(** The power of a flow that is not negative. *)
Lemma pow_flow (q y : R) :
  0 <= q -> 0 < y ->
  exists pf, Math_pow (Fin q) y = Fin pf /\ 0 <= pf /\ (0 < q -> pf = Rpower q y).
Proof.
  intros [Hq | Hq] Hy.
  - rewrite Math_pow_pos by lra. exists (Rpower q y).
    split; [reflexivity |]. split; [left; apply Rpower_pos | reflexivity].
  - subst q. rewrite Math_pow_zero by exact Hy. exists 0.
    split; [reflexivity |]. split; lra.
Qed.

Lemma pipe_length_used (L : R) :
  exists len, Math_max 1 (or_else (Fin L) 100) = Fin len /\ 1 <= len.
Proof.
  destruct (Req_dec_T L 0) as [H | H].
  - rewrite or_else_z by exact H. rewrite Math_max_Fin.
    eexists. split; [reflexivity | apply Rmax_l].
  - rewrite or_else_nz by exact H. rewrite Math_max_Fin.
    eexists. split; [reflexivity | apply Rmax_l].
Qed.

Lemma diameter_used (D : R) :
  0 <= D -> exists dm, div (or_else (Fin D) 110) 1000 = Fin dm /\ 0 < dm.
Proof.
  intros [HD | HD].
  - rewrite or_else_nz by lra. rewrite div_Fin by lra.
    eexists. split; [reflexivity | lra].
  - rewrite or_else_z by lra. rewrite div_Fin by lra.
    eexists. split; [reflexivity | lra].
Qed.

(** [toFixed] of a number that is not negative, seen through a cap that is
    a multiple of the last digit kept. *)
Lemma toFixed_capped (x : R) :
  0 <= x ->
  exists t, toFixed (Fin x) 2 = Fin t /\
            Rmin 100 t = Rmin 100 (IZR (Zfloor (x * 100 + / 2)) / 100).
Proof.
  intros Hx. unfold toFixed.
  destruct (Rle_dec (10 ^ 21) (Rabs x)) as [Hbig | Hsmall].
  - exists x. split; [reflexivity |].
    rewrite Rabs_pos_eq in Hbig by exact Hx.
    pose proof (Zfloor_bound (x * 100 + / 2)) as [_ Hfl].
    rewrite Rmin_left by lra. rewrite Rmin_left by lra. reflexivity.
  - destruct (Rlt_dec x 0) as [Hneg | _]; [lra |].
    eexists. split; [reflexivity |].
    replace (10 ^ 2) with 100 by lra. reflexivity.
Qed.

(** The clamp of the specification keeps a finite value within [0, 100]. *)
Lemma clamp_bounds (x : R) : 0 <= Rmax 0 (Rmin 100 x) <= 100.
Proof.
  split; [apply Rmax_l |].
  apply Rmax_lub; [lra | apply Rmin_l].
Qed.

(** The friction loss of [calculateHydraulics] is finite and not negative
    when the flow and the diameter are not negative. *)
Lemma hydraulics_hf_finite (Q L D lat : R) :
  0 <= Q -> 0 <= D ->
  exists h, hf (calculateHydraulics (Fin Q) (Fin L) (Fin D) (Fin lat) 30) = Fin h /\
            0 <= h.
Proof.
  intros HQ HD. unfold calculateHydraulics. cbn [hf].
  destruct (pipe_length_used L) as (len & -> & Hlen).
  destruct (diameter_used D HD) as (dm & -> & Hdm).
  destruct (pow_flow Q 1.852 HQ ltac:(lra)) as (pf & -> & Hpf & _).
  rewrite !Math_pow_pos by lra. rewrite ?mul_Fin.
  pose proof (Rpower_pos 150 1.852) as Hc.
  pose proof (Rpower_pos dm 4.871) as Hd.
  assert (Hden : 0 < Rpower 150 1.852 * Rpower dm 4.871) by nra.
  rewrite div_Fin by lra. eexists. split; [reflexivity |].
  apply Rmult_le_pos; [nra | left; now apply Rinv_0_lt_compat].
Qed.

Lemma legacy_pipe_length_form (area k e r D M : R) :
  0 <= area ->
  Legacy.calculatePipeLength (Legacy.mkDom area k e r D M) =
  Fin (IZR (Zfloor (sqrt (area * 10000) * 2 * 1.2 + / 2))).
Proof.
  intros Ha. unfold Legacy.calculatePipeLength. cbn [Legacy.dom_area].
  rewrite mul_Fin. unfold Math_sqrt.
  destruct (Rlt_dec (area * 10000) 0) as [Hneg | _]; [lra |].
  rewrite !mul_Fin, Math_round_Fin. reflexivity.
Qed.

Lemma legacy_hf_finite (area k e r D M : R) :
  0 <= area -> 0 < D ->
  let dom := Legacy.mkDom area k e r D M in
  exists h,
    Spec.hazenWilliams (Legacy.headLossFlowM3s dom) (Legacy.calculatePipeLength dom)
      (Legacy.headLossDiameterM dom) = Fin h /\ 0 <= h.
Proof.
  intros Ha HD dom. unfold Spec.hazenWilliams, Legacy.headLossFlowM3s, Legacy.headLossDiameterM, dom.
  rewrite WaterBalance.legacy_demand_form, legacy_pipe_length_form by exact Ha.
  cbn [Legacy.dom_main_diameter].
  rewrite mul_Fin. rewrite !div_Fin by lra.
  set (q := Rmax 0 (k * e - r) * area * 10000 / (24 * 3600) / 1000).
  assert (Hq : 0 <= q).
  { unfold q. pose proof (Rmax_l 0 (k * e - r)).
    assert (0 <= Rmax 0 (k * e - r) * area) by nra. lra. }
  destruct (pow_flow q 1.852 Hq ltac:(lra)) as (pf & -> & Hpf & _).
  rewrite !Math_pow_pos by lra. rewrite ?mul_Fin.
  pose proof (Rpower_pos 150 1.852) as Hc.
  pose proof (Rpower_pos (D / 1000) 4.871) as Hd.
  assert (Hden : 0 < Rpower 150 1.852 * Rpower (D / 1000) 4.871) by nra.
  rewrite div_Fin by lra. eexists. split; [reflexivity |].
  set (len := IZR (Zfloor (sqrt (area * 10000) * 2 * 1.2 + / 2))).
  assert (Hlen : 0 <= len).
  { unfold len. apply IZR_le. apply Zfloor_lub.
    pose proof (sqrt_pos (area * 10000)). lra. }
  apply Rmult_le_pos; [| left; now apply Rinv_0_lt_compat].
  apply Rmult_le_pos; [nra | exact Hlen].
Qed.

(** C4, as stated, fails for [calculateHydraulics]: it rounds the
    percentage to two decimals before clamping.  A flow of 0.1 L/s through
    1 m of pipe of 1 m diameter loses a positive fraction of the head, and
    the function reports 0. *)
Lemma head_loss_rounding_counterexample :
  let r := calculateHydraulics (Fin 0.0001) (Fin 1) (Fin 1000) (Fin 1) 30 in
  headLossPercent r = Fin 0 /\
  exists x, Spec.headLossPercent (hf r) 30 = Fin x /\ 0 < x.
Proof.
  cbv zeta.
  assert (Hhf : exists h,
           hf (calculateHydraulics (Fin 0.0001) (Fin 1) (Fin 1000) (Fin 1) 30) = Fin h /\
           0 < h <= 0.0011).
  { unfold calculateHydraulics. cbn [hf]. js_eval.
    replace (1000 / 1000) with 1 by lra. rewrite Rpower_one.
    pose proof (Rpower_pos 0.0001 1.852) as Hp0.
    pose proof (Rpower_le_base 0.0001 1.852 ltac:(lra) ltac:(lra)) as Hp1.
    pose proof (Rpower_ge_one 150 1.852 ltac:(lra) ltac:(lra)) as Hc.
    rewrite div_Fin by lra. eexists. split; [reflexivity |].
    assert (Hinv : 0 < / (Rpower 150 1.852 * 1) <= 1).
    { split; [apply Rinv_0_lt_compat; lra |].
      rewrite <- Rinv_1. apply Rinv_le_contravar; lra. }
    unfold Rdiv. split; nra. }
  destruct Hhf as (h & Hh & Hh0 & Hh1).
  split.
  - change (headLossPercent
              (calculateHydraulics (Fin 0.0001) (Fin 1) (Fin 1000) (Fin 1) 30))
      with (Math_max 0 (Math_min 100
              (toFixed (mul (div
                 (hf (calculateHydraulics (Fin 0.0001) (Fin 1) (Fin 1000) (Fin 1) 30))
                 30) 100) 2))).
    rewrite Hh. rewrite div_Fin by lra. rewrite mul_Fin.
    destruct (toFixed_capped (h / 30 * 100) ltac:(lra)) as (t & -> & Ht).
    rewrite Math_min_Fin, Ht, Math_max_Fin.
    rewrite (Zfloor_eq 0) by (simpl; lra).
    f_equal. rewrite Rmin_right by lra. rewrite Rmax_left by lra. reflexivity.
  - rewrite Hh. unfold Spec.headLossPercent, Spec.clampPercent.
    rewrite div_Fin by lra. rewrite mul_Fin, Math_min_Fin, Math_max_Fin.
    eexists. split; [reflexivity |].
    rewrite Rmin_right by lra. rewrite Rmax_right by lra. lra.
Qed.

(** C4, amended.  For a finite area, flow and diameter that are not
    negative (the diameter of [script.js] positive), the reported head loss
    lies in [0, 100]; [calculateHeadLoss] returns hf / 30 x 100 clamped to
    that interval, and [calculateHydraulics] returns hf / 30 x 100 rounded
    to two decimals and then clamped. *)
Theorem head_loss_percent_bounds (area k e r D M Q L lat : R) :
  0 <= area -> 0 < D -> 0 <= Q ->
  (let dom := Legacy.mkDom area k e r D M in
   exists h p,
     Spec.hazenWilliams (Legacy.headLossFlowM3s dom) (Legacy.calculatePipeLength dom)
       (Legacy.headLossDiameterM dom) = Fin h /\
     Legacy.calculateHeadLoss dom = Fin p /\
     p = Rmax 0 (Rmin 100 (h / 30 * 100)) /\
     0 <= p <= 100) /\
  (let res := calculateHydraulics (Fin Q) (Fin L) (Fin D) (Fin lat) 30 in
   exists h p,
     hf res = Fin h /\
     headLossPercent res = Fin p /\
     p = Rmax 0 (Rmin 100 (IZR (Zfloor (h / 30 * 100 * 100 + / 2)) / 100)) /\
     0 <= p <= 100).
Proof.
  intros Ha HD HQ. split.
  - intros dom.
    destruct (legacy_hf_finite area k e r D M Ha HD) as (h & Hh & Hh0).
    fold dom in Hh.
    exists h, (Rmax 0 (Rmin 100 (h / 30 * 100))).
    split; [exact Hh |]. split; [| split; [reflexivity | apply clamp_bounds]].
    change (Legacy.calculateHeadLoss dom)
      with (Spec.headLossPercent
              (Spec.hazenWilliams (Legacy.headLossFlowM3s dom) (Legacy.calculatePipeLength dom)
                 (Legacy.headLossDiameterM dom)) 30).
    rewrite Hh. unfold Spec.headLossPercent, Spec.clampPercent.
    rewrite div_Fin by lra. rewrite mul_Fin, Math_min_Fin, Math_max_Fin.
    reflexivity.
  - intros res.
    destruct (hydraulics_hf_finite Q L D lat HQ ltac:(lra)) as (h & Hh & Hh0).
    fold res in Hh.
    exists h, (Rmax 0 (Rmin 100 (IZR (Zfloor (h / 30 * 100 * 100 + / 2)) / 100))).
    split; [exact Hh |]. split; [| split; [reflexivity | apply clamp_bounds]].
    change (headLossPercent res)
      with (Math_max 0 (Math_min 100 (toFixed (mul (div (hf res) 30) 100) 2))).
    rewrite Hh. rewrite div_Fin by lra. rewrite mul_Fin.
    destruct (toFixed_capped (h / 30 * 100) ltac:(nra)) as (t & -> & Ht).
    rewrite Math_min_Fin, Ht, Math_max_Fin. reflexivity.
Qed.

(** 10 ha of the default crop on a 110 mm main, and 5 L/s through 600 m
    of it. *)
Lemma head_loss_percent_bounds_witness :
  (let dom := Legacy.mkDom 10 0.9 5 0 110 100 in
   exists h p,
     Spec.hazenWilliams (Legacy.headLossFlowM3s dom) (Legacy.calculatePipeLength dom)
       (Legacy.headLossDiameterM dom) = Fin h /\
     Legacy.calculateHeadLoss dom = Fin p /\
     p = Rmax 0 (Rmin 100 (h / 30 * 100)) /\
     0 <= p <= 100) /\
  (let res := calculateHydraulics (Fin 0.005) (Fin 600) (Fin 110) (Fin 360) 30 in
   exists h p,
     hf res = Fin h /\
     headLossPercent res = Fin p /\
     p = Rmax 0 (Rmin 100 (IZR (Zfloor (h / 30 * 100 * 100 + / 2)) / 100)) /\
     0 <= p <= 100).
Proof.
  apply (head_loss_percent_bounds 10 0.9 5 0 110 100 0.005 600 360); lra.
Defined.

End HeadLoss.

(** ** Maximum lateral length *)

Module MaxLateral.

Import Planner.
Import HeadLoss.

(** [calculateMaxLateralLength] on finite inputs: the setting itself when
    there is no demand, else the clamp of the inverted length. *)
Lemma legacy_max_lateral_form (area k e r D M : R) :
  0 <= area -> 0 < D ->
  let dom := Legacy.mkDom area k e r D M in
  let q := Rmax 0 (k * e - r) * area * 10000 / 10 / (24 * 3600 * 1000) in
  (q = 0 /\ Legacy.calculateMaxLateralLength dom = Fin M) \/
  (0 < q /\
   Legacy.calculateMaxLateralLength dom =
   Fin (Rmin M (Rmax 50 (0.05 * 30 * Rpower 150 1.852 * Rpower (D / 1000) 4.871 /
                         (10.67 * Rpower q 1.852))))).
Proof.
  intros Ha HD dom q. unfold Legacy.calculateMaxLateralLength, dom.
  rewrite WaterBalance.legacy_demand_form.
  cbn [Legacy.dom_main_diameter Legacy.dom_max_lateral].
  rewrite !mul_Fin. rewrite !div_Fin by lra. fold q.
  assert (Hq : 0 <= q).
  { unfold q. pose proof (Rmax_l 0 (k * e - r)).
    assert (0 <= Rmax 0 (k * e - r) * area) by nra. lra. }
  rewrite (Math_pow_pos 150) by lra. rewrite (Math_pow_pos (D / 1000)) by lra.
  pose proof (Rpower_pos 150 1.852) as Hc.
  pose proof (Rpower_pos (D / 1000) 4.871) as Hd.
  assert (Hnum : 0 < 0.05 * 30 * Rpower 150 1.852 * Rpower (D / 1000) 4.871).
  { assert (0 < Rpower 150 1.852 * Rpower (D / 1000) 4.871) by nra. nra. }
  destruct Hq as [Hq | Hq].
  - right. split; [exact Hq |].
    rewrite Math_pow_pos by lra. rewrite !mul_Fin.
    pose proof (Rpower_pos q 1.852) as Hp.
    rewrite div_Fin by lra. rewrite Math_max_Fin, Math_min_Fin. reflexivity.
  - left. split; [now symmetry |].
    rewrite <- Hq. rewrite Math_pow_zero by lra. rewrite !mul_Fin.
    replace (10.67 * 0) with 0 by lra.
    rewrite div_Fin_zero by exact Hnum. reflexivity.
Qed.

(** The setting the planner clamps to: the user's, or 100 for a setting
    of 0. *)
Lemma planner_setting (M : R) :
  exists m, parseFloat (or_else (Fin M) 100) = Fin m /\
            (M <> 0 -> m = M) /\ (M = 0 -> m = 100).
Proof.
  unfold parseFloat. destruct (Req_dec_T M 0) as [H | H].
  - rewrite or_else_z by exact H. exists 100. split; [reflexivity |]. split; intros; [contradiction | reflexivity].
  - rewrite or_else_nz by exact H. exists M. split; [reflexivity |]. split; intros; [reflexivity | contradiction].
Qed.

(** [toFixed] keeps a number that is not negative finite. *)
Lemma toFixed_finite (x : R) (d : nat) : exists t, toFixed (Fin x) d = Fin t.
Proof.
  unfold toFixed.
  destruct (Rle_dec (10 ^ 21) (Rabs x)); [| destruct (Rlt_dec x 0)];
    eexists; reflexivity.
Qed.

Lemma planner_max_lateral_form (hours demand D M : R) :
  0 <= demand -> 0 <= D ->
  exists m res,
    parseFloat (or_else (Fin M) 100) = Fin m /\
    calculateMaxLateralLengthFromDemand (Fin hours) (Fin demand) (Fin D) (Fin M) = Fin res /\
    res <= m /\ (20 <= m -> 20 <= res) /\ (m < 20 -> res = m) /\
    (demand = 0 -> res = m) /\
    (0 < demand ->
     exists dm t,
       div (parseFloat (or_else (Fin D) 110)) 1000 = Fin dm /\
       toFixed
         (Fin (0.05 * 30 * Rpower 150 1.852 * Rpower dm 4.871 /
               (10.67 * Rpower (demand / (Rmax 1 hours * 3600) / 10 / 1000) 1.852)))
         1 = Fin t /\
       res = Rmin m (Rmax 20 t)).
Proof.
  intros Hdem HD.
  destruct (planner_setting M) as (m & Hm & _).
  exists m. unfold calculateMaxLateralLengthFromDemand. rewrite Hm.
  destruct (diameter_used D HD) as (dm & Hdm & Hdm0).
  unfold parseFloat in *. rewrite Hdm.
  rewrite Math_max_Fin, !mul_Fin.
  pose proof (Rmax_l 1 hours) as Hh.
  rewrite !div_Fin by lra.
  set (q := demand / (Rmax 1 hours * 3600) / 10 / 1000).
  assert (Hq : 0 <= q /\ (0 < demand -> 0 < q)).
  { unfold q.
    assert (Hinv : 0 < / (Rmax 1 hours * 3600)) by (apply Rinv_0_lt_compat; lra).
    unfold Rdiv. split; [| intros Hpos]; nra. }
  destruct Hq as [Hq Hqpos].
  rewrite (Math_pow_pos 150) by lra. rewrite (Math_pow_pos dm) by lra.
  pose proof (Rpower_pos 150 1.852) as Hc.
  pose proof (Rpower_pos dm 4.871) as Hd.
  assert (Hnum : 0 < 0.05 * 30 * Rpower 150 1.852 * Rpower dm 4.871).
  { assert (0 < Rpower 150 1.852 * Rpower dm 4.871) by nra. nra. }
  destruct Hq as [Hq | Hq].
  - rewrite Math_pow_pos by lra. rewrite !mul_Fin.
    pose proof (Rpower_pos q 1.852) as Hp.
    rewrite div_Fin by lra.
    destruct (toFixed_finite
                (0.05 * 30 * Rpower 150 1.852 * Rpower dm 4.871 /
                 (10.67 * Rpower q 1.852)) 1) as (t & Ht).
    rewrite Ht, Math_max_Fin, Math_min_Fin.
    eexists. split; [reflexivity |]. split; [reflexivity |].
    pose proof (Rmax_l 20 t).
    split; [apply Rmin_l |]. split; [| split; [| split]].
    + intros. apply Rmin_glb; lra.
    + intros. apply Rmin_left. lra.
    + intros Hz. exfalso. subst demand. unfold q in Hq. lra.
    + intros _. exists dm, t. split; [reflexivity |]. split; [exact Ht | reflexivity].
  - rewrite <- Hq. rewrite Math_pow_zero by lra. rewrite !mul_Fin.
    replace (10.67 * 0) with 0 by lra.
    rewrite div_Fin_zero by exact Hnum.
    exists m. split; [reflexivity |]. split; [reflexivity |].
    split; [lra |]. split; [intros; lra |]. split; [intros; lra |].
    split; [intros; lra |].
    intros Hpos. exfalso. specialize (Hqpos Hpos). lra.
Qed.

(** C5, as stated, fails.  In [script.js] a setting of 30 m is returned as
    it is, below the floor of 50 m; in the planner a setting of 0 m counts
    as 100 m, and with no demand the result is 100 m, above the setting. *)
Lemma max_lateral_clamp_counterexample :
  Legacy.calculateMaxLateralLength (Legacy.mkDom 10 0.9 5 0 110 30) = Fin 30 /\
  calculateMaxLateralLengthFromDemand (Fin 24) (Fin 0) (Fin 110) (Fin 0) = Fin 100.
Proof.
  split.
  - destruct (legacy_max_lateral_form 10 0.9 5 0 110 30 ltac:(lra) ltac:(lra))
      as [[_ H] | [_ H]]; cbv zeta in H; rewrite H; [reflexivity |].
    f_equal. apply Rmin_left. eapply Rle_trans; [| apply Rmax_l]. lra.
  - destruct (planner_max_lateral_form 24 0 110 0 ltac:(lra) ltac:(lra))
      as (m & res & Hm & Hres & _ & _ & _ & Hz & _).
    rewrite Hres. f_equal. rewrite (Hz eq_refl).
    unfold parseFloat in Hm. rewrite or_else_z in Hm by reflexivity.
    now injection Hm.
Qed.

(** C5, amended.  For finite inputs with an area, a demand and a diameter
    that are not negative (the diameter of [script.js] positive): the
    result is finite and never exceeds the max-lateral setting, where the
    planner takes a setting of 0 as 100; it is at least the floor (50 m in
    [script.js], 20 m in the planner) when the setting is, and it is the
    setting itself when the setting is below the floor or there is no
    demand.  With a positive demand the result is
    min(setting, max(floor, L)), L the length at which one of ten laterals
    sharing the flow loses 5 % of the 30 m head, which the planner first
    rounds to one decimal. *)
Theorem max_lateral_clamp (area k e r D M hours demand : R) :
  0 <= area -> 0 < D -> 0 <= demand ->
  (exists res,
     Legacy.calculateMaxLateralLength (Legacy.mkDom area k e r D M) = Fin res /\
     res <= M /\ (50 <= M -> 50 <= res) /\ (M < 50 -> res = M) /\
     let q := Rmax 0 (k * e - r) * area * 10000 / 10 / (24 * 3600 * 1000) in
     (q = 0 -> res = M) /\
     (0 < q ->
      res = Rmin M (Rmax 50 (0.05 * 30 * Rpower 150 1.852 * Rpower (D / 1000) 4.871 /
                             (10.67 * Rpower q 1.852))))) /\
  (exists m res,
     parseFloat (or_else (Fin M) 100) = Fin m /\
     calculateMaxLateralLengthFromDemand (Fin hours) (Fin demand) (Fin D) (Fin M) = Fin res /\
     res <= m /\ (20 <= m -> 20 <= res) /\ (m < 20 -> res = m) /\
     (demand = 0 -> res = m) /\
     (0 < demand ->
      exists dm t,
        div (parseFloat (or_else (Fin D) 110)) 1000 = Fin dm /\
        toFixed
          (Fin (0.05 * 30 * Rpower 150 1.852 * Rpower dm 4.871 /
                (10.67 * Rpower (demand / (Rmax 1 hours * 3600) / 10 / 1000) 1.852)))
          1 = Fin t /\
        res = Rmin m (Rmax 20 t))).
Proof.
  intros Ha HD Hdem. split.
  - destruct (legacy_max_lateral_form area k e r D M Ha HD) as [[Hq H] | [Hq H]];
      cbv zeta in *; rewrite H; eexists; (split; [reflexivity |]).
    + repeat split; intros; lra.
    + set (x := 0.05 * 30 * Rpower 150 1.852 * Rpower (D / 1000) 4.871 /
                (10.67 *
                 Rpower (Rmax 0 (k * e - r) * area * 10000 / 10 / (24 * 3600 * 1000))
                   1.852)).
      pose proof (Rmax_l 50 x).
      split; [apply Rmin_l |]. split; [| split; [| split]].
      * intros. apply Rmin_glb; lra.
      * intros. apply Rmin_left. lra.
      * intros. exfalso. lra.
      * intros. reflexivity.
  - apply planner_max_lateral_form; lra.
Qed.

(** The default form of [script.js] (10 ha, Kc 0.9, ET0 5, 110 mm, 100 m)
    and the planner on 30000 L/day over 24 h. *)
Lemma max_lateral_clamp_witness :
  (exists res,
     Legacy.calculateMaxLateralLength (Legacy.mkDom 10 0.9 5 0 110 100) = Fin res /\
     res <= 100 /\ 50 <= res) /\
  (exists m res,
     parseFloat (or_else (Fin 100) 100) = Fin m /\
     calculateMaxLateralLengthFromDemand (Fin 24) (Fin 30000) (Fin 110) (Fin 100) = Fin res /\
     res <= m /\ (20 <= m -> 20 <= res)).
Proof.
  destruct (max_lateral_clamp 10 0.9 5 0 110 100 24 30000
              ltac:(lra) ltac:(lra) ltac:(lra))
    as [(res & H & Hle & Hfloor & _) (m & res' & Hm & H' & Hle' & Hfloor' & _)].
  split.
  - exists res. split; [exact H |]. split; [exact Hle | apply Hfloor; lra].
  - exists m, res'. repeat split; assumption.
Defined.

End MaxLateral.

Module BomShape.

Local Open Scope string_scope.

(** C9.  The bill of [calculateBOM] always has the same seven lines, in
    this order: main pipe, lateral pipes, fittings, control valves,
    emitters, pump, controller; the pump and the controller have
    quantity 1. *)
Theorem calculateBOM_seven_items (Number_toString : num -> string) (dom : Legacy.Dom) :
  let bom := Legacy.calculateBOM Number_toString dom in
  List.length bom = 7%nat /\
  map Legacy.item bom =
    [ "Main Pipe (" ++ Number_toString (Legacy.dom_main_diameter dom) ++ "mm)";
      "Lateral Pipes (16mm)"; "Pipe Fittings"; "Control Valves"; "Drip Emitters";
      "Irrigation Pump"; "Irrigation Controller" ] /\
  (forall it, In it bom ->
     Legacy.item it = "Irrigation Pump" \/ Legacy.item it = "Irrigation Controller" ->
     Legacy.quantity it = Fin 1).
Proof.
  intros bom. unfold bom, Legacy.calculateBOM.
  split; [reflexivity |]. split; [reflexivity |].
  intros it Hin Hname. cbn [In] in Hin.
  destruct Hin as [<- | [<- | [<- | [<- | [<- | [<- | [<- | []]]]]]]];
    cbn [Legacy.item Legacy.quantity] in *;
    try reflexivity;
    destruct Hname as [Hname | Hname]; cbn in Hname; discriminate Hname.
Qed.

End BomShape.

(** ** Zones and the design response *)

Module ZonesFacts.

(** The zone count on a finite demand: an integer, at least 1. *)
Lemma zone_count_form (d : R) :
  exists z : Z,
    Spec.zoneCount (Fin d) 50000 = Fin (IZR z) /\ (1 <= z)%Z /\
    z = Z.max 1 (Zceil (d / 50000)).
Proof.
  unfold Spec.zoneCount.
  rewrite div_Fin by lra. rewrite Math_ceil_Fin, Math_max_Fin.
  exists (Z.max 1 (Zceil (d / 50000))). split; [| split; [lia | reflexivity]].
  f_equal. destruct (Z.le_gt_cases (Zceil (d / 50000)) 1) as [H | H].
  - rewrite Z.max_l by exact H. apply Rmax_left. now apply IZR_le.
  - rewrite Z.max_r by lia. apply Rmax_right. apply IZR_le. lia.
Qed.

(** [calculateZones] is the zone count of the specification at the demand
    of the form. *)
Lemma calculateZones_spec (dom : Legacy.Dom) :
  Legacy.calculateZones dom = Spec.zoneCount (Legacy.calculateWaterDemand dom) 50000.
Proof. reflexivity. Qed.

Lemma legacy_zones_form (area k e r D M : R) :
  exists z : Z,
    Legacy.calculateZones (Legacy.mkDom area k e r D M) = Fin (IZR z) /\ (1 <= z)%Z.
Proof.
  rewrite calculateZones_spec, WaterBalance.legacy_demand_form.
  destruct (zone_count_form (Rmax 0 (k * e - r) * area * 10000)) as (z & Hz & Hz1 & _).
  exists z. split; assumption.
Qed.

(** C7, as stated, fails.  The response takes the zone count from the form
    fields and the demand from the state: built from the initial state
    (demand 0) while the form holds its defaults (10 ha, Kc 0.9, ET0 5), it
    reports 9 zones, and the demand it reports gives back 1. *)
Lemma response_zones_counterexample :
  let response :=
    Legacy.buildDesignResponseFromState Legacy.initialState None
      Scenario.defaultDom Scenario.someTime in
  Legacy.count (Legacy.Response.zones response) = Fin 9 /\
  Spec.zoneCount (Legacy.Response.waterDemandLday response) 50000 = Fin 1.
Proof.
  cbv zeta. split.
  - unfold Legacy.buildDesignResponseFromState.
    cbn [Legacy.Response.zones Legacy.count].
    unfold Scenario.defaultDom.
    rewrite calculateZones_spec, WaterBalance.legacy_demand_form.
    destruct (zone_count_form (Rmax 0 (0.9 * 5 - 0) * 10 * 10000)) as (z & -> & _ & ->).
    rewrite (Zceil_eq 9).
    + reflexivity.
    + rewrite Rmax_right by lra. lra.
  - unfold Legacy.buildDesignResponseFromState.
    cbn [Legacy.Response.waterDemandLday Legacy.initialState Legacy.waterDemand].
    destruct (zone_count_form 0) as (z & -> & _ & ->).
    rewrite (Zceil_eq 0) by lra. reflexivity.
Qed.

(** C7, amended.  When the demand stored in the state is the demand of the
    current form fields (as [calculateAll] leaves it), the zone count and
    the length per zone re-derived from the demand and the pipe length of
    the response are the ones it reports, every zone detail carries that
    length, and there is one detail per zone, numbered from 1. *)
Theorem response_zones_roundtrip
  (state : Legacy.CalculationState) (satellite : option Legacy.SatelliteData)
  (dom : Legacy.Dom) (now : string) :
  Legacy.waterDemand state = Legacy.calculateWaterDemand dom ->
  let response := Legacy.buildDesignResponseFromState state satellite dom now in
  let zones := Legacy.Response.zones response in
  let zoneCount := Spec.zoneCount (Legacy.Response.waterDemandLday response) 50000 in
  let lengthPerZone :=
    Spec.lengthPerZoneM (Legacy.Response.pipeLengthM response) zoneCount in
  zoneCount = Legacy.count zones /\
  lengthPerZone = Legacy.lengthPerZoneM zones /\
  Forall (fun z => Legacy.lengthM z = lengthPerZone) (Legacy.details zones) /\
  map Legacy.zoneId (Legacy.details zones) =
  map (fun i => add (Fin (INR i)) (Fin 1)) (seq 0 (toLength zoneCount)).
Proof.
  intros Hsync response zones zoneCount lengthPerZone.
  assert (Hcount : zoneCount = Legacy.count zones).
  { unfold zoneCount, zones, response, Legacy.buildDesignResponseFromState.
    cbn [Legacy.Response.waterDemandLday Legacy.Response.zones Legacy.count].
    rewrite Hsync. symmetry. apply calculateZones_spec. }
  assert (Hlen : lengthPerZone = Legacy.lengthPerZoneM zones).
  { unfold lengthPerZone. rewrite Hcount. reflexivity. }
  split; [exact Hcount |]. split; [exact Hlen |]. split.
  - rewrite Hlen. unfold zones, response, Legacy.buildDesignResponseFromState.
    cbn [Legacy.Response.zones Legacy.details Legacy.lengthPerZoneM].
    apply Forall_forall. intros z Hz. apply in_map_iff in Hz.
    destruct Hz as (i & <- & _). reflexivity.
  - rewrite Hcount. unfold zones, response, Legacy.buildDesignResponseFromState.
    cbn [Legacy.Response.zones Legacy.details Legacy.count].
    rewrite map_map. reflexivity.
Qed.

(** The state [calculateAll] leaves for the default form. *)
Lemma response_zones_roundtrip_witness :
  let state :=
    Legacy.calculateAll Scenario.plainNumber Scenario.defaultDom Legacy.initialState in
  let response :=
    Legacy.buildDesignResponseFromState state None Scenario.defaultDom Scenario.someTime in
  let zones := Legacy.Response.zones response in
  let zoneCount := Spec.zoneCount (Legacy.Response.waterDemandLday response) 50000 in
  Legacy.waterDemand state = Legacy.calculateWaterDemand Scenario.defaultDom /\
  zoneCount = Legacy.count zones /\
  Spec.lengthPerZoneM (Legacy.Response.pipeLengthM response) zoneCount =
  Legacy.lengthPerZoneM zones.
Proof.
  intros state response zones zoneCount.
  assert (H : Legacy.waterDemand state = Legacy.calculateWaterDemand Scenario.defaultDom)
    by reflexivity.
  split; [exact H |].
  destruct (response_zones_roundtrip state None Scenario.defaultDom Scenario.someTime H)
    as (Hc & Hl & _).
  split; [exact Hc | exact Hl].
Defined.



End ZonesFacts.

(** ** Bill of materials *)

Module Bom.

Lemma add_zero_r (x : num) : add x (Fin 0) = x.
Proof. destruct x; cbn; try reflexivity. now rewrite Rplus_0_r. Qed.

Lemma add_zero_l (x : num) : add (Fin 0) x = x.
Proof. destruct x; cbn; try reflexivity. now rewrite Rplus_0_l. Qed.

Lemma add_assoc (x y z : num) : add (add x y) z = add x (add y z).
Proof.
  destruct x, y, z; cbn; try reflexivity. now rewrite Rplus_assoc.
Qed.

(** A left-to-right accumulation from [acc] is [acc] plus the sum. *)
Lemma fold_left_sumOf {A : Type} (f : A -> num) (items : list A) (acc : num) :
  fold_left (fun sum it => add sum (f it)) items acc = add acc (Spec.sumOf f items).
Proof.
  revert acc. induction items as [| x t IH]; intros acc; cbn [fold_left Spec.sumOf].
  - now rewrite add_zero_r.
  - rewrite IH. apply add_assoc.
Qed.

Lemma reduce_sumOf {A : Type} (f : A -> num) (items : list A) :
  fold_left (fun sum it => add sum (f it)) items (Fin 0) = Spec.sumOf f items.
Proof. rewrite fold_left_sumOf. apply add_zero_l. Qed.

(** The response copies each item of the state field by field. *)
Lemma response_bom_copy (state : Legacy.CalculationState)
  (satellite : option Legacy.SatelliteData) (dom : Legacy.Dom) (now : string) :
  Legacy.Response.bom (Legacy.buildDesignResponseFromState state satellite dom now) =
  Legacy.bom state.
Proof.
  unfold Legacy.buildDesignResponseFromState. cbn [Legacy.Response.bom].
  induction (Legacy.bom state) as [| it t IH]; cbn [map]; [reflexivity |].
  rewrite IH. now destruct it.
Qed.

(** Every item [calculateBOM] builds carries quantity x unitPrice as its
    total. *)
Lemma calculateBOM_item_totals (Number_toString : num -> string) (dom : Legacy.Dom) :
  Forall (fun it => Legacy.total it = mul (Legacy.quantity it) (Legacy.unitPrice it))
         (Legacy.calculateBOM Number_toString dom).
Proof.
  unfold Legacy.calculateBOM.
  repeat (apply Forall_cons; [cbn [Legacy.total Legacy.quantity Legacy.unitPrice] |]);
    try apply Forall_nil; try reflexivity.
  - unfold Legacy.prices_pump. rewrite mul_Fin. f_equal. lra.
  - unfold Legacy.prices_controller. rewrite mul_Fin. f_equal. lra.
Qed.

Lemma sumOf_ext_Forall {A : Type} (f g : A -> num) (items : list A) :
  Forall (fun it => f it = g it) items -> Spec.sumOf f items = Spec.sumOf g items.
Proof.
  induction 1 as [| x t Hx _ IH]; cbn [Spec.sumOf]; [reflexivity |].
  now rewrite Hx, IH.
Qed.

(** The unit price of the main pipe: the table's for a listed diameter,
    5.0 otherwise. *)
Lemma pipe_price_finite (D : R) :
  exists p, Legacy.or_default (Legacy.lookup (Fin D) Legacy.prices_pipe) 5.0 = Fin p /\
            0 < p.
Proof.
  unfold Legacy.prices_pipe, Legacy.lookup, seqb.
  repeat (match goal with
          | |- context [Req_dec_T ?a ?b] => destruct (Req_dec_T a b)
          end);
    unfold Legacy.or_default; try (rewrite or_else_nz by lra);
    eexists; (split; [reflexivity | lra]).
Qed.

(** On a finite form with an area that is not negative, every amount of
    the bill is a finite number, and so is the total. *)
Lemma bom_total_finite (Number_toString : num -> string) (area k e r D M : R) :
  0 <= area ->
  exists c,
    Spec.sumOf Legacy.total
      (Legacy.calculateBOM Number_toString (Legacy.mkDom area k e r D M)) = Fin c /\
    0 <= c.
Proof.
  intros Ha. unfold Legacy.calculateBOM.
  rewrite HeadLoss.legacy_pipe_length_form by exact Ha.
  cbn [Legacy.dom_area Legacy.dom_main_diameter].
  destruct (pipe_price_finite D) as (p & -> & Hp).
  rewrite ZonesFacts.calculateZones_spec, WaterBalance.legacy_demand_form.
  destruct (ZonesFacts.zone_count_form (Rmax 0 (k * e - r) * area * 10000))
    as (z & -> & Hz & _).
  unfold Legacy.prices_fittings, Legacy.prices_valves, Legacy.prices_emitters,
    Legacy.prices_pump, Legacy.prices_controller.
  cbn [Spec.sumOf Legacy.total].
  rewrite ?mul_Fin. rewrite ?div_Fin by lra. rewrite ?Math_ceil_Fin, ?mul_Fin, ?add_Fin.
  eexists. split; [reflexivity |].
  set (len := IZR (Zfloor (sqrt (area * 10000) * 2 * 1.2 + / 2))).
  assert (Hlen : 0 <= len).
  { unfold len. apply IZR_le, Zfloor_lub.
    pose proof (sqrt_pos (area * 10000)). lra. }
  assert (Hc : forall x, 0 <= x -> 0 <= IZR (Zceil x)).
  { intros x Hx. pose proof (Zceil_bound x). lra. }
  pose proof (Hc len Hlen) as H1.
  pose proof (Hc (len * 0.5) ltac:(lra)) as H2.
  pose proof (Hc (len / 20) ltac:(lra)) as H3.
  pose proof (Hc (area * 10000) ltac:(lra)) as H4.
  assert (H5 : 1 <= IZR z) by now apply IZR_le.
  nra.
Qed.

(** C6.  The total cost a design response exposes is the sum of the
    [total] fields of its items; for the bill [calculateAll] stores, it is
    the sum over the items of quantity x unitPrice; the grand total of the
    planner's bill is the sum over its rows of qty x unitPrice. *)
Theorem total_cost_is_sum_of_items
  (Number_toString : num -> string)
  (dom : Legacy.Dom) (state : Legacy.CalculationState)
  (satellite : option Legacy.SatelliteData) (now : string)
  (lastPlannerDesign : option Planner.Design) (inputs : Planner.Inputs) :
  (let response := Legacy.buildDesignResponseFromState state satellite dom now in
   Legacy.Response.totalCost response =
   Spec.sumOf Legacy.total (Legacy.Response.bom response)) /\
  (let response :=
     Legacy.buildDesignResponseFromState
       (Legacy.calculateAll Number_toString dom state) satellite dom now in
   Legacy.Response.bom response = Legacy.calculateBOM Number_toString dom /\
   Legacy.Response.totalCost response =
   Spec.sumOf (fun it => mul (Legacy.quantity it) (Legacy.unitPrice it))
     (Legacy.Response.bom response)) /\
  (let rendered := Planner.onShowBOM Number_toString lastPlannerDesign inputs in
   snd rendered =
   Spec.sumOf (fun it => mul (Planner.qty it) (Planner.unitPrice it)) (fst rendered)).
Proof.
  assert (Htotal : forall st,
            let response := Legacy.buildDesignResponseFromState st satellite dom now in
            Legacy.Response.totalCost response =
            Spec.sumOf Legacy.total (Legacy.Response.bom response)).
  { intros st response. unfold response. rewrite response_bom_copy.
    unfold Legacy.buildDesignResponseFromState. cbn [Legacy.Response.totalCost].
    apply reduce_sumOf. }
  split; [apply Htotal |]. split.
  - intros response.
    assert (Hbom : Legacy.Response.bom response = Legacy.calculateBOM Number_toString dom).
    { unfold response. now rewrite response_bom_copy. }
    split; [exact Hbom |].
    unfold response. rewrite Htotal. fold response. rewrite Hbom.
    apply sumOf_ext_Forall, calculateBOM_item_totals.
  - intros rendered. unfold rendered, Planner.onShowBOM. cbn [fst snd].
    apply reduce_sumOf.
Qed.

End Bom.

(** ** Seasonal simulation *)

Module Seasonal.

Lemma leb_Fin_iff (a b : R) : leb (Fin a) (Fin b) = true <-> a <= b.
Proof.
  unfold leb. destruct (Rle_dec a b); split; intros; try assumption;
    try reflexivity; try discriminate; contradiction.
Qed.

Lemma ltb_Fin_iff (a b : R) : ltb (Fin a) (Fin b) = true <-> a < b.
Proof.
  unfold ltb. destruct (Rlt_dec a b); split; intros; try assumption;
    try reflexivity; try discriminate; contradiction.
Qed.

Section FirstMaximum.

Context {A : Type} (key : A -> num).

(** The callback of [reduce] that keeps the larger record. *)
Definition keepLarger (max curr : A) : A :=
  if gtb (key curr) (key max) then curr else max.

(** Over records with finite keys, the reduction returns the first record
    whose key is the largest. *)
Lemma first_max_fold (l : list A) :
  forall x : A,
    (forall a, In a (x :: l) -> exists r, key a = Fin r) ->
    exists i,
      nth_error (x :: l) i = Some (fold_left keepLarger l x) /\
      (forall a, In a (x :: l) ->
         leb (key a) (key (fold_left keepLarger l x)) = true) /\
      (forall j a, (j < i)%nat -> nth_error (x :: l) j = Some a ->
         ltb (key a) (key (fold_left keepLarger l x)) = true).
Proof.
  induction l as [| y t IH]; intros x Hfin.
  - exists 0%nat. cbn [fold_left]. split; [reflexivity |]. split.
    + intros a [<- | []]. destruct (Hfin x (or_introl eq_refl)) as (r & ->).
      apply leb_Fin_iff. lra.
    + intros j a Hj. lia.
  - cbn [fold_left].
    destruct (Hfin x (or_introl eq_refl)) as (rx & Hx).
    destruct (Hfin y (or_intror (or_introl eq_refl))) as (ry & Hy).
    unfold keepLarger at 2 4 6. unfold gtb. rewrite Hx, Hy.
    destruct (Rlt_dec rx ry) as [Hlt | Hge].
    + rewrite ltb_Fin_true by exact Hlt.
      destruct (IH y) as (i & Hi & Hall & Hbefore).
      { intros a Ha. apply Hfin. now right. }
      set (p := fold_left keepLarger t y) in *.
      assert (Hyp : leb (key y) (key p) = true) by (apply Hall; now left).
      destruct (Hfin p) as (rp & Hp).
      { right. eapply nth_error_In. exact Hi. }
      rewrite Hy, Hp in Hyp. apply leb_Fin_iff in Hyp.
      exists (S i). split; [exact Hi |]. split.
      * intros a [<- | Ha]; [| now apply Hall].
        rewrite Hx, Hp. apply leb_Fin_iff. lra.
      * intros j a Hj Hnth. destruct j as [| j].
        -- cbn in Hnth. injection Hnth as <-.
           rewrite Hx, Hp. apply ltb_Fin_iff. lra.
        -- apply (Hbefore j a); [lia | exact Hnth].
    + rewrite ltb_Fin_false by lra.
      destruct (IH x) as (i & Hi & Hall & Hbefore).
      { intros a [<- | Ha]; apply Hfin; [now left | now right; right]. }
      set (p := fold_left keepLarger t x) in *.
      assert (Hxp : leb (key x) (key p) = true) by (apply Hall; now left).
      destruct (Hfin p) as (rp & Hp).
      { apply nth_error_In in Hi. destruct Hi as [<- | Hi];
          [now left | now right; right]. }
      rewrite Hx, Hp in Hxp. apply leb_Fin_iff in Hxp.
      exists (match i with O => O | S k => S (S k) end). split; [| split].
      * destruct i; exact Hi.
      * intros a [<- | [<- | Ha]].
        -- rewrite Hx, Hp. now apply leb_Fin_iff.
        -- rewrite Hy, Hp. apply leb_Fin_iff. lra.
        -- apply Hall. now right.
      * intros j a Hj Hnth. destruct i as [| k]; [lia |].
        assert (Hx' : ltb (key x) (key p) = true)
          by (apply (Hbefore 0%nat x); [lia | reflexivity]).
        destruct j as [| [| j]].
        -- cbn in Hnth. injection Hnth as <-. exact Hx'.
        -- cbn in Hnth. injection Hnth as <-.
           rewrite Hx, Hp in Hx'. apply ltb_Fin_iff in Hx'.
           rewrite Hy, Hp. apply ltb_Fin_iff. lra.
        -- apply (Hbefore (S j) a); [lia | exact Hnth].
Qed.

(** A record whose key is strictly above every other one is the one
    returned. *)
Lemma strict_max_fold (l : list A) (x : A) (i : nat) (m : A) :
  (forall a, In a (x :: l) -> exists r, key a = Fin r) ->
  nth_error (x :: l) i = Some m ->
  (forall j a, j <> i -> nth_error (x :: l) j = Some a ->
     ltb (key a) (key m) = true) ->
  fold_left keepLarger l x = m.
Proof.
  intros Hfin Hm Hstrict.
  destruct (first_max_fold l x Hfin) as (i' & Hi' & Hall & _).
  destruct (Nat.eq_dec i' i) as [-> | Hne].
  - rewrite Hm in Hi'. now injection Hi'.
  - exfalso.
    pose proof (Hstrict i' _ Hne Hi') as Hlt.
    pose proof (Hall m (nth_error_In _ _ Hm)) as Hle.
    destruct (Hfin m (nth_error_In _ _ Hm)) as (rm & Hrm).
    destruct (Hfin _ (nth_error_In _ _ Hi')) as (rp & Hrp).
    rewrite Hrm, Hrp in *.
    apply ltb_Fin_iff in Hlt. apply leb_Fin_iff in Hle. lra.
Qed.

End FirstMaximum.

(** *** The simulation of [script.js] *)

Lemma nth_map_Fin (i : nat) (l : list R) :
  nth i (map Fin l) (Fin 0) = Fin (nth i l 0).
Proof. apply (map_nth Fin). Qed.

Lemma length_mapi_from {A B : Type} (f : nat -> A -> B) (l : list A) :
  forall i, List.length (mapi_from f i l) = List.length l.
Proof.
  induction l as [| x t IH]; intros i; cbn [mapi_from List.length];
    [reflexivity | now rewrite IH].
Qed.

(** Every record of the simulation carries a finite demand. *)
Lemma legacy_month_finite (area ki km kl : R) (rains : list R) (i : nat) (eto : R) :
  exists r,
    Legacy.Month.waterDemand
      (Legacy.monthRecord (Fin area) (Fin ki) (Fin km) (Fin kl) (map Fin rains) i (Fin eto))
    = Fin r.
Proof.
  unfold Legacy.monthRecord. cbn [Legacy.Month.waterDemand].
  rewrite nth_map_Fin.
  destruct (i <? 3)%nat; [| destruct (i <? 9)%nat];
    rewrite ?mul_Fin, ?sub_Fin, ?Math_max_Fin, ?mul_Fin; eexists; reflexivity.
Qed.

Lemma legacy_months_finite (area ki km kl : R) (rains etos : list R) :
  forall i m,
    In m (mapi_from
            (Legacy.monthRecord (Fin area) (Fin ki) (Fin km) (Fin kl) (map Fin rains))
            i (map Fin etos)) ->
    exists r, Legacy.Month.waterDemand m = Fin r.
Proof.
  induction etos as [| eto t IH]; intros i m Hin; cbn [map mapi_from] in Hin.
  - destruct Hin.
  - destruct Hin as [<- | Hin].
    + apply legacy_month_finite.
    + apply (IH (S i) m Hin).
Qed.

(** The simulation of [script.js] on a year of finite values: the peak
    month is one of the records, no record has a larger demand, and a
    record whose demand is above all others is the peak. *)
Lemma legacy_peak_is_argmax (area ki km kl : R) (etos rains : list R) :
  etos <> [] ->
  exists res,
    Legacy.runSeasonalSimulation (Fin area) (Fin ki) (Fin km) (Fin kl)
      (map Fin etos) (map Fin rains) = Some res /\
    List.length (Legacy.monthlyData res) = List.length etos /\
    In (Legacy.peakMonth res) (Legacy.monthlyData res) /\
    (forall m, In m (Legacy.monthlyData res) ->
       leb (Legacy.Month.waterDemand m)
           (Legacy.Month.waterDemand (Legacy.peakMonth res)) = true) /\
    (forall i m,
       nth_error (Legacy.monthlyData res) i = Some m ->
       (forall j m', j <> i -> nth_error (Legacy.monthlyData res) j = Some m' ->
          ltb (Legacy.Month.waterDemand m') (Legacy.Month.waterDemand m) = true) ->
       Legacy.peakMonth res = m).
Proof.
  intros Hne. unfold Legacy.runSeasonalSimulation.
  pose proof (legacy_months_finite area ki km kl rains etos 0%nat) as Hfin.
  pose proof (length_mapi_from
                (Legacy.monthRecord (Fin area) (Fin ki) (Fin km) (Fin kl) (map Fin rains))
                (map Fin etos) 0%nat) as Hlen.
  rewrite length_map in Hlen.
  destruct (mapi_from
              (Legacy.monthRecord (Fin area) (Fin ki) (Fin km) (Fin kl) (map Fin rains))
              0 (map Fin etos)) as [| x t] eqn:Hdata.
  - destruct etos; [contradiction | discriminate Hlen].
  - cbn [reduce1]. eexists. split; [reflexivity |].
    cbn [Legacy.monthlyData Legacy.peakMonth].
    change (fold_left
              (fun max curr =>
                 if gtb (Legacy.Month.waterDemand curr) (Legacy.Month.waterDemand max)
                 then curr else max) t x)
      with (fold_left (keepLarger Legacy.Month.waterDemand) t x).
    destruct (first_max_fold Legacy.Month.waterDemand t x Hfin) as (i & Hi & Hall & _).
    split; [exact Hlen |]. split; [exact (nth_error_In _ _ Hi) |].
    split; [exact Hall |].
    intros j m Hm Hstrict.
    exact (strict_max_fold Legacy.Month.waterDemand t x j m Hfin Hm Hstrict).
Qed.

(** *** The simulation of the planner *)

Lemma days_finite (idx : nat) :
  (idx < 12)%nat -> exists d, nth idx Planner.daysInMonth NaN = Fin d.
Proof.
  intros H. unfold Planner.daysInMonth.
  do 12 (destruct idx as [| idx]; [eexists; reflexivity |]). lia.
Qed.

Lemma planner_month_finite (areaM2 ki km kl : R) (rains : list R) (idx : nat) (eto : R) :
  (idx < 12)%nat ->
  exists r,
    Planner.monthDemandAt (Fin areaM2) (Fin ki) (Fin km) (Fin kl) (map Fin rains)
      idx (Fin eto) = Fin r.
Proof.
  intros Hidx. unfold Planner.monthDemandAt.
  destruct (days_finite idx Hidx) as (d & ->). rewrite nth_map_Fin.
  destruct (idx <=? 1)%nat; [| destruct ((2 <=? idx)%nat && (idx <=? 7)%nat)%bool];
    rewrite ?mul_Fin, ?sub_Fin, ?Math_max_Fin, ?mul_Fin, ?Math_round_Fin;
    eexists; reflexivity.
Qed.

Lemma planner_months_finite (areaM2 ki km kl : R) (rains etos : list R) :
  forall i,
    (i + List.length etos <= 12)%nat ->
    exists rs,
      mapi_from
        (Planner.monthDemandAt (Fin areaM2) (Fin ki) (Fin km) (Fin kl) (map Fin rains))
        i (map Fin etos) = map Fin rs /\
      List.length rs = List.length etos.
Proof.
  induction etos as [| eto t IH]; intros i Hi; cbn [map mapi_from].
  - exists []. split; reflexivity.
  - cbn [List.length] in Hi.
    destruct (planner_month_finite areaM2 ki km kl rains i eto ltac:(lia)) as (r & ->).
    destruct (IH (S i) ltac:(lia)) as (rs & -> & Hlen).
    exists (r :: rs). split; [reflexivity |]. cbn [List.length]. now rewrite Hlen.
Qed.

Lemma fold_Math_max_Fin (rs : list R) :
  forall a, fold_left Math_max (map Fin rs) (Fin a) = Fin (fold_left Rmax rs a).
Proof.
  induction rs as [| r t IH]; intros a; cbn [map fold_left]; [reflexivity |].
  rewrite Math_max_Fin. apply IH.
Qed.

Lemma fold_Rmax_spec (rs : list R) :
  forall a,
    a <= fold_left Rmax rs a /\
    (forall r, In r rs -> r <= fold_left Rmax rs a) /\
    (fold_left Rmax rs a = a \/ In (fold_left Rmax rs a) rs).
Proof.
  induction rs as [| r t IH]; intros a; cbn [fold_left].
  - split; [lra |]. split; [intros r [] | now left].
  - destruct (IH (Rmax a r)) as (Hge & Hall & Hin).
    pose proof (Rmax_l a r). pose proof (Rmax_r a r).
    split; [lra |]. split.
    + intros r' [<- | Hr']; [lra | now apply Hall].
    + destruct Hin as [Heq | Hin]; [| right; now right].
      rewrite Heq. unfold Rmax. destruct (Rle_dec a r); [right; now left | now left].
Qed.

(** [Math.max] over a year of finite values is one of them, the largest. *)
Lemma max_list_spec (r : R) (rs : list R) :
  exists m,
    Math_max_list (map Fin (r :: rs)) = Fin m /\ In m (r :: rs) /\
    (forall r', In r' (r :: rs) -> r' <= m).
Proof.
  unfold Math_max_list. cbn [map fold_left Math_max].
  rewrite fold_Math_max_Fin.
  destruct (fold_Rmax_spec rs r) as (Hge & Hall & Hin).
  eexists. split; [reflexivity |]. split.
  - destruct Hin as [-> | Hin]; [now left | now right].
  - intros r' [<- | Hr']; [exact Hge | now apply Hall].
Qed.

(** [indexOf] finds the first position of a value that occurs. *)
Lemma indexOf_spec (m : R) (rs : list R) :
  In m rs ->
  exists i,
    indexOf (Fin m) (map Fin rs) = Some i /\ nth_error rs i = Some m /\
    (forall j r, (j < i)%nat -> nth_error rs j = Some r -> r <> m).
Proof.
  induction rs as [| r t IH]; intros Hin; [destruct Hin |].
  cbn [map indexOf seqb].
  destruct (Req_dec_T r m) as [-> | Hne].
  - exists 0%nat. split; [reflexivity |]. split; [reflexivity |]. intros; lia.
  - destruct Hin as [Heq | Hin]; [contradiction |].
    destruct (IH Hin) as (i & -> & Hnth & Hbefore).
    exists (S i). split; [reflexivity |]. split; [exact Hnth |].
    intros [| j] r' Hj Hr'.
    + cbn in Hr'. injection Hr' as <-. exact Hne.
    + apply (Hbefore j r'); [lia | exact Hr'].
Qed.

(** The planner's simulation on twelve months of finite values. *)
Lemma planner_peak_is_argmax (areaRai ki km kl : R) (etos rains : list R) :
  List.length etos = 12%nat -> rains <> [] ->
  exists (demands : list R) summary i m,
    Planner.runSeasonalSimulation (Fin areaRai) (Fin ki) (Fin km) (Fin kl)
      (map Fin etos) (map Fin rains) = Some (map Fin demands, Some summary) /\
    List.length demands = 12%nat /\
    Planner.maxDemand summary = Fin m /\
    Planner.maxMonthIndex summary = Some i /\
    Planner.peakMonthName summary = nth_error Planner.MONTH_NAMES i /\
    (i < 12)%nat /\
    nth_error demands i = Some m /\
    (forall d, In d demands -> d <= m) /\
    (forall j d, (j < i)%nat -> nth_error demands j = Some d -> d < m) /\
    (forall j d,
       nth_error demands j = Some d ->
       (forall j' d', j' <> j -> nth_error demands j' = Some d' -> d' < d) ->
       i = j).
Proof.
  intros Hlen Hrains. unfold Planner.runSeasonalSimulation.
  rewrite mul_Fin.
  destruct (planner_months_finite (areaRai * 1600) ki km kl rains etos 0%nat ltac:(lia))
    as (rs & Hrs & Hrslen).
  rewrite Hrs.
  destruct etos as [| e0 etos']; [discriminate Hlen |].
  destruct rains as [| r0 rains']; [contradiction |].
  cbn [map]. cbn [map] in Hrs.
  destruct rs as [| d0 rs']; [discriminate Hrslen |].
  unfold Planner.updateSeasonalSummary. cbn [map].
  destruct (max_list_spec d0 rs') as (m & Hmax & Hin & Hall).
  destruct (indexOf_spec m (d0 :: rs') Hin) as (i & Hidx & Hnth & Hbefore).
  cbn [map] in Hmax, Hidx. rewrite Hmax, Hidx.
  exists (d0 :: rs'). eexists. exists i, m.
  split; [reflexivity |].
  cbn [Planner.maxDemand Planner.maxMonthIndex Planner.peakMonthName].
  split; [now rewrite Hrslen |]. split; [reflexivity |]. split; [reflexivity |].
  split; [reflexivity |].
  assert (Hi : (i < 12)%nat).
  { rewrite <- Hlen, <- Hrslen. apply nth_error_Some. rewrite Hnth. discriminate. }
  split; [exact Hi |]. split; [exact Hnth |]. split; [exact Hall |]. split.
  - intros j d Hj Hd.
    pose proof (Hall d (nth_error_In _ _ Hd)) as Hle.
    pose proof (Hbefore j d Hj Hd) as Hne. lra.
  - intros j d Hd Hstrict.
    destruct (Nat.eq_dec i j) as [Heq | Hne]; [exact Heq | exfalso].
    pose proof (Hstrict i m Hne Hnth) as Hlt.
    pose proof (Hall d (nth_error_In _ _ Hd)) as Hle. lra.
Qed.

(** C8.  On twelve months of finite ET0 and rainfall values and finite
    stage coefficients, both simulations report a peak month that is an
    argmax of the monthly demand they computed: no month has a larger
    demand, and a month whose demand is above that of every other month is
    the one reported. *)
Theorem peak_month_is_argmax (area ki km kl : R) (etos rains : list R) :
  List.length etos = 12%nat -> List.length rains = 12%nat ->
  (exists res,
     Legacy.runSeasonalSimulation (Fin area) (Fin ki) (Fin km) (Fin kl)
       (map Fin etos) (map Fin rains) = Some res /\
     List.length (Legacy.monthlyData res) = 12%nat /\
     In (Legacy.peakMonth res) (Legacy.monthlyData res) /\
     (forall m, In m (Legacy.monthlyData res) ->
        leb (Legacy.Month.waterDemand m)
            (Legacy.Month.waterDemand (Legacy.peakMonth res)) = true) /\
     (forall i m,
        nth_error (Legacy.monthlyData res) i = Some m ->
        (forall j m', j <> i -> nth_error (Legacy.monthlyData res) j = Some m' ->
           ltb (Legacy.Month.waterDemand m') (Legacy.Month.waterDemand m) = true) ->
        Legacy.peakMonth res = m)) /\
  (exists (demands : list R) summary i m,
     Planner.runSeasonalSimulation (Fin area) (Fin ki) (Fin km) (Fin kl)
       (map Fin etos) (map Fin rains) = Some (map Fin demands, Some summary) /\
     List.length demands = 12%nat /\
     Planner.maxDemand summary = Fin m /\
     Planner.maxMonthIndex summary = Some i /\
     Planner.peakMonthName summary = nth_error Planner.MONTH_NAMES i /\
     (i < 12)%nat /\
     nth_error demands i = Some m /\
     (forall d, In d demands -> d <= m) /\
     (forall j d,
        nth_error demands j = Some d ->
        (forall j' d', j' <> j -> nth_error demands j' = Some d' -> d' < d) ->
        i = j)).
Proof.
  intros Hetos Hrains. split.
  - destruct (legacy_peak_is_argmax area ki km kl etos rains)
      as (res & Hrun & Hlen & Hin & Hall & Hstrict).
    { intros ->. discriminate Hetos. }
    exists res. rewrite Hlen, Hetos. repeat split; assumption.
  - destruct (planner_peak_is_argmax area ki km kl etos rains Hetos)
      as (demands & summary & i & m & Hrun & Hlen & Hmax & Hidx & Hname & Hi & Hnth
          & Hall & _ & Hstrict).
    { intros ->. discriminate Hrains. }
    exists demands, summary, i, m. repeat split; assumption.
Qed.

Lemma legacy_run_data (area ki km kl : num) (etos rains : list num)
  (res : Legacy.SeasonalResult) :
  Legacy.runSeasonalSimulation area ki km kl etos rains = Some res ->
  Legacy.monthlyData res = mapi_from (Legacy.monthRecord area ki km kl rains) 0 etos.
Proof.
  unfold Legacy.runSeasonalSimulation.
  destruct (reduce1 _ _); [| discriminate].
  destruct (reduce1 _ _); [| discriminate].
  destruct (reduce1 _ _); [| discriminate].
  intros H. injection H as <-. reflexivity.
Qed.

Lemma map_Fin_inj (l1 l2 : list R) : map Fin l1 = map Fin l2 -> l1 = l2.
Proof.
  revert l2. induction l1 as [| a t IH]; intros [| b u] H;
    try reflexivity; try discriminate.
  cbn [map] in H. injection H as -> Ht. f_equal. now apply IH.
Qed.

Lemma round_whole (x : R) (z : Z) : x = IZR z -> Math_round (Fin x) = Fin (IZR z).
Proof.
  intros ->. rewrite Math_round_Fin. f_equal. f_equal.
  apply Zfloor_eq. lra.
Qed.

(** The year with a hot, dry April as [script.js] computes it. *)
Lemma hot_april_legacy :
  map Legacy.Month.waterDemand
    (mapi_from
       (Legacy.monthRecord (Fin 1) (Fin 0.5) (Fin 1) (Fin 0.5)
          (map Fin Scenario.hotAprilRainfall))
       0 (map Fin Scenario.hotAprilEto))
  = map Fin Scenario.hotAprilLegacyDemand /\
  map Legacy.Month.month
    (mapi_from
       (Legacy.monthRecord (Fin 1) (Fin 0.5) (Fin 1) (Fin 0.5)
          (map Fin Scenario.hotAprilRainfall))
       0 (map Fin Scenario.hotAprilEto))
  = map Some Legacy.months.
Proof.
  split; [| reflexivity].
  unfold Scenario.hotAprilEto, Scenario.hotAprilRainfall,
    Scenario.hotAprilLegacyDemand, Legacy.monthRecord.
  cbn [map mapi_from nth Nat.ltb Nat.leb Legacy.Month.waterDemand].
  rewrite !mul_Fin, !sub_Fin, !Math_max_Fin, !mul_Fin.
  repeat (apply (f_equal2 cons);
          [f_equal; unfold Rmax; destruct (Rle_dec _ _); lra |]).
  reflexivity.
Qed.

(** The same year as the planner computes it. *)
Lemma hot_april_planner :
  mapi_from
    (Planner.monthDemandAt (Fin (1 * 1600)) (Fin 0.5) (Fin 1) (Fin 0.5)
       (map Fin Scenario.hotAprilRainfall))
    0 (map Fin Scenario.hotAprilEto)
  = map Fin Scenario.hotAprilPlannerDemand.
Proof.
  unfold Scenario.hotAprilEto, Scenario.hotAprilRainfall,
    Scenario.hotAprilPlannerDemand, Planner.monthDemandAt, Planner.daysInMonth.
  cbn [map mapi_from nth Nat.leb andb].
  rewrite !mul_Fin, !sub_Fin, !Math_max_Fin, !mul_Fin.
  repeat (apply (f_equal2 cons);
          [apply round_whole; unfold Rmax; destruct (Rle_dec _ _); lra |]).
  reflexivity.
Qed.

(** A year with a hot, dry April on 1 ha (1 rai for the planner) with the
    stage coefficients 0.5, 1 and 0.5: the twelve demands differ, April
    has the largest one, and April is reported by both simulations. *)
Lemma peak_month_is_argmax_witness :
  exists res demands summary,
    Legacy.runSeasonalSimulation (Fin 1) (Fin 0.5) (Fin 1) (Fin 0.5)
      (map Fin Scenario.hotAprilEto) (map Fin Scenario.hotAprilRainfall) = Some res /\
    map Legacy.Month.waterDemand (Legacy.monthlyData res)
      = map Fin Scenario.hotAprilLegacyDemand /\
    Legacy.Month.month (Legacy.peakMonth res) = Some "Apr"%string /\
    Legacy.Month.waterDemand (Legacy.peakMonth res) = Fin 80000 /\
    Planner.runSeasonalSimulation (Fin 1) (Fin 0.5) (Fin 1) (Fin 0.5)
      (map Fin Scenario.hotAprilEto) (map Fin Scenario.hotAprilRainfall)
      = Some (map Fin demands, Some summary) /\
    demands = Scenario.hotAprilPlannerDemand /\
    Planner.maxDemand summary = Fin 384000 /\
    Planner.maxMonthIndex summary = Some 3%nat /\
    Planner.peakMonthName summary = Some "Apr"%string.
Proof.
  destruct (peak_month_is_argmax 1 0.5 1 0.5
              Scenario.hotAprilEto Scenario.hotAprilRainfall eq_refl eq_refl)
    as [(res & Hrun & _ & _ & _ & Hstrict)
        (demands & summary & i & m & Hrun' & _ & Hmax & Hidx & Hname & _ & Hnth
         & _ & Hstrict')].
  exists res, demands, summary.
  destruct hot_april_legacy as [Hdemand Hmonth].
  rewrite <- (legacy_run_data _ _ _ _ _ _ _ Hrun) in Hdemand, Hmonth.
  assert (Hdemands : demands = Scenario.hotAprilPlannerDemand).
  { apply map_Fin_inj. rewrite <- hot_april_planner.
    unfold Planner.runSeasonalSimulation in Hrun'. rewrite mul_Fin in Hrun'.
    cbn [map Scenario.hotAprilEto Scenario.hotAprilRainfall] in Hrun'.
    injection Hrun' as <- _. reflexivity. }
  assert (Hi : i = 3%nat).
  { apply (Hstrict' 3%nat 384000).
    - rewrite Hdemands. reflexivity.
    - intros j d Hj Hd. rewrite Hdemands in Hd.
      unfold Scenario.hotAprilPlannerDemand in Hd.
      do 12 (destruct j as [| j];
             [try contradiction; cbn in Hd; injection Hd as <-; lra |]).
      destruct j; discriminate Hd. }
  subst i.
  assert (Hm : m = 384000).
  { rewrite Hdemands in Hnth. cbn in Hnth. now injection Hnth. }
  destruct (Legacy.monthlyData res) as [| r0 [| r1 [| r2 [| r3 data]]]] eqn:Hdata;
    try discriminate Hdemand.
  assert (Hpeak : Legacy.peakMonth res = r3).
  { apply (Hstrict 3%nat r3 eq_refl).
    intros j m' Hj Hm'.
    apply (map_nth_error Legacy.Month.waterDemand) in Hm'.
    rewrite Hdemand in Hm'.
    cbn [map Scenario.hotAprilLegacyDemand] in Hdemand.
    injection Hdemand as _ _ _ -> _.
    unfold Scenario.hotAprilLegacyDemand in Hm'.
    do 12 (destruct j as [| j];
           [try contradiction; cbn in Hm'; injection Hm' as <-;
            apply ltb_Fin_iff; lra |]).
    destruct j; discriminate Hm'. }
  rewrite Hpeak, Hmax, Hidx, Hname, Hm.
  pose proof Hdemand as Hd3.
  cbn [map Scenario.hotAprilLegacyDemand Legacy.months] in Hd3, Hmonth.
  injection Hd3 as _ _ _ Hd3 _. injection Hmonth as _ _ _ Hm3 _.
  split; [exact Hrun |]. split; [exact Hdemand |]. split; [exact Hm3 |].
  split; [exact Hd3 |]. split; [exact Hrun' |]. split; [exact Hdemands |].
  repeat split; reflexivity.
Defined.

End Seasonal.

(** ** Rounding *)

Module Rounding.

Import Floats.
#[local] Set Warnings "-inexact-float".
Local Open Scope float_scope.

(** In binary64 the worked example of the water balance gives the same
    numbers as in exact arithmetic: no step of it rounds visibly. *)
Remark binary64_golden_values :
  Binary64.calculateWaterDemandLperDay (Binary64.golden 10) =
  {| Binary64.areaM2 := 16000;
     Binary64.seasonalKc := 0.3;
     Binary64.etc := 1.5;
     Binary64.effectiveRain := 0;
     Binary64.netIrrigation := 1.5;
     Binary64.appliedEfficiency := 0.8;
     Binary64.appliedDepth := 1.875;
     Binary64.waterDemandLday := 30000 |} /\
  Binary64.waterDemandLday
    (Binary64.calculateWaterDemandLperDay (Binary64.golden 62.5)) = 187500.
Proof. split; vm_compute; reflexivity. Qed.















(** On doubles the sum of twelve equal cells is not always twelve times
    the cell: for twelve cells of 5.7 the average that [reduce] and the
    division by 12 of [script.js] compute comes out above 5.7, the value
    of every cell. *)
Remark constant_column_binary64 :
  (5.7 <? fold_left PrimFloat.add (repeat 5.7 12) 0 / 12) = true.
Proof. vm_compute. reflexivity. Qed.

End Rounding.

(** ** Rounding *)

Module RoundFacts.

Lemma Rmax_IZR (a b : Z) : Rmax (IZR a) (IZR b) = IZR (Z.max a b).
Proof.
  destruct (Z.le_ge_cases a b) as [H | H].
  - rewrite Z.max_r by exact H. apply Rmax_right. now apply IZR_le.
  - rewrite Z.max_l by lia. apply Rmax_left. now apply IZR_le.
Qed.

Lemma Zfloor_le (x y : R) : x <= y -> (Zfloor x <= Zfloor y)%Z.
Proof.
  intros H. apply Zfloor_lub.
  pose proof (Zfloor_bound x) as [Hx _]. lra.
Qed.

Lemma Zceil_le (x y : R) : x <= y -> (Zceil x <= Zceil y)%Z.
Proof.
  intros H. unfold Zceil.
  assert (Zfloor (- y) <= Zfloor (- x))%Z by (apply Zfloor_le; lra). lia.
Qed.

Lemma Zfloor_IZR (k : Z) : Zfloor (IZR k) = k.
Proof. apply Zfloor_eq. lra. Qed.

Lemma Zfloor_half (k : Z) : Zfloor (IZR k + / 2) = k.
Proof. apply Zfloor_eq. lra. Qed.

(** [Math.round] of a finite number lies within one half of it. *)
Lemma round_bounds (x : R) :
  x - / 2 < IZR (Zfloor (x + / 2)) <= x + / 2.
Proof. pose proof (Zfloor_bound (x + / 2)). lra. Qed.

Lemma round_le (x y : R) : x <= y -> (Zfloor (x + / 2) <= Zfloor (y + / 2))%Z.
Proof. intros H. apply Zfloor_le. lra. Qed.

(** The rounding of a sum differs from the sum of the roundings by at most
    one. *)
Lemma round_add (x y : R) :
  (Zfloor (x + / 2) + Zfloor (y + / 2) - 1 <= Zfloor (x + y + / 2)
   <= Zfloor (x + / 2) + Zfloor (y + / 2) + 1)%Z.
Proof.
  pose proof (round_bounds x) as Hx.
  pose proof (round_bounds y) as Hy.
  pose proof (round_bounds (x + y)) as Hs.
  split.
  - assert (H : IZR (Zfloor (x + / 2) + Zfloor (y + / 2) - 1) < IZR (Zfloor (x + y + / 2)) + 1).
    { rewrite minus_IZR, plus_IZR. simpl. lra. }
    rewrite <- plus_IZR in H. apply lt_IZR in H. lia.
  - assert (H : IZR (Zfloor (x + y + / 2)) < IZR (Zfloor (x + / 2) + Zfloor (y + / 2) + 1) + 1).
    { rewrite !plus_IZR. simpl. lra. }
    rewrite <- plus_IZR in H. apply lt_IZR in H. lia.
Qed.

Lemma pow10_pos (d : nat) : 0 < 10 ^ d.
Proof. apply pow_lt. lra. Qed.

Lemma pow10_IZR (d : nat) : 10 ^ d = IZR (10 ^ Z.of_nat d).
Proof. rewrite pow_IZR. reflexivity. Qed.

(** The three branches of [toFixed] on a finite number. *)
Lemma toFixed_cases (x : R) (d : nat) :
  (10 ^ 21 <= Rabs x /\ toFixed (Fin x) d = Fin x) \/
  (Rabs x < 10 ^ 21 /\ x < 0 /\
   toFixed (Fin x) d = Fin (- (IZR (Zfloor (- x * 10 ^ d + / 2)) / 10 ^ d))) \/
  (Rabs x < 10 ^ 21 /\ 0 <= x /\
   toFixed (Fin x) d = Fin (IZR (Zfloor (x * 10 ^ d + / 2)) / 10 ^ d)).
Proof.
  unfold toFixed.
  destruct (Rle_dec (10 ^ 21) (Rabs x)) as [Hb | Hs]; [left; auto |].
  right. destruct (Rlt_dec x 0) as [Hn | Hp]; [left | right]; repeat split; lra.
Qed.

(** The value [toFixed] rounds to, as a real function. *)
Definition fixed (x : R) (d : nat) : R :=
  if Rle_dec (10 ^ 21) (Rabs x) then x
  else if Rlt_dec x 0
       then - (IZR (Zfloor (- x * 10 ^ d + / 2)) / 10 ^ d)
       else IZR (Zfloor (x * 10 ^ d + / 2)) / 10 ^ d.

Lemma toFixed_fixed (x : R) (d : nat) : toFixed (Fin x) d = Fin (fixed x d).
Proof.
  unfold toFixed, fixed.
  destruct (Rle_dec (10 ^ 21) (Rabs x)); [reflexivity |].
  destruct (Rlt_dec x 0); reflexivity.
Qed.

(** A rounded value is within half a unit of the last digit. *)
Lemma fixed_close (x : R) (d : nat) :
  Rabs (fixed x d - x) <= / 2 / 10 ^ d.
Proof.
  pose proof (pow10_pos d) as Hp.
  assert (Hh : 0 < / 2 / 10 ^ d).
  { apply Rdiv_lt_0_compat; lra. }
  unfold fixed.
  destruct (Rle_dec (10 ^ 21) (Rabs x)).
  - replace (x - x) with 0 by lra. rewrite Rabs_R0. lra.
  - destruct (Rlt_dec x 0).
    + pose proof (round_bounds (- x * 10 ^ d)) as [H1 H2].
      apply Rabs_le. split.
      * apply Rmult_le_reg_r with (10 ^ d); [exact Hp |]. field_simplify; [| lra | lra]. 
        lra.
      * apply Rmult_le_reg_r with (10 ^ d); [exact Hp |]. field_simplify; [| lra | lra].
        lra.
    + pose proof (round_bounds (x * 10 ^ d)) as [H1 H2].
      apply Rabs_le. split.
      * apply Rmult_le_reg_r with (10 ^ d); [exact Hp |]. field_simplify; [| lra | lra].
        lra.
      * apply Rmult_le_reg_r with (10 ^ d); [exact Hp |]. field_simplify; [| lra | lra].
        lra.
Qed.

Lemma scaled_round_range (z : R) (d : nat) :
  0 <= z -> z < 10 ^ 21 ->
  0 <= IZR (Zfloor (z * 10 ^ d + / 2)) / 10 ^ d <= 10 ^ 21.
Proof.
  intros H0 Hk. pose proof (pow10_pos d) as Hp.
  assert (Hlo : (0 <= Zfloor (z * 10 ^ d + / 2))%Z).
  { apply Zfloor_lub. simpl. nra. }
  assert (Hhi : (Zfloor (z * 10 ^ d + / 2) <= 10 ^ Z.of_nat (21 + d))%Z).
  { pose proof (round_bounds (z * 10 ^ d)) as [_ Hb].
    assert (Hlt : IZR (Zfloor (z * 10 ^ d + / 2)) < IZR (10 ^ Z.of_nat (21 + d)) + 1).
    { rewrite <- pow10_IZR, pow_add. nra. }
    rewrite <- plus_IZR in Hlt. apply lt_IZR in Hlt. lia. }
  apply IZR_le in Hlo, Hhi. rewrite <- pow10_IZR, pow_add in Hhi.
  split.
  - apply Rmult_le_reg_r with (10 ^ d); [exact Hp |].
    unfold Rdiv. rewrite Rmult_assoc, Rinv_l by lra. lra.
  - apply Rmult_le_reg_r with (10 ^ d); [exact Hp |].
    unfold Rdiv. rewrite Rmult_assoc, Rinv_l by lra. lra.
Qed.

Lemma fixed_range (x : R) (d : nat) :
  Rabs x < 10 ^ 21 ->
  (0 <= x -> 0 <= fixed x d <= 10 ^ 21) /\
  (x < 0 -> - 10 ^ 21 <= fixed x d <= 0).
Proof.
  intros Hs. unfold fixed.
  destruct (Rle_dec (10 ^ 21) (Rabs x)) as [Hb | _]; [lra |].
  destruct (Rlt_dec x 0) as [Hn | Hp]; split; intros H; try lra.
  - rewrite Rabs_left in Hs by exact Hn.
    pose proof (scaled_round_range (- x) d ltac:(lra) Hs). lra.
  - rewrite Rabs_pos_eq in Hs by lra.
    exact (scaled_round_range x d ltac:(lra) Hs).
Qed.

(** [toFixed] keeps the order of finite numbers. *)
Lemma fixed_le (x y : R) (d : nat) : x <= y -> fixed x d <= fixed y d.
Proof.
  intros Hxy. pose proof (pow10_pos d) as Hp.
  assert (Hk : 0 < 10 ^ 21) by (apply pow_lt; lra).
  destruct (Rle_dec (10 ^ 21) (Rabs x)) as [Hbx | Hsx];
    destruct (Rle_dec (10 ^ 21) (Rabs y)) as [Hby | Hsy].
  - unfold fixed.
    destruct (Rle_dec (10 ^ 21) (Rabs x)); [| contradiction].
    destruct (Rle_dec (10 ^ 21) (Rabs y)); [| contradiction]. exact Hxy.
  - apply Rnot_le_lt in Hsy. destruct (fixed_range y d Hsy) as [Hpos Hneg].
    assert (Hfx : fixed x d = x).
    { unfold fixed. destruct (Rle_dec (10 ^ 21) (Rabs x)); [reflexivity | contradiction]. }
    rewrite Hfx.
    destruct (Rle_dec 0 x) as [H0 | H0].
    + rewrite Rabs_pos_eq in Hbx by exact H0.
      rewrite Rabs_pos_eq in Hsy by lra. lra.
    + rewrite Rabs_left in Hbx by lra.
      destruct (Rle_dec 0 y); [specialize (Hpos ltac:(lra)) | specialize (Hneg ltac:(lra))];
        lra.
  - apply Rnot_le_lt in Hsx. destruct (fixed_range x d Hsx) as [Hpos Hneg].
    assert (Hfy : fixed y d = y).
    { unfold fixed. destruct (Rle_dec (10 ^ 21) (Rabs y)); [reflexivity | contradiction]. }
    rewrite Hfy.
    destruct (Rle_dec 0 y) as [H0 | H0].
    + rewrite Rabs_pos_eq in Hby by exact H0.
      destruct (Rle_dec 0 x); [specialize (Hpos ltac:(lra)) | specialize (Hneg ltac:(lra))];
        lra.
    + rewrite Rabs_left in Hby by lra.
      rewrite Rabs_left in Hsx by lra. lra.
  - apply Rnot_le_lt in Hsx, Hsy.
    destruct (fixed_range x d Hsx) as [Hpx Hnx].
    destruct (fixed_range y d Hsy) as [Hpy Hny].
    destruct (Rlt_dec x 0) as [Hx0 | Hx0]; destruct (Rlt_dec y 0) as [Hy0 | Hy0].
    + unfold fixed.
      destruct (Rle_dec (10 ^ 21) (Rabs x)); [lra |].
      destruct (Rle_dec (10 ^ 21) (Rabs y)); [lra |].
      destruct (Rlt_dec x 0); [| contradiction].
      destruct (Rlt_dec y 0); [| contradiction].
      assert (Hz : (Zfloor (- y * 10 ^ d + / 2) <= Zfloor (- x * 10 ^ d + / 2))%Z).
      { apply round_le. nra. }
      apply IZR_le in Hz.
      apply Ropp_le_contravar. unfold Rdiv.
      apply Rmult_le_compat_r; [left; now apply Rinv_0_lt_compat | exact Hz].
    + specialize (Hnx Hx0). specialize (Hpy ltac:(lra)). lra.
    + lra.
    + unfold fixed.
      destruct (Rle_dec (10 ^ 21) (Rabs x)); [lra |].
      destruct (Rle_dec (10 ^ 21) (Rabs y)); [lra |].
      destruct (Rlt_dec x 0); [contradiction |].
      destruct (Rlt_dec y 0); [contradiction |].
      assert (Hz : (Zfloor (x * 10 ^ d + / 2) <= Zfloor (y * 10 ^ d + / 2))%Z).
      { apply round_le. nra. }
      apply IZR_le in Hz. unfold Rdiv.
      apply Rmult_le_compat_r; [left; now apply Rinv_0_lt_compat | exact Hz].
Qed.

(** A number that already has [d] decimals is left as it is. *)
Lemma fixed_exact (x : R) (d : nat) (k : Z) :
  x * 10 ^ d = IZR k -> fixed x d = x.
Proof.
  intros Hk. pose proof (pow10_pos d) as Hp. unfold fixed.
  destruct (Rle_dec (10 ^ 21) (Rabs x)); [reflexivity |].
  destruct (Rlt_dec x 0).
  - replace (- x * 10 ^ d) with (IZR (- k)) by (rewrite opp_IZR; lra).
    rewrite Zfloor_half, opp_IZR, <- Hk. field. lra.
  - rewrite Hk, Zfloor_half, <- Hk. field. lra.
Qed.

Lemma fixed_zero (d : nat) : fixed 0 d = 0.
Proof. apply (fixed_exact 0 d 0). lra. Qed.

End RoundFacts.

(** ** The layout estimate of the planner *)

Module LayoutFacts.

Import Planner.
Import RoundFacts.

Local Open Scope string_scope.

(** The spacing between laterals that [calculateLayoutLengths] works
    with: a finite number of at least 0.5, or [Infinity]. *)
Lemma lateral_spacing_form (s : num) :
  (exists sp, Math_max 0.5 (or_else s 12) = Fin sp /\ 0.5 <= sp) \/
  Math_max 0.5 (or_else s 12) = PInf.
Proof.
  destruct s as [x | | |]; unfold or_else, truthy.
  - left. destruct (Req_dec_T x 0); rewrite Math_max_Fin; eexists;
      (split; [reflexivity | apply Rmax_l]).
  - right. reflexivity.
  - left. exists 0.5. split; [reflexivity | lra].
  - left. rewrite Math_max_Fin. eexists. split; [reflexivity | apply Rmax_l].
Qed.

Lemma field_side_form (a : R) :
  exists side, Math_sqrt (Math_max 1 (Fin a)) = Fin side /\ 1 <= side /\
               side * side = Rmax 1 a.
Proof.
  rewrite Math_max_Fin. unfold Math_sqrt.
  pose proof (Rmax_l 1 a) as H1.
  destruct (Rlt_dec (Rmax 1 a) 0); [lra |].
  exists (sqrt (Rmax 1 a)). split; [reflexivity |]. split.
  - apply Rle_trans with (sqrt 1); [rewrite sqrt_1; lra | apply sqrt_le_1; lra].
  - apply sqrt_sqrt. lra.
Qed.

Lemma lateral_count_form (side : R) (s : num) :
  0 <= side ->
  exists n : Z,
    Math_max 1 (Math_ceil (div (Fin side) (Math_max 0.5 (or_else s 12)))) = Fin (IZR n) /\
    (1 <= n)%Z.
Proof.
  intros Hs.
  destruct (lateral_spacing_form s) as [(sp & -> & Hsp) | ->].
  - rewrite div_Fin by lra. rewrite Math_ceil_Fin, Math_max_Fin.
    rewrite (Rmax_IZR 1). eexists. split; [reflexivity | lia].
  - cbn [div]. rewrite Math_ceil_Fin, Math_max_Fin.
    rewrite (Rmax_IZR 1). eexists. split; [reflexivity | lia].
Qed.

Definition factorOf (mode : string) : R := if String.eqb mode "ai" then 0.9 else 1.05.

(** The layout of a finite area, with the roundings written out. *)
Lemma layout_form (a : R) (s : num) (mode : string) :
  exists (side : R) (n : Z),
    1 <= side /\ side * side = Rmax 1 a /\ (1 <= n)%Z /\
    Math_max 1 (Math_ceil (div (Fin side) (Math_max 0.5 (or_else s 12)))) = Fin (IZR n) /\
    calculateLayoutLengths (Fin a) s mode =
    {| fieldSide := Fin side;
       lateralCount := Fin (IZR n);
       avgLateralLength := Fin side;
       mainLength := Fin (IZR (Z.max 10 (Zfloor (side * factorOf mode + / 2))));
       lateralLength :=
         Fin (IZR (Z.max 10 (Zfloor (side * IZR n * factorOf mode + / 2))));
       totalPipeLength :=
         Fin (IZR (Z.max 20
                     (Zfloor (side * factorOf mode + side * IZR n * factorOf mode + / 2)))) |}.
Proof.
  destruct (field_side_form a) as (side & Hside & H1 & Hsq).
  destruct (lateral_count_form side s ltac:(lra)) as (n & Hn & Hn1).
  exists side, n. repeat (split; [assumption |]).
  unfold calculateLayoutLengths. rewrite Hside, Hn. unfold factorOf.
  destruct (String.eqb mode "ai");
    rewrite ?mul_Fin, ?add_Fin, ?Math_round_Fin, ?Math_max_Fin;
    rewrite <- ?(Rmax_IZR 10), <- ?(Rmax_IZR 20); reflexivity.
Qed.


(** X2.  For the same finite area and spacing, the layout mode "ai" never
    gives a longer main, longer laterals or a longer total than any other
    mode. *)
Theorem layout_ai_not_longer (a : R) (s : num) (mode : string) :
  mode <> "ai" ->
  let ai := calculateLayoutLengths (Fin a) s "ai" in
  let other := calculateLayoutLengths (Fin a) s mode in
  (mainLength ai <=? mainLength other)%js = true /\
  (lateralLength ai <=? lateralLength other)%js = true /\
  (totalPipeLength ai <=? totalPipeLength other)%js = true /\
  lateralCount ai = lateralCount other.
Proof.
  intros Hmode ai other. subst ai other.
  destruct (layout_form a s "ai") as (side & n & H1 & Hsq & Hn1 & Hn & ->).
  destruct (layout_form a s mode) as (side' & n' & H1' & Hsq' & Hn1' & Hn' & ->).
  assert (Hs : side' = side).
  { assert (0 < Rmax 1 a) by (pose proof (Rmax_l 1 a); lra). nra. }
  subst side'. rewrite Hn in Hn'. injection Hn' as Hnn. apply eq_IZR in Hnn. subst n'.
  cbn [mainLength lateralLength totalPipeLength lateralCount].
  assert (Hf : factorOf "ai" = 0.9) by reflexivity.
  assert (Hg : factorOf mode = 1.05).
  { unfold factorOf. destruct (String.eqb_spec mode "ai"); [contradiction | reflexivity]. }
  rewrite Hf, Hg.
  assert (Hn0 : 1 <= IZR n) by (apply (IZR_le 1); exact Hn1).
  assert (Hsn : 0 <= side * IZR n) by nra.
  repeat split; try apply leb_Fin_true; try apply IZR_le;
    try (apply Z.max_le_compat_l; apply round_le; nra).
Qed.

(** X3.  For a field of at least 121 m2 the reported total pipe length
    differs from mainLength + lateralLength by at most 1 m. *)
Theorem layout_total_matches_parts (a : R) (s : num) (mode : string) :
  121 <= a ->
  let layout := calculateLayoutLengths (Fin a) s mode in
  exists main lateral total : Z,
    mainLength layout = Fin (IZR main) /\
    lateralLength layout = Fin (IZR lateral) /\
    totalPipeLength layout = Fin (IZR total) /\
    (main + lateral - 1 <= total <= main + lateral + 1)%Z.
Proof.
  intros Ha layout. subst layout.
  destruct (layout_form a s mode) as (side & n & H1 & Hsq & Hn1 & _ & ->).
  cbn [mainLength lateralLength totalPipeLength].
  do 3 eexists. repeat (split; [reflexivity |]).
  rewrite Rmax_right in Hsq by lra.
  assert (Hside : 11 <= side) by nra.
  assert (Hf : 0.9 <= factorOf mode <= 1.05).
  { unfold factorOf. destruct (String.eqb mode "ai"); lra. }
  assert (Hn0 : 1 <= IZR n) by (apply (IZR_le 1); exact Hn1).
  assert (Hm : (10 <= Zfloor (side * factorOf mode + / 2))%Z).
  { apply Zfloor_lub. simpl. nra. }
  assert (Hsn : 11 <= side * IZR n) by nra.
  assert (Hl : (10 <= Zfloor (side * IZR n * factorOf mode + / 2))%Z).
  { apply Zfloor_lub. simpl. nra. }
  pose proof (round_add (side * factorOf mode) (side * IZR n * factorOf mode)). lia.
Qed.

Lemma layout_ai_not_longer_witness :
  let ai := calculateLayoutLengths (Fin 16000) (Fin 12) "ai" in
  let other := calculateLayoutLengths (Fin 16000) (Fin 12) "heuristic" in
  (mainLength ai <=? mainLength other)%js = true /\
  (lateralLength ai <=? lateralLength other)%js = true /\
  (totalPipeLength ai <=? totalPipeLength other)%js = true /\
  lateralCount ai = lateralCount other.
Proof.
  apply (layout_ai_not_longer 16000 (Fin 12) "heuristic"). discriminate.
Defined.

Lemma layout_total_matches_parts_witness :
  let layout := calculateLayoutLengths (Fin 16000) (Fin 12) "heuristic" in
  exists main lateral total : Z,
    mainLength layout = Fin (IZR main) /\
    lateralLength layout = Fin (IZR lateral) /\
    totalPipeLength layout = Fin (IZR total) /\
    (main + lateral - 1 <= total <= main + lateral + 1)%Z.
Proof.
  apply (layout_total_matches_parts 16000 (Fin 12) "heuristic"). lra.
Defined.

End LayoutFacts.

(** ** The hydraulic check and the pump of the planner *)

Module HydraulicsFacts.

Import Planner.
Import RoundFacts.

(** [calculateHydraulics] on a finite flow and diameter that are not
    negative, with the roundings written out. *)
Lemma hydraulics_form (Q L D lat : R) :
  0 <= Q -> 0 <= D ->
  exists h len dm lat' : R,
    0 <= h /\ 1 <= len /\ 0 < dm /\ (Q = 0 -> h = 0) /\
    lat' = (if Req_dec_T lat 0 then len else lat) /\
    calculateHydraulics (Fin Q) (Fin L) (Fin D) (Fin lat) 30 =
    {| hf := Fin h;
       headLossPercent := Fin (Rmax 0 (Rmin 100 (fixed (h / 30 * 100) 2)));
       lateralHeadLossPercent :=
         Fin (Rmax 0 (Rmin 100 (fixed (h * lat' / len / 30 * 100) 2)));
       velocity := Fin (fixed (Q / (PI * Rpower dm 2 * 0.25)) 3);
       withinLimit :=
         leb (Fin (h / 30 * 100)) (Fin 5) && leb (Fin (h * lat' / len / 30 * 100)) (Fin 5);
       totalHead := Fin (30 + h) |}.
Proof.
  intros HQ HD. unfold calculateHydraulics.
  destruct (HeadLoss.pipe_length_used L) as (len & -> & Hlen).
  destruct (HeadLoss.diameter_used D HD) as (dm & -> & Hdm).
  assert (Hflow : exists pf, Math_pow (Fin Q) 1.852 = Fin pf /\ 0 <= pf /\ (Q = 0 -> pf = 0)).
  { destruct (Req_dec_T Q 0) as [-> | Hne].
    - exists 0. rewrite Math_pow_zero by lra. repeat split; lra.
    - exists (Rpower Q 1.852). rewrite Math_pow_pos by lra.
      split; [reflexivity |]. split; [left; apply Rpower_pos | intros; contradiction]. }
  destruct Hflow as (pf & -> & Hpf & Hpf0).
  rewrite !Math_pow_pos by lra. unfold Math_PI. rewrite ?mul_Fin.
  pose proof (Rpower_pos 150 1.852) as Hc.
  pose proof (Rpower_pos dm 4.871) as Hd.
  pose proof (Rpower_pos dm 2) as Hd2.
  pose proof PI_RGT_0 as Hpi.
  assert (Hden : 0 < Rpower 150 1.852 * Rpower dm 4.871) by nra.
  assert (Harea : 0 < PI * Rpower dm 2 * 0.25) by nra.
  rewrite (div_Fin _ (Rpower 150 1.852 * Rpower dm 4.871)) by lra.
  set (h := 10.67 * pf * len / (Rpower 150 1.852 * Rpower dm 4.871)).
  assert (Hh : 0 <= h).
  { unfold h. apply Rmult_le_pos; [nra | left; now apply Rinv_0_lt_compat]. }
  assert (Hlat : exists lat', or_else (Fin lat) (Fin len) = Fin lat' /\
                              lat' = (if Req_dec_T lat 0 then len else lat)).
  { unfold or_else, truthy. destruct (Req_dec_T lat 0); eexists; split; reflexivity. }
  destruct Hlat as (lat' & -> & Hlat').
  exists h, len, dm, lat'. repeat (split; [first [assumption | lra] |]).
  split.
  { intros H0. unfold h. rewrite (Hpf0 H0). unfold Rdiv. ring. }
  split; [exact Hlat' |].
  unfold gtb. rewrite (ltb_Fin_true 0) by lra.
  rewrite ?mul_Fin, ?add_Fin.
  rewrite (div_Fin h 30) by lra. rewrite ?mul_Fin.
  rewrite (div_Fin (h * lat') len) by lra.
  rewrite (div_Fin (h * lat' / len) 30) by lra. rewrite ?mul_Fin.
  rewrite (div_Fin Q) by lra.
  rewrite !toFixed_fixed, !Math_min_Fin, !Math_max_Fin. reflexivity.
Qed.

Lemma clamp_le (t c : R) : 0 <= c <= 100 -> t <= c -> Rmax 0 (Rmin 100 t) <= c.
Proof.
  intros Hc Ht. apply Rmax_lub; [lra |].
  apply Rle_trans with t; [apply Rmin_r | exact Ht].
Qed.

Lemma clamp_lt (t c : R) : 0 < c <= 100 -> Rmax 0 (Rmin 100 t) < c -> t < c.
Proof.
  intros Hc H. destruct (Rlt_dec t c) as [Hlt | Hge]; [exact Hlt |].
  exfalso. apply Rnot_lt_le in Hge.
  assert (c <= Rmin 100 t) by (apply Rmin_glb; lra).
  pose proof (Rmax_r 0 (Rmin 100 t)). lra.
Qed.

(** A value rounded to two decimals is at most 5 when the value is, and
    the value is below 5 when the rounded value is. *)
Lemma fixed_five (x : R) :
  (x <= 5 -> fixed x 2 <= 5) /\ (fixed x 2 < 5 -> x < 5).
Proof.
  assert (H5 : fixed 5 2 = 5) by (apply (fixed_exact 5 2 500); lra).
  split.
  - intros H. rewrite <- H5. now apply fixed_le.
  - intros H. destruct (Rlt_dec x 5) as [Hlt | Hge]; [exact Hlt |].
    exfalso. apply Rnot_lt_le in Hge.
    pose proof (fixed_le 5 x 2 Hge). lra.
Qed.

(** X4.  For a finite flow and diameter that are not negative and any
    finite pipe and lateral length, [calculateHydraulics] (operating head
    30 m) returns a friction loss hf >= 0, a lateral head-loss percentage
    within [0, 100], a velocity >= 0 and a total head of 30 + hf, all
    finite; with no flow, the loss, both percentages and the velocity are
    0. *)
Theorem hydraulics_outputs (Q L D lat : R) :
  0 <= Q -> 0 <= D ->
  let res := calculateHydraulics (Fin Q) (Fin L) (Fin D) (Fin lat) 30 in
  exists h p lp v : R,
    hf res = Fin h /\ 0 <= h /\
    headLossPercent res = Fin p /\
    lateralHeadLossPercent res = Fin lp /\ 0 <= lp <= 100 /\
    velocity res = Fin v /\ 0 <= v /\
    totalHead res = Fin (30 + h) /\
    (Q = 0 -> h = 0 /\ p = 0 /\ lp = 0 /\ v = 0).
Proof.
  intros HQ HD res. subst res.
  destruct (hydraulics_form Q L D lat HQ HD)
    as (h & len & dm & lat' & Hh & Hlen & Hdm & Hh0 & Hlat' & ->).
  cbn [hf headLossPercent lateralHeadLossPercent velocity totalHead].
  do 4 eexists. split; [reflexivity |]. split; [exact Hh |].
  split; [reflexivity |]. split; [reflexivity |].
  split; [apply HeadLoss.clamp_bounds |].
  split; [reflexivity |].
  pose proof (Rpower_pos dm 2) as Hd2. pose proof PI_RGT_0 as Hpi.
  assert (Harea : 0 < PI * Rpower dm 2 * 0.25) by nra.
  split.
  { rewrite <- (fixed_zero 3). apply fixed_le.
    apply Rmult_le_pos; [exact HQ | left; now apply Rinv_0_lt_compat]. }
  split; [reflexivity |].
  intros H0. specialize (Hh0 H0). subst Q. rewrite Hh0.
  replace (0 / 30 * 100) with 0 by lra.
  replace (0 * lat' / len / 30 * 100) with 0 by (unfold Rdiv; ring).
  replace (0 / (PI * Rpower dm 2 * 0.25)) with 0 by (unfold Rdiv; ring).
  rewrite !fixed_zero. rewrite Rmin_right by lra. rewrite Rmax_left by lra.
  repeat split; reflexivity.
Qed.

Lemma hydraulics_outputs_witness :
  let res := calculateHydraulics (Fin 0.005) (Fin 600) (Fin 110) (Fin 360) 30 in
  exists h p lp v : R,
    hf res = Fin h /\ 0 <= h /\
    headLossPercent res = Fin p /\
    lateralHeadLossPercent res = Fin lp /\ 0 <= lp <= 100 /\
    velocity res = Fin v /\ 0 <= v /\
    totalHead res = Fin (30 + h) /\
    (0.005 = 0 -> h = 0 /\ p = 0 /\ lp = 0 /\ v = 0).
Proof.
  apply (hydraulics_outputs 0.005 600 110 360); lra.
Defined.

(** X5.  The flag [withinLimit] is computed from the percentages before
    they are rounded: whenever it is set, both reported percentages are at
    most 5, and whenever both reported percentages are below 5, it is
    set. *)
Theorem within_limit_and_reported (Q L D lat : R) :
  0 <= Q -> 0 <= D ->
  let res := calculateHydraulics (Fin Q) (Fin L) (Fin D) (Fin lat) 30 in
  exists p lp : R,
    headLossPercent res = Fin p /\
    lateralHeadLossPercent res = Fin lp /\
    (withinLimit res = true -> p <= 5 /\ lp <= 5) /\
    (p < 5 -> lp < 5 -> withinLimit res = true).
Proof.
  intros HQ HD res. subst res.
  destruct (hydraulics_form Q L D lat HQ HD)
    as (h & len & dm & lat' & Hh & Hlen & Hdm & Hh0 & Hlat' & ->).
  cbn [headLossPercent lateralHeadLossPercent withinLimit].
  do 2 eexists. split; [reflexivity |]. split; [reflexivity |]. split.
  - intros H. apply andb_prop in H as [H1 H2].
    apply Seasonal.leb_Fin_iff in H1, H2.
    split; (apply clamp_le; [lra | now apply fixed_five]).
  - intros H1 H2. apply clamp_lt in H1, H2; try lra.
    apply fixed_five in H1, H2.
    rewrite !leb_Fin_true by lra. reflexivity.
Qed.

Lemma within_limit_and_reported_witness :
  let res := calculateHydraulics (Fin 0.005) (Fin 600) (Fin 110) (Fin 360) 30 in
  exists p lp : R,
    headLossPercent res = Fin p /\
    lateralHeadLossPercent res = Fin lp /\
    (withinLimit res = true -> p <= 5 /\ lp <= 5) /\
    (p < 5 -> lp < 5 -> withinLimit res = true).
Proof.
  apply (within_limit_and_reported 0.005 600 110 360); lra.
Defined.

End HydraulicsFacts.

(** ** The design pipeline of the planner *)

Module DesignFacts.

Import Planner.
Import RoundFacts.

Local Open Scope string_scope.

(** X6.  For a finite flow and head that are not negative and a positive
    pump efficiency, [calculatePumpPowerHP] returns the power
    flow x head / (efficiency x 75) rounded to two decimals, and 0.746
    times the unrounded power, rounded to two decimals, as kilowatts: both
    finite, with 0 <= kw <= hp.  With an efficiency of 0 and a positive
    flow and head both are [Infinity]. *)
Theorem pump_power_bounds (q H eff : R) :
  0 <= q -> 0 <= H -> 0 < eff ->
  (exists p w : R,
     calculatePumpPowerHP (Fin q) (Fin H) (Fin eff) = {| hp := Fin p; kw := Fin w |} /\
     p = fixed (q * H / (eff * 75)) 2 /\
     w = fixed (q * H / (eff * 75) * 0.746) 2 /\
     0 <= w <= p) /\
  (0 < q -> 0 < H ->
   calculatePumpPowerHP (Fin q) (Fin H) (Fin 0) = {| hp := PInf; kw := PInf |}).
Proof.
  intros Hq HH Heff. split.
  - unfold calculatePumpPowerHP. rewrite !mul_Fin.
    rewrite div_Fin by lra.
    set (raw := q * H / (eff * 75)).
    assert (Hraw : 0 <= raw).
    { unfold raw. apply Rmult_le_pos; [nra | left; apply Rinv_0_lt_compat; lra]. }
    assert (Hor : or_else (Fin raw) (Fin 0) = Fin raw).
    { unfold or_else, truthy. destruct (Req_dec_T raw 0) as [-> | _]; reflexivity. }
    rewrite Hor, mul_Fin, !toFixed_fixed.
    do 2 eexists. split; [reflexivity |]. split; [reflexivity |]. split; [reflexivity |].
    split.
    + rewrite <- (fixed_zero 2). apply fixed_le. nra.
    + apply fixed_le. nra.
  - intros Hq0 HH0. unfold calculatePumpPowerHP. rewrite !mul_Fin.
    replace (0 * 75) with 0 by lra.
    rewrite div_Fin_zero by nra. cbn. unfold inf_of_sign.
    destruct (Rlt_dec 0 0.746); [reflexivity | lra].
Qed.

Lemma pump_power_bounds_witness :
  (exists p w : R,
     calculatePumpPowerHP (Fin 2) (Fin 31) (Fin 0.65) = {| hp := Fin p; kw := Fin w |} /\
     p = fixed (2 * 31 / (0.65 * 75)) 2 /\
     w = fixed (2 * 31 / (0.65 * 75) * 0.746) 2 /\
     0 <= w <= p) /\
  (0 < 2 -> 0 < 31 ->
   calculatePumpPowerHP (Fin 2) (Fin 31) (Fin 0) = {| hp := PInf; kw := PInf |}).
Proof.
  apply (pump_power_bounds 2 31 0.65); lra.
Defined.

Lemma spacing_used (s : R) :
  exists sp, Math_max 0.5 (or_else (Fin s) 12) = Fin sp /\ 0.5 <= sp.
Proof.
  unfold or_else, truthy.
  destruct (Req_dec_T s 0); rewrite Math_max_Fin; eexists;
    (split; [reflexivity | apply Rmax_l]).
Qed.

Lemma seconds_used (h : R) :
  exists sec, mul (Math_max 1 (or_else (Fin h) 24)) 3600 = Fin sec /\ 3600 <= sec.
Proof.
  unfold or_else, truthy.
  destruct (Req_dec_T h 0); rewrite Math_max_Fin, mul_Fin; eexists;
    (split; [reflexivity |]).
  - pose proof (Rmax_l 1 24). lra.
  - pose proof (Rmax_l 1 h). lra.
Qed.

(** X7.  For every finite planner form, [buildDesignFromInputs] works
    with spacings of at least 0.5 m and returns whole numbers of
    sprinklers and valves, each at least 1: the sprinklers at the design
    spacing cover the area, no valve serves more than 100 sprinklers, and
    no smaller number of valves would do. *)
Theorem design_counts (crop mode : string)
  (area k ki kd km kl e r f D M h sx sy : R) :
  let design :=
    buildDesignFromInputs (mkInputs crop area k ki kd km kl e r f D M h sx sy mode) in
  exists (spx spy : R) (sprinklers nvalves : Z),
    designSpacingX design = Fin spx /\ 0.5 <= spx /\
    designSpacingY design = Fin spy /\ 0.5 <= spy /\
    sprinklerCount design = Fin (IZR sprinklers) /\ (1 <= sprinklers)%Z /\
    valves design = Fin (IZR nvalves) /\ (1 <= nvalves)%Z /\
    area * 1600 <= IZR sprinklers * (spx * spy) /\
    (sprinklers <= 100 * nvalves)%Z /\
    (100 * (nvalves - 1) < sprinklers \/ nvalves = 1)%Z.
Proof.
  intros design. subst design. unfold buildDesignFromInputs.
  cbn [designSpacingX designSpacingY sprinklerCount valves spacingX spacingY
       hoursPerDay mainDiameter layoutMode].
  destruct (WaterBalance.demand_finite_form crop mode area k ki kd km kl e r f D M h sx sy)
    as (s & pe & q & _ & _ & _ & ->).
  cbn [areaM2 waterDemandLday].
  destruct (spacing_used sx) as (spx & -> & Hspx).
  destruct (spacing_used sy) as (spy & -> & Hspy).
  rewrite mul_Fin. rewrite div_Fin by nra.
  rewrite Math_ceil_Fin, Math_max_Fin, (Rmax_IZR 1).
  set (sc := Z.max 1 (Zceil (area * 1600 / (spx * spy)))).
  rewrite div_Fin by lra. rewrite Math_ceil_Fin, Math_max_Fin, (Rmax_IZR 1).
  exists spx, spy, sc, (Z.max 1 (Zceil (IZR sc / 100))).
  repeat (split; [first [reflexivity | assumption | lia] |]).
  assert (Hpos : 0 < spx * spy) by nra.
  split.
  { pose proof (Zceil_bound (area * 1600 / (spx * spy))) as [_ Hc].
    assert (Hle : IZR (Zceil (area * 1600 / (spx * spy))) <= IZR sc).
    { apply IZR_le. unfold sc. lia. }
    assert (Hdiv : area * 1600 / (spx * spy) <= IZR sc) by lra.
    apply Rmult_le_compat_r with (r := spx * spy) in Hdiv; [| lra].
    unfold Rdiv in Hdiv. rewrite Rmult_assoc, Rinv_l in Hdiv by lra. lra. }
  pose proof (Zceil_bound (IZR sc / 100)) as [Hlo Hhi].
  set (c := Zceil (IZR sc / 100)) in *.
  assert (H1 : (sc <= 100 * c)%Z).
  { apply le_IZR. rewrite mult_IZR. lra. }
  assert (H2 : (100 * (c - 1) < sc)%Z).
  { apply lt_IZR. rewrite mult_IZR, minus_IZR. lra. }
  split; [lia |].
  destruct (Z.le_ge_cases c 1); [right | left]; lia.
Qed.

(** X8.  With a number of hours per day that is finite and not 0,
    [calculateHeadLossPercent], given the demand, pipe length and diameter
    of a design and those hours (as the override, or read from the field
    when no override is passed), returns the head-loss percentage of the
    design, whatever lateral length is passed. *)
Theorem head_loss_wrapper_agrees (inputs : Inputs) (h : R)
  (field lateral : option num) :
  hoursPerDay inputs = Fin h -> h <> 0 ->
  let design := buildDesignFromInputs inputs in
  calculateHeadLossPercent field
    (waterDemandLday (demand design)) (totalPipeLength (layout design))
    (mainDiameter inputs) (Some (Fin h)) lateral = designHeadLossPercent design /\
  calculateHeadLossPercent (Some (Fin h))
    (waterDemandLday (demand design)) (totalPipeLength (layout design))
    (mainDiameter inputs) None lateral = designHeadLossPercent design.
Proof.
  intros Hh Hne design. subst design.
  unfold calculateHeadLossPercent, buildDesignFromInputs.
  cbn [demand layout designHeadLossPercent]. rewrite Hh.
  rewrite (or_else_nz h) by exact Hne.
  unfold calculateHydraulics, parseFloat. cbn [headLossPercent].
  split; reflexivity.
Qed.

Lemma head_loss_wrapper_agrees_witness :
  let inputs := Scenario.goldenStageKc 10 in
  let design := buildDesignFromInputs inputs in
  calculateHeadLossPercent None
    (waterDemandLday (demand design)) (totalPipeLength (layout design))
    (mainDiameter inputs) (Some (Fin 8)) None = designHeadLossPercent design /\
  calculateHeadLossPercent (Some (Fin 8))
    (waterDemandLday (demand design)) (totalPipeLength (layout design))
    (mainDiameter inputs) None None = designHeadLossPercent design.
Proof.
  apply (head_loss_wrapper_agrees (Scenario.goldenStageKc 10) 8 None None).
  - reflexivity.
  - lra.
Defined.

(** The hydraulic check inside a design of a finite form with an area and
    a diameter that are not negative. *)
Lemma design_hydraulics (crop mode : string)
  (area k ki kd km kl e r f D M h sx sy : R) :
  0 <= area -> 0 <= D ->
  let design :=
    buildDesignFromInputs (mkInputs crop area k ki kd km kl e r f D M h sx sy mode) in
  exists Q L lat : R,
    0 <= Q /\
    hydraulics design = calculateHydraulics (Fin Q) (Fin L) (Fin D) (Fin lat) 30 /\
    designHeadLossPercent design = headLossPercent (hydraulics design) /\
    designLateralHeadLossPercent design = lateralHeadLossPercent (hydraulics design).
Proof.
  intros Harea HD design. subst design. unfold buildDesignFromInputs.
  cbn [hydraulics designHeadLossPercent designLateralHeadLossPercent
       spacingX spacingY hoursPerDay mainDiameter layoutMode].
  destruct (WaterBalance.demand_finite_form crop mode area k ki kd km kl e r f D M h sx sy)
    as (s & pe & q & _ & Hq & _ & ->).
  cbn [areaM2 waterDemandLday].
  destruct (spacing_used sy) as (spy & -> & Hspy).
  destruct (seconds_used h) as (sec & -> & Hsec).
  destruct (LayoutFacts.layout_form (area * 1600) (Fin spy) mode)
    as (side & n & _ & _ & _ & _ & ->).
  cbn [totalPipeLength lateralLength].
  rewrite div_Fin by lra. rewrite div_Fin by lra.
  do 3 eexists. split; [| split; [reflexivity | split; reflexivity]].
  pose proof (Rmax_l 0 (e * s - pe)) as Hn.
  assert (0 <= Rmax 0 (e * s - pe) / q).
  { apply Rmult_le_pos; [exact Hn | left; apply Rinv_0_lt_compat; lra]. }
  assert (0 <= Rmax 0 (e * s - pe) / q * (area * 1600)) by nra.
  apply Rmult_le_pos; [| lra].
  apply Rmult_le_pos; [assumption | left; apply Rinv_0_lt_compat; lra].
Qed.

(** X9.  For a finite planner form with an area and a diameter that are
    not negative and no stored design, [onValidateHydraulics] builds the
    design from the form and reports it valid exactly when both reported
    head-loss percentages are at most 5; it does so whenever the design's
    own flag [withinLimit] is set.  With a stored design the form is not
    read: the verdict is that of the stored design, valid exactly when its
    two percentages are at most 5, whatever the form holds by then. *)
Theorem validation_verdict (crop mode : string)
  (area k ki kd km kl e r f D M h sx sy : R) :
  0 <= area -> 0 <= D ->
  let inputs := mkInputs crop area k ki kd km kl e r f D M h sx sy mode in
  let design := buildDesignFromInputs inputs in
  exists p lp : R,
    designHeadLossPercent design = Fin p /\
    designLateralHeadLossPercent design = Fin lp /\
    0 <= p <= 100 /\ 0 <= lp <= 100 /\
    (fst (onValidateHydraulics None inputs) = true <-> p <= 5 /\ lp <= 5) /\
    (withinLimit (hydraulics design) = true ->
     fst (onValidateHydraulics None inputs) = true) /\
    (forall (stored : Design) (sp slp : R),
       designHeadLossPercent stored = Fin sp ->
       designLateralHeadLossPercent stored = Fin slp ->
       (fst (onValidateHydraulics (Some stored) inputs) = true <->
        sp <= 5 /\ slp <= 5)).
Proof.
  intros Harea HD inputs design.
  destruct (design_hydraulics crop mode area k ki kd km kl e r f D M h sx sy Harea HD)
    as (Q & L & lat & HQ & Hhyd & Hp & Hlp).
  fold inputs in Hhyd, Hp, Hlp. fold design in Hhyd, Hp, Hlp.
  destruct (HydraulicsFacts.hydraulics_form Q L D lat HQ HD)
    as (hh & len & dm & lat' & _ & _ & _ & _ & _ & Hform).
  rewrite Hform in Hhyd. rewrite Hhyd in Hp, Hlp.
  cbn [headLossPercent lateralHeadLossPercent] in Hp, Hlp.
  set (p := Rmax 0 (Rmin 100 (fixed (hh / 30 * 100) 2))) in *.
  set (lp := Rmax 0 (Rmin 100 (fixed (hh * lat' / len / 30 * 100) 2))) in *.
  exists p, lp. split; [exact Hp |]. split; [exact Hlp |].
  split; [apply HeadLoss.clamp_bounds |]. split; [apply HeadLoss.clamp_bounds |].
  assert (Hor : forall x, or_else (Fin x) (Fin 0) = Fin x).
  { intros x. unfold or_else, truthy. destruct (Req_dec_T x 0) as [-> | _]; reflexivity. }
  assert (Hval : fst (onValidateHydraulics None inputs) =
                 (leb (Fin p) (Fin 5) && leb (Fin lp) (Fin 5))%bool).
  { unfold onValidateHydraulics. fold design. rewrite Hp, Hlp. cbn [fst].
    rewrite !Hor. reflexivity. }
  split.
  { rewrite Hval. rewrite andb_true_iff, !Seasonal.leb_Fin_iff. tauto. }
  split.
  { intros Hw. rewrite Hval. rewrite Hhyd in Hw. cbn [withinLimit] in Hw.
    apply andb_prop in Hw as [H1 H2]. apply Seasonal.leb_Fin_iff in H1, H2.
    rewrite !leb_Fin_true; [reflexivity | |];
      (apply HydraulicsFacts.clamp_le; [lra | now apply HydraulicsFacts.fixed_five]). }
  intros stored sp slp Hsp Hslp.
  unfold onValidateHydraulics. rewrite Hsp, Hslp. cbn [fst]. rewrite !Hor.
  rewrite andb_true_iff, !Seasonal.leb_Fin_iff. tauto.
Qed.

Lemma validation_verdict_witness :
  let inputs := Scenario.goldenStageKc 10 in
  let design := buildDesignFromInputs inputs in
  exists p lp : R,
    designHeadLossPercent design = Fin p /\
    designLateralHeadLossPercent design = Fin lp /\
    0 <= p <= 100 /\ 0 <= lp <= 100 /\
    (fst (onValidateHydraulics None inputs) = true <-> p <= 5 /\ lp <= 5) /\
    (withinLimit (hydraulics design) = true ->
     fst (onValidateHydraulics None inputs) = true) /\
    (forall (stored : Design) (sp slp : R),
       designHeadLossPercent stored = Fin sp ->
       designLateralHeadLossPercent stored = Fin slp ->
       (fst (onValidateHydraulics (Some stored) inputs) = true <->
        sp <= 5 /\ slp <= 5)).
Proof.
  apply (validation_verdict "Sugarcane" "heuristic" 10 0.9 0.3 0.3 0.3 0.3 5 0 80 110 100
           8 12 12); lra.
Defined.

End DesignFacts.

(** ** The cost table, the recommendations and the area field *)

Module PageFacts.

Import RoundFacts.

Local Open Scope string_scope.

(** [x || d] is never [NaN] when [d] is not. *)
Lemma or_else_not_NaN (x d : num) : d <> NaN -> or_else x d <> NaN.
Proof.
  intros Hd. unfold or_else. destruct x as [a | | |]; cbn [truthy];
    try (destruct (Req_dec_T a 0)); try exact Hd; discriminate.
Qed.

Lemma Math_max_one (x : num) :
  x <> NaN -> leb (Fin 1) (Math_max (Fin 1) x) = true /\ Math_max (Fin 1) x <> NaN.
Proof.
  intros Hx. destruct x as [a | | |]; cbn [Math_max]; try contradiction.
  - split; [apply leb_Fin_true; apply Rmax_l | discriminate].
  - split; [reflexivity | discriminate].
  - split; [apply leb_Fin_true; lra | discriminate].
Qed.

(** X10.  Whatever design and form it is given, [buildCostItems] returns
    six rows in a fixed order with fixed units and unit prices (120, 70,
    85, 550, 9500 and 45000 baht); the filter set and the pump are counted
    once, the number of control valves is at least 1, and no quantity is
    [NaN]. *)
Theorem cost_items_shape (Number_toString : num -> string)
  (design : Planner.Design) (inputs : Planner.Inputs) :
  let items := Planner.buildCostItems Number_toString design inputs in
  map Planner.unit items = ["m"; "m"; "pcs"; "pcs"; "set"; "set"] /\
  map Planner.unitPrice items =
    [Fin 120; Fin 70; Fin 85; Fin 550; Fin 9500; Fin 45000] /\
  (exists main lateral sprinklers nvalves : num,
     map Planner.qty items = [main; lateral; sprinklers; nvalves; Fin 1; Fin 1] /\
     leb (Fin 1) nvalves = true) /\
  Forall (fun it => Planner.qty it <> NaN) items.
Proof.
  intros items. subst items. unfold Planner.buildCostItems.
  cbn [map Planner.unit Planner.unitPrice Planner.qty].
  set (v := or_else (or_else (Planner.valves design) _) (Fin 1)).
  assert (Hv : v <> NaN) by (apply or_else_not_NaN; discriminate).
  destruct (Math_max_one v Hv) as [Hge Hnan].
  split; [reflexivity |]. split; [reflexivity |]. split.
  - do 4 eexists. split; [reflexivity | exact Hge].
  - repeat constructor; cbn [Planner.qty];
      try (apply or_else_not_NaN; discriminate); try exact Hnan; discriminate.
Qed.

(** X11.  [buildDesignResponseJSON] always returns two or three
    recommendations, one on the head loss first and one on the pump last;
    the fallback text for an empty list is never used.  The suggested
    pump power is 7.5 kW exactly when the larger pump is recommended (a
    demand above 200000 L/day), and the suggested head is 40 m exactly
    when a larger main is recommended (a head loss above 5 %). *)
Theorem recommendations_shape (inputs : Planner.Inputs)
  (outputsHeadLoss outputsWaterDemand : num) :
  let res := Planner.buildDesignResponseJSON inputs outputsHeadLoss outputsWaterDemand in
  let recs := Planner.recommendations res in
  let sel := Planner.pumpSelection res in
  (List.length recs = 2%nat \/ List.length recs = 3%nat) /\
  ~ In "Design meets key requirements; no major issues flagged" recs /\
  (Planner.suggestedHead sel = "40 m" <->
   hd_error recs = Some "Increase main pipe diameter to reduce head loss below 5%") /\
  (Planner.suggestedHead sel = "30 m" <->
   hd_error recs = Some "Head loss is within target (≤ 5%)") /\
  (Planner.suggestedPower sel = "7.5 kW" <->
   In "Select a pump larger than 200 m³/day (≥ 7.5 kW)" recs) /\
  (Planner.suggestedPower sel = "5.5 kW" <->
   In "A medium-size pump is sufficient for this design (~5.5 kW)" recs).
Proof.
  intros res recs sel. subst recs sel res. unfold Planner.buildDesignResponseJSON.
  cbn [Planner.recommendations Planner.pumpSelection Planner.suggestedHead
       Planner.suggestedPower].
  destruct (gtb (or_else (parseFloat outputsHeadLoss) (Fin 0)) (Fin 5));
    destruct (ltb (Planner.mainDiameter inputs) (Fin 75) &&
              gtb (Planner.areaRai inputs) (Fin 20))%bool;
    destruct (gtb (or_else (parseFloat outputsWaterDemand) (Fin 0)) (Fin 200000));
    cbn [app List.length hd_error In];
    (split; [first [left; reflexivity | right; reflexivity] |]);
    (split; [intros H; repeat (destruct H as [H | H]; [discriminate H |]); exact H |]);
    repeat split; intros H; try reflexivity; try discriminate H;
    try (injection H as H; discriminate H);
    try (repeat (destruct H as [H | H]; [discriminate H |]); contradiction);
    auto 6.
Qed.

(** X12.  The two listeners of the field [area-value], that of
    [script.js] and that of the planner, write the same number for every
    content of the field: a number within [1, 100], the content itself
    when it is a number within [1, 100], and 1 when the content does not
    parse or is 0. *)
Theorem area_field_clamped (value : num) :
  Legacy.areaValue_oninput value = Planner.areaValue_oninput value /\
  (exists v : R, Planner.areaValue_oninput value = Fin v /\ 1 <= v <= 100) /\
  (forall a : R, value = Fin a -> 1 <= a <= 100 ->
     Planner.areaValue_oninput value = Fin a) /\
  (value = NaN \/ value = Fin 0 -> Planner.areaValue_oninput value = Fin 1).
Proof.
  unfold Legacy.areaValue_oninput, Planner.areaValue_oninput, parseFloat, gtb.
  destruct value as [a | | |]; unfold or_else, truthy.
  - destruct (Req_dec_T a 0) as [Hz | Hnz]; cbn [Math_min Math_max ltb];
      repeat match goal with
             | |- context [Rlt_dec ?x ?y] => destruct (Rlt_dec x y); cbn [ltb]
             end;
      unfold Rmin, Rmax;
      repeat match goal with
             | |- context [Rle_dec ?x ?y] =>
                 lazymatch y with context [Rle_dec] => fail | _ => destruct (Rle_dec x y) end
             end;
      try (exfalso; lra);
      (split; [f_equal; lra |]);
      (split; [eexists; split; [reflexivity | lra] |]);
      (split; [intros b Hb Hr; injection Hb as <-; f_equal; lra |]);
      intros [H | H]; try discriminate H; injection H as H; f_equal; lra.
  - cbn [Math_min Math_max ltb].
    repeat match goal with
           | |- context [Rlt_dec ?x ?y] => destruct (Rlt_dec x y); cbn [ltb]
           end;
      unfold Rmax;
      repeat match goal with
             | |- context [Rle_dec ?x ?y] =>
                 lazymatch y with context [Rle_dec] => fail | _ => destruct (Rle_dec x y) end
             end;
      try (exfalso; lra);
      (split; [f_equal; lra |]);
      (split; [eexists; split; [reflexivity | lra] |]);
      (split; [intros b Hb; discriminate Hb |]);
      intros [H | H]; discriminate H.
  - cbn [Math_min Math_max ltb].
    repeat match goal with
           | |- context [Rlt_dec ?x ?y] => destruct (Rlt_dec x y); cbn [ltb]
           end;
      try (exfalso; lra);
      (split; [reflexivity |]);
      (split; [eexists; split; [reflexivity | lra] |]);
      (split; [intros b Hb; discriminate Hb |]);
      intros [H | H]; discriminate H.
  - cbn [Math_min Math_max ltb].
    repeat match goal with
           | |- context [Rlt_dec ?x ?y] => destruct (Rlt_dec x y); cbn [ltb]
           end;
      unfold Rmin, Rmax;
      repeat match goal with
             | |- context [Rle_dec ?x ?y] =>
                 lazymatch y with context [Rle_dec] => fail | _ => destruct (Rle_dec x y) end
             end;
      try (exfalso; lra);
      (split; [f_equal; lra |]);
      (split; [eexists; split; [reflexivity | lra] |]);
      (split; [intros b Hb; discriminate Hb |]);
      intros _; f_equal; lra.
Qed.

End PageFacts.

(** ** The water demand of the two calculators *)

Module DemandFacts.

Import Planner.

(** The seasonal Kc and the applied efficiency of the planner's water
    balance depend neither on the area nor on ET0 or the rainfall, and the
    effective rainfall depends on the rainfall only. *)
Lemma demand_shared_form (crop mode : string) (k ki kd km kl f D M h sx sy : R) :
  exists s q : R,
    0.01 <= q /\
    (0 <= k -> 0 <= ki -> 0 <= kd -> 0 <= km -> 0 <= kl -> 0 <= s) /\
    forall area e r : R,
    exists pe : R,
      0 <= pe /\
      calculateEffectiveRainFAO56 (Fin r) = Fin pe /\
      waterDemandLday
        (calculateWaterDemandLperDay
           (mkInputs crop area k ki kd km kl e r f D M h sx sy mode))
      = Fin (Rmax 0 (e * s - pe) / q * (area * 1600)).
Proof.
  destruct (WaterBalance.demand_finite_form crop mode 0 k ki kd km kl 0 0 f D M h sx sy)
    as (s & pe0 & q & _ & Hq & Hs & E0).
  exists s, q. split; [exact Hq |]. split; [exact Hs |].
  intros area e r.
  destruct (WaterBalance.demand_finite_form crop mode area k ki kd km kl e r f D M h sx sy)
    as (s' & pe & q' & Hpe & _ & _ & E).
  assert (Hs' : s' = s).
  { apply (f_equal seasonalKc) in E0. apply (f_equal seasonalKc) in E.
    unfold calculateWaterDemandLperDay, computeSeasonalKc in E0, E.
    cbn [seasonalKc kc kcInitial kcDevelopment kcMid kcLate] in E0, E.
    rewrite E0 in E. now injection E. }
  assert (Hq' : q' = q).
  { apply (f_equal appliedEfficiency) in E0. apply (f_equal appliedEfficiency) in E.
    unfold calculateWaterDemandLperDay in E0, E.
    cbn [appliedEfficiency efficiency] in E0, E.
    rewrite E0 in E. now injection E. }
  subst s' q'. exists pe. split; [exact Hpe |]. split.
  - apply (f_equal effectiveRain) in E.
    unfold calculateWaterDemandLperDay in E. cbn [effectiveRain rainfall] in E.
    exact E.
  - rewrite E. reflexivity.
Qed.

Lemma effective_rain_zero : calculateEffectiveRainFAO56 (Fin 0) = Fin 0.
Proof. unfold calculateEffectiveRainFAO56. js_eval. reflexivity. Qed.


(** X14.  For finite inputs with an area and crop coefficients that are
    not negative, the water demand of either calculator is never negative
    and does not decrease when ET0 rises or the area grows; that of
    [script.js] does not decrease either when the rainfall falls, and that
    of the planner is at most what it is without rain. *)
Theorem water_demand_monotone (crop mode : string)
  (area1 area2 k ki kd km kl e1 e2 r1 r2 f D M h sx sy : R) :
  0 <= area1 <= area2 -> e1 <= e2 -> r2 <= r1 ->
  0 <= k -> 0 <= ki -> 0 <= kd -> 0 <= km -> 0 <= kl ->
  (exists d1 d2 : R,
     Legacy.calculateWaterDemand (Legacy.mkDom area1 k e1 r1 D M) = Fin d1 /\
     Legacy.calculateWaterDemand (Legacy.mkDom area2 k e2 r2 D M) = Fin d2 /\
     0 <= d1 <= d2) /\
  (exists w1 w2 w0 : R,
     waterDemandLday
       (calculateWaterDemandLperDay
          (mkInputs crop area1 k ki kd km kl e1 r1 f D M h sx sy mode)) = Fin w1 /\
     waterDemandLday
       (calculateWaterDemandLperDay
          (mkInputs crop area2 k ki kd km kl e2 r1 f D M h sx sy mode)) = Fin w2 /\
     waterDemandLday
       (calculateWaterDemandLperDay
          (mkInputs crop area2 k ki kd km kl e2 0 f D M h sx sy mode)) = Fin w0 /\
     0 <= w1 <= w2 /\ w2 <= w0).
Proof.
  intros Ha He Hr Hk Hki Hkd Hkm Hkl. split.
  - rewrite !WaterBalance.legacy_demand_form. do 2 eexists.
    split; [reflexivity |]. split; [reflexivity |].
    pose proof (Rmax_l 0 (k * e1 - r1)) as H1.
    assert (H12 : Rmax 0 (k * e1 - r1) <= Rmax 0 (k * e2 - r2)).
    { apply Rle_max_compat_l. nra. }
    nra.
  - destruct (demand_shared_form crop mode k ki kd km kl f D M h sx sy)
      as (s & q & Hq & Hs & Hform).
    specialize (Hs Hk Hki Hkd Hkm Hkl).
    destruct (Hform area1 e1 r1) as (pe & Hpe & Hrain & ->).
    destruct (Hform area2 e2 r1) as (pe' & _ & Hrain' & ->).
    destruct (Hform area2 e2 0) as (pe0 & _ & Hrain0 & ->).
    rewrite Hrain in Hrain'. injection Hrain' as <-.
    rewrite effective_rain_zero in Hrain0. injection Hrain0 as <-.
    do 3 eexists. do 3 (split; [reflexivity |]).
    pose proof (Rmax_l 0 (e1 * s - pe)) as H1.
    assert (H12 : Rmax 0 (e1 * s - pe) <= Rmax 0 (e2 * s - pe)).
    { apply Rle_max_compat_l. nra. }
    assert (H20 : Rmax 0 (e2 * s - pe) <= Rmax 0 (e2 * s - 0)).
    { apply Rle_max_compat_l. lra. }
    assert (Hinv : 0 < / q) by (apply Rinv_0_lt_compat; lra).
    assert (G1 : 0 <= Rmax 0 (e1 * s - pe) / q).
    { apply Rmult_le_pos; lra. }
    assert (G12 : Rmax 0 (e1 * s - pe) / q <= Rmax 0 (e2 * s - pe) / q).
    { apply Rmult_le_compat_r; lra. }
    assert (G20 : Rmax 0 (e2 * s - pe) / q <= Rmax 0 (e2 * s - 0) / q).
    { apply Rmult_le_compat_r; lra. }
    nra.
Qed.

(** A larger field under a higher ET0 and less rain. *)
Lemma water_demand_monotone_witness :
  (exists d1 d2 : R,
     Legacy.calculateWaterDemand (Legacy.mkDom 10 0.9 5 2 110 100) = Fin d1 /\
     Legacy.calculateWaterDemand (Legacy.mkDom 12 0.9 6 1 110 100) = Fin d2 /\
     0 <= d1 <= d2) /\
  (exists w1 w2 w0 : R,
     waterDemandLday
       (calculateWaterDemandLperDay
          (mkInputs "Rice" 10 0.9 0.3 0.7 1 0.7 5 2 80 110 100 8 12 12 "ai")) = Fin w1 /\
     waterDemandLday
       (calculateWaterDemandLperDay
          (mkInputs "Rice" 12 0.9 0.3 0.7 1 0.7 6 2 80 110 100 8 12 12 "ai")) = Fin w2 /\
     waterDemandLday
       (calculateWaterDemandLperDay
          (mkInputs "Rice" 12 0.9 0.3 0.7 1 0.7 6 0 80 110 100 8 12 12 "ai")) = Fin w0 /\
     0 <= w1 <= w2 /\ w2 <= w0).
Proof.
  apply (water_demand_monotone "Rice" "ai" 10 12 0.9 0.3 0.7 1 0.7 5 6 2 1 80 110 100
           8 12 12); lra.
Defined.

End DemandFacts.

(** ** Friction loss against flow and diameter *)

Module PipeFacts.

Import Planner.
Import RoundFacts.

(** [Math.pow(Q, 1.852)] for a flow that is not negative. *)
Definition flowPow (Q : R) : R := if Req_dec_T Q 0 then 0 else Rpower Q 1.852.

Lemma flowPow_spec (Q : R) : 0 <= Q -> Math_pow (Fin Q) 1.852 = Fin (flowPow Q).
Proof.
  intros HQ. unfold flowPow. destruct (Req_dec_T Q 0) as [-> | Hne].
  - apply Math_pow_zero. lra.
  - apply Math_pow_pos; lra.
Qed.

Lemma flowPow_le (Q1 Q2 : R) : 0 <= Q1 <= Q2 -> 0 <= flowPow Q1 <= flowPow Q2.
Proof.
  intros [H1 H12]. unfold flowPow.
  destruct (Req_dec_T Q1 0) as [-> | N1]; destruct (Req_dec_T Q2 0) as [-> | N2].
  - lra.
  - pose proof (Rpower_pos Q2 1.852). lra.
  - exfalso. lra.
  - pose proof (Rpower_pos Q1 1.852). split; [lra |].
    apply Rle_Rpower_l; lra.
Qed.

(** Hazen-Williams: a smaller numerator over a wider pipe gives a smaller
    loss. *)
Lemma friction_le (A1 A2 d1 d2 : R) :
  0 <= A1 <= A2 -> 0 < d2 <= d1 ->
  0 <= A1 / (Rpower 150 1.852 * Rpower d1 4.871)
    <= A2 / (Rpower 150 1.852 * Rpower d2 4.871).
Proof.
  intros HA Hd.
  pose proof (Rpower_pos 150 1.852) as Hc.
  pose proof (Rpower_pos d1 4.871) as H1.
  pose proof (Rpower_pos d2 4.871) as H2.
  assert (H21 : Rpower d2 4.871 <= Rpower d1 4.871) by (apply Rle_Rpower_l; lra).
  assert (G1 : 0 < Rpower 150 1.852 * Rpower d1 4.871) by nra.
  assert (G2 : 0 < Rpower 150 1.852 * Rpower d2 4.871) by nra.
  assert (Hinv : / (Rpower 150 1.852 * Rpower d1 4.871)
                 <= / (Rpower 150 1.852 * Rpower d2 4.871)).
  { apply Rinv_le_contravar; nra. }
  assert (0 < / (Rpower 150 1.852 * Rpower d1 4.871)) by now apply Rinv_0_lt_compat.
  unfold Rdiv. split; [apply Rmult_le_pos; lra |].
  apply Rmult_le_compat; lra.
Qed.

Lemma clamp_mono (x y : R) : x <= y -> Rmax 0 (Rmin 100 x) <= Rmax 0 (Rmin 100 y).
Proof.
  intros H. apply Rle_max_compat_l. apply Rle_min_compat_l. exact H.
Qed.

(** The friction loss and the reported percentage of [calculateHydraulics]
    for a positive diameter. *)
Lemma hydraulics_loss_value (Q L D lat : R) :
  0 <= Q -> 0 < D ->
  exists len : R,
    1 <= len /\ Math_max 1 (or_else (Fin L) 100) = Fin len /\
    let h := 10.67 * flowPow Q * len / (Rpower 150 1.852 * Rpower (D / 1000) 4.871) in
    let res := calculateHydraulics (Fin Q) (Fin L) (Fin D) (Fin lat) 30 in
    hf res = Fin h /\
    headLossPercent res = Fin (Rmax 0 (Rmin 100 (fixed (h / 30 * 100) 2))).
Proof.
  intros HQ HD. unfold calculateHydraulics. cbn [hf headLossPercent].
  destruct (HeadLoss.pipe_length_used L) as (len & Hlen & Hlen1).
  exists len. split; [exact Hlen1 |]. split; [exact Hlen |]. rewrite Hlen.
  rewrite (or_else_nz D) by lra. rewrite div_Fin by lra.
  rewrite (flowPow_spec Q HQ). rewrite !Math_pow_pos by lra. rewrite !mul_Fin.
  pose proof (Rpower_pos 150 1.852) as Hc.
  pose proof (Rpower_pos (D / 1000) 4.871) as Hd.
  rewrite (div_Fin _ (Rpower 150 1.852 * Rpower (D / 1000) 4.871)) by nra.
  cbv zeta. split; [reflexivity |].
  rewrite div_Fin by lra. rewrite mul_Fin, toFixed_fixed, Math_min_Fin, Math_max_Fin.
  reflexivity.
Qed.

(** The percentage [calculateHeadLoss] returns for an area that is not
    negative and a positive diameter. *)
Lemma legacy_head_loss_value (area k e r D M : R) :
  0 <= area -> 0 < D ->
  let Q := Rmax 0 (k * e - r) * area * 10000 / (24 * 3600) / 1000 in
  let len := IZR (Zfloor (sqrt (area * 10000) * 2 * 1.2 + / 2)) in
  0 <= Q /\ 0 <= len /\
  Legacy.calculateHeadLoss (Legacy.mkDom area k e r D M) =
  Fin (Rmax 0 (Rmin 100
         (10.67 * flowPow Q * len / (Rpower 150 1.852 * Rpower (D / 1000) 4.871)
          / 30 * 100))).
Proof.
  intros Harea HD Q len.
  assert (HQ : 0 <= Q).
  { unfold Q. pose proof (Rmax_l 0 (k * e - r)).
    assert (0 <= Rmax 0 (k * e - r) * area * 10000) by nra.
    unfold Rdiv. repeat apply Rmult_le_pos; try lra;
      left; apply Rinv_0_lt_compat; lra. }
  assert (Hlen : 0 <= len).
  { unfold len. apply (IZR_le 0). apply Zfloor_lub. simpl.
    pose proof (sqrt_pos (area * 10000)). nra. }
  split; [exact HQ |]. split; [exact Hlen |].
  unfold Legacy.calculateHeadLoss.
  rewrite WaterBalance.legacy_demand_form.
  rewrite (HeadLoss.legacy_pipe_length_form area k e r D M Harea).
  cbn [Legacy.dom_main_diameter]. fold len.
  rewrite !mul_Fin. rewrite !div_Fin by lra. fold Q.
  rewrite (flowPow_spec Q HQ). rewrite !Math_pow_pos by lra. rewrite !mul_Fin.
  pose proof (Rpower_pos 150 1.852) as Hc.
  pose proof (Rpower_pos (D / 1000) 4.871) as Hd.
  rewrite (div_Fin _ (Rpower 150 1.852 * Rpower (D / 1000) 4.871)) by nra.
  rewrite div_Fin by lra. rewrite mul_Fin, Math_min_Fin, Math_max_Fin.
  reflexivity.
Qed.

(** X15.  For finite inputs, a flow that is not negative and positive
    diameters: with less flow through a main that is at least as wide, over
    the same pipe length, [calculateHydraulics] never reports a larger
    friction loss or head-loss percentage; and for an area that is not
    negative, [calculateHeadLoss] never reports a larger percentage for
    the wider main. *)
Theorem head_loss_monotone (Q1 Q2 L D1 D2 lat1 lat2 area k e r M : R) :
  0 <= Q1 <= Q2 -> 0 < D2 <= D1 -> 0 <= area ->
  (exists h1 h2 p1 p2 : R,
     let res1 := calculateHydraulics (Fin Q1) (Fin L) (Fin D1) (Fin lat1) 30 in
     let res2 := calculateHydraulics (Fin Q2) (Fin L) (Fin D2) (Fin lat2) 30 in
     hf res1 = Fin h1 /\ hf res2 = Fin h2 /\ 0 <= h1 <= h2 /\
     headLossPercent res1 = Fin p1 /\ headLossPercent res2 = Fin p2 /\ p1 <= p2) /\
  (exists p1 p2 : R,
     Legacy.calculateHeadLoss (Legacy.mkDom area k e r D1 M) = Fin p1 /\
     Legacy.calculateHeadLoss (Legacy.mkDom area k e r D2 M) = Fin p2 /\
     p1 <= p2).
Proof.
  intros HQ HD Harea. split.
  - destruct (hydraulics_loss_value Q1 L D1 lat1 ltac:(lra) ltac:(lra))
      as (len & Hlen1 & Hlen & Hh1 & Hp1).
    destruct (hydraulics_loss_value Q2 L D2 lat2 ltac:(lra) ltac:(lra))
      as (len' & _ & Hlen' & Hh2 & Hp2).
    rewrite Hlen in Hlen'. injection Hlen' as <-.
    do 4 eexists. cbv zeta.
    split; [exact Hh1 |]. split; [exact Hh2 |].
    pose proof (flowPow_le Q1 Q2 HQ) as [Hf1 Hf12].
    assert (Hfr : 0 <= 10.67 * flowPow Q1 * len /
                       (Rpower 150 1.852 * Rpower (D1 / 1000) 4.871)
                  <= 10.67 * flowPow Q2 * len /
                       (Rpower 150 1.852 * Rpower (D2 / 1000) 4.871)).
    { apply friction_le; [nra | lra]. }
    split; [exact Hfr |]. split; [exact Hp1 |]. split; [exact Hp2 |].
    apply clamp_mono. apply fixed_le. lra.
  - destruct (legacy_head_loss_value area k e r D1 M Harea ltac:(lra))
      as (HQ0 & Hlen & ->).
    destruct (legacy_head_loss_value area k e r D2 M Harea ltac:(lra))
      as (_ & _ & ->).
    do 2 eexists. split; [reflexivity |]. split; [reflexivity |].
    apply clamp_mono.
    pose proof (flowPow_le _ _ (conj HQ0 (Rle_refl _))) as [Hf _].
    set (A := 10.67 * flowPow
                (Rmax 0 (k * e - r) * area * 10000 / (24 * 3600) / 1000) *
              IZR (Zfloor (sqrt (area * 10000) * 2 * 1.2 + / 2))) in *.
    assert (HA : 0 <= A <= A) by (unfold A; nra).
    pose proof (friction_le A A (D1 / 1000) (D2 / 1000) HA ltac:(lra)). lra.
Qed.

Lemma head_loss_monotone_witness :
  (exists h1 h2 p1 p2 : R,
     let res1 := calculateHydraulics (Fin 0.004) (Fin 600) (Fin 125) (Fin 360) 30 in
     let res2 := calculateHydraulics (Fin 0.005) (Fin 600) (Fin 110) (Fin 300) 30 in
     hf res1 = Fin h1 /\ hf res2 = Fin h2 /\ 0 <= h1 <= h2 /\
     headLossPercent res1 = Fin p1 /\ headLossPercent res2 = Fin p2 /\ p1 <= p2) /\
  (exists p1 p2 : R,
     Legacy.calculateHeadLoss (Legacy.mkDom 10 0.9 5 0 125 100) = Fin p1 /\
     Legacy.calculateHeadLoss (Legacy.mkDom 10 0.9 5 0 110 100) = Fin p2 /\
     p1 <= p2).
Proof.
  apply (head_loss_monotone 0.004 0.005 600 125 110 360 300 10 0.9 5 0 100); lra.
Defined.

(** X16.  For finite inputs with an area and a demand that are not
    negative, a main that is at least as wide never shortens the lateral
    length the solver admits, in either calculator. *)
Theorem max_lateral_monotone (area k e r M hours demand D1 D2 : R) :
  0 <= area -> 0 <= demand -> 0 < D1 <= D2 ->
  (exists l1 l2 : R,
     Legacy.calculateMaxLateralLength (Legacy.mkDom area k e r D1 M) = Fin l1 /\
     Legacy.calculateMaxLateralLength (Legacy.mkDom area k e r D2 M) = Fin l2 /\
     l1 <= l2) /\
  (exists l1 l2 : R,
     calculateMaxLateralLengthFromDemand (Fin hours) (Fin demand) (Fin D1) (Fin M) = Fin l1 /\
     calculateMaxLateralLengthFromDemand (Fin hours) (Fin demand) (Fin D2) (Fin M) = Fin l2 /\
     l1 <= l2).
Proof.
  intros Harea Hdem HD.
  assert (Hpow : Rpower (D1 / 1000) 4.871 <= Rpower (D2 / 1000) 4.871).
  { apply Rle_Rpower_l; lra. }
  pose proof (Rpower_pos 150 1.852) as Hc.
  pose proof (Rpower_pos (D1 / 1000) 4.871) as Hd1.
  split.
  - pose proof (MaxLateral.legacy_max_lateral_form area k e r D1 M Harea ltac:(lra)) as F1.
    pose proof (MaxLateral.legacy_max_lateral_form area k e r D2 M Harea ltac:(lra)) as F2.
    cbv zeta in F1, F2.
    set (q := Rmax 0 (k * e - r) * area * 10000 / 10 / (24 * 3600 * 1000)) in *.
    destruct F1 as [[Hq0 ->] | [Hq ->]]; destruct F2 as [[Hq0' ->] | [Hq' ->]];
      try (exfalso; lra).
    + do 2 eexists. split; [reflexivity |]. split; [reflexivity | lra].
    + do 2 eexists. split; [reflexivity |]. split; [reflexivity |].
      apply Rle_min_compat_l. apply Rle_max_compat_l.
      pose proof (Rpower_pos q 1.852) as Hqp.
      assert (Hinv : 0 < / (10.67 * Rpower q 1.852)) by (apply Rinv_0_lt_compat; nra).
      unfold Rdiv. apply Rmult_le_compat_r; [lra |]. nra.
  - destruct (MaxLateral.planner_max_lateral_form hours demand D1 M Hdem ltac:(lra))
      as (m1 & res1 & Hm1 & -> & _ & _ & _ & Hz1 & Hp1).
    destruct (MaxLateral.planner_max_lateral_form hours demand D2 M Hdem ltac:(lra))
      as (m2 & res2 & Hm2 & -> & _ & _ & _ & Hz2 & Hp2).
    rewrite Hm1 in Hm2. injection Hm2 as <-.
    do 2 eexists. split; [reflexivity |]. split; [reflexivity |].
    destruct (Req_dec_T demand 0) as [Hd0 | Hdn].
    + rewrite (Hz1 Hd0), (Hz2 Hd0). lra.
    + destruct (Hp1 ltac:(lra)) as (dm1 & t1 & Hdm1 & Ht1 & ->).
      destruct (Hp2 ltac:(lra)) as (dm2 & t2 & Hdm2 & Ht2 & ->).
      unfold parseFloat in Hdm1, Hdm2.
      rewrite or_else_nz in Hdm1, Hdm2 by lra.
      rewrite div_Fin in Hdm1, Hdm2 by lra.
      injection Hdm1 as <-. injection Hdm2 as <-.
      rewrite toFixed_fixed in Ht1, Ht2.
      injection Ht1 as <-. injection Ht2 as <-.
      apply Rle_min_compat_l. apply Rle_max_compat_l. apply fixed_le.
      set (fl := Rpower (demand / (Rmax 1 hours * 3600) / 10 / 1000) 1.852).
      assert (Hfl : 0 < fl) by apply Rpower_pos.
      assert (Hinv : 0 < / (10.67 * fl)) by (apply Rinv_0_lt_compat; nra).
      unfold Rdiv at 1 4. apply Rmult_le_compat_r; [lra |]. nra.
Qed.

Lemma max_lateral_monotone_witness :
  (exists l1 l2 : R,
     Legacy.calculateMaxLateralLength (Legacy.mkDom 10 0.9 5 0 90 100) = Fin l1 /\
     Legacy.calculateMaxLateralLength (Legacy.mkDom 10 0.9 5 0 110 100) = Fin l2 /\
     l1 <= l2) /\
  (exists l1 l2 : R,
     calculateMaxLateralLengthFromDemand (Fin 8) (Fin 30000) (Fin 90) (Fin 100) = Fin l1 /\
     calculateMaxLateralLengthFromDemand (Fin 8) (Fin 30000) (Fin 110) (Fin 100) = Fin l2 /\
     l1 <= l2).
Proof.
  apply (max_lateral_monotone 10 0.9 5 0 100 8 30000 90 110); lra.
Defined.

End PipeFacts.

(** ** The seasonal simulations *)

Module SeasonFacts.

Import RoundFacts.

Local Open Scope string_scope.

(** The crop coefficient the planner uses in month [idx]. *)
Definition stageKc (ki km kl : R) (idx : nat) : R :=
  if (idx <=? 1)%nat then ki
  else if ((2 <=? idx)%nat && (idx <=? 7)%nat)%bool then km
  else kl.

Definition daysR : list R := [31; 28; 31; 30; 31; 30; 31; 31; 30; 31; 30; 31].

(** The monthly demand of the planner on finite values, as a whole
    number of litres. *)
Definition monthDemandZ (areaM2 ki km kl rain : R) (idx : nat) (eto : R) : Z :=
  Zfloor (Rmax 0 (stageKc ki km kl idx * eto - rain) * nth idx daysR 0 * areaM2 + / 2).

Lemma days_value (idx : nat) :
  (idx < 12)%nat -> nth idx Planner.daysInMonth NaN = Fin (nth idx daysR 0).
Proof.
  intros H. unfold Planner.daysInMonth, daysR.
  do 12 (destruct idx as [| idx]; [reflexivity |]). lia.
Qed.

Lemma days_nonneg (idx : nat) : 0 <= nth idx daysR 0.
Proof.
  unfold daysR. do 12 (destruct idx as [| idx]; [cbn [nth]; lra |]).
  cbn [nth]. destruct idx; lra.
Qed.

Lemma planner_month_value (areaM2 ki km kl : R) (rains : list R) (idx : nat) (eto : R) :
  (idx < 12)%nat ->
  Planner.monthDemandAt (Fin areaM2) (Fin ki) (Fin km) (Fin kl) (map Fin rains)
    idx (Fin eto) =
  Fin (IZR (monthDemandZ areaM2 ki km kl (nth idx rains 0) idx eto)).
Proof.
  intros Hidx. unfold Planner.monthDemandAt, monthDemandZ, stageKc.
  rewrite (days_value idx Hidx), Seasonal.nth_map_Fin.
  destruct (idx <=? 1)%nat; [| destruct ((2 <=? idx)%nat && (idx <=? 7)%nat)%bool];
    rewrite ?mul_Fin, ?sub_Fin, ?Math_max_Fin, ?mul_Fin, ?Math_round_Fin; reflexivity.
Qed.

Lemma monthDemandZ_nonneg (areaM2 ki km kl rain : R) (idx : nat) (eto : R) :
  0 <= areaM2 -> (0 <= monthDemandZ areaM2 ki km kl rain idx eto)%Z.
Proof.
  intros Ha. unfold monthDemandZ. apply Zfloor_lub.
  pose proof (Rmax_l 0 (stageKc ki km kl idx * eto - rain)) as H0.
  pose proof (days_nonneg idx) as Hd.
  assert (0 <= Rmax 0 (stageKc ki km kl idx * eto - rain) * nth idx daysR 0 * areaM2).
  { apply Rmult_le_pos; [apply Rmult_le_pos |]; assumption. }
  lra.
Qed.

Lemma stageKc_nonneg (ki km kl : R) (idx : nat) :
  0 <= ki -> 0 <= km -> 0 <= kl -> 0 <= stageKc ki km kl idx.
Proof.
  intros. unfold stageKc.
  destruct (idx <=? 1)%nat; [| destruct ((2 <=? idx)%nat && (idx <=? 7)%nat)%bool];
    assumption.
Qed.

Lemma monthDemandZ_le (areaM2 ki km kl r1 r2 : R) (idx : nat) (e1 e2 : R) :
  0 <= areaM2 -> 0 <= ki -> 0 <= km -> 0 <= kl -> e1 <= e2 -> r2 <= r1 ->
  (monthDemandZ areaM2 ki km kl r1 idx e1 <= monthDemandZ areaM2 ki km kl r2 idx e2)%Z.
Proof.
  intros Ha Hki Hkm Hkl He Hr. unfold monthDemandZ. apply round_le.
  pose proof (stageKc_nonneg ki km kl idx Hki Hkm Hkl) as Hk.
  pose proof (days_nonneg idx) as Hd.
  pose proof (Rmax_l 0 (stageKc ki km kl idx * e1 - r1)) as H0.
  assert (H12 : Rmax 0 (stageKc ki km kl idx * e1 - r1)
                <= Rmax 0 (stageKc ki km kl idx * e2 - r2)).
  { apply Rle_max_compat_l. nra. }
  assert (Rmax 0 (stageKc ki km kl idx * e1 - r1) * nth idx daysR 0 * areaM2
          <= Rmax 0 (stageKc ki km kl idx * e2 - r2) * nth idx daysR 0 * areaM2).
  { apply Rmult_le_compat_r; [exact Ha |]. apply Rmult_le_compat_r; assumption. }
  lra.
Qed.

(** The monthly series of the planner, from month [i] on. *)
Definition plannerSeries (areaM2 ki km kl : R) (rains : list R) (i : nat) (etos : list R)
  : list Z :=
  mapi_from (fun idx eto => monthDemandZ areaM2 ki km kl (nth idx rains 0) idx eto) i etos.

Definition FinZ (z : Z) : num := Fin (IZR z).

Lemma planner_series_value (areaM2 ki km kl : R) (rains etos : list R) :
  forall i,
    (i + List.length etos <= 12)%nat ->
    mapi_from
      (Planner.monthDemandAt (Fin areaM2) (Fin ki) (Fin km) (Fin kl) (map Fin rains))
      i (map Fin etos) =
    map FinZ (plannerSeries areaM2 ki km kl rains i etos).
Proof.
  unfold plannerSeries.
  induction etos as [| eto t IH]; intros i Hi; cbn [map mapi_from]; [reflexivity |].
  cbn [List.length] in Hi.
  rewrite (planner_month_value areaM2 ki km kl rains i eto) by lia.
  rewrite (IH (S i)) by lia. reflexivity.
Qed.

Lemma planner_series_length (areaM2 ki km kl : R) (rains etos : list R) (i : nat) :
  List.length (plannerSeries areaM2 ki km kl rains i etos) = List.length etos.
Proof. apply Seasonal.length_mapi_from. Qed.

Lemma planner_series_nonneg (areaM2 ki km kl : R) (rains etos : list R) :
  0 <= areaM2 ->
  forall i, Forall (fun z => (0 <= z)%Z) (plannerSeries areaM2 ki km kl rains i etos).
Proof.
  intros Ha. unfold plannerSeries.
  induction etos as [| eto t IH]; intros i; cbn [mapi_from]; constructor.
  - now apply monthDemandZ_nonneg.
  - apply IH.
Qed.

Definition sumR (l : list R) : R := fold_right Rplus 0 l.
Definition sumZ (l : list Z) : Z := fold_right Z.add 0%Z l.

Lemma fold_add_Fin (l : list R) :
  forall a, fold_left add (map Fin l) (Fin a) = Fin (a + sumR l).
Proof.
  induction l as [| x t IH]; intros a; cbn [map fold_left sumR fold_right].
  - f_equal. lra.
  - rewrite add_Fin, IH. f_equal. unfold sumR. lra.
Qed.

Lemma sumR_IZR (l : list Z) : sumR (map IZR l) = IZR (sumZ l).
Proof.
  induction l as [| z t IH]; cbn [map sumR sumZ fold_right]; [reflexivity |].
  fold (sumR (map IZR t)). fold (sumZ t). rewrite IH, plus_IZR. reflexivity.
Qed.

Lemma map_FinZ (l : list Z) : map FinZ l = map Fin (map IZR l).
Proof. rewrite map_map. reflexivity. Qed.

Lemma sumZ_bounds (l : list Z) (peak : Z) :
  Forall (fun z => (0 <= z)%Z) l -> In peak l -> (forall z, In z l -> (z <= peak)%Z) ->
  (peak <= sumZ l <= Z.of_nat (List.length l) * peak)%Z.
Proof.
  intros Hpos Hin Hall. split.
  - clear Hall. induction l as [| z t IH]; [destruct Hin |].
    cbn [sumZ fold_right]. fold (sumZ t). inversion Hpos as [| ? ? Hz Ht]; subst.
    assert (Hs : (0 <= sumZ t)%Z).
    { clear - Ht. induction Ht as [| y l Hy _ IHl]; cbn [sumZ fold_right]; [lia |].
      fold (sumZ l). lia. }
    destruct Hin as [-> | Hin]; [lia |]. specialize (IH Ht Hin). lia.
  - clear Hpos Hin. induction l as [| z t IH]; [cbn; lia |].
    cbn [sumZ fold_right List.length]. fold (sumZ t).
    assert (Hz : (z <= peak)%Z) by (apply Hall; now left).
    assert (Ht : (sumZ t <= Z.of_nat (List.length t) * peak)%Z).
    { apply IH. intros y Hy. apply Hall. now right. }
    lia.
Qed.

(** The planner's simulation on at most twelve rows of finite values. *)
Lemma planner_run_value (areaRai ki km kl : R) (etos rains : list R) :
  etos <> [] -> rains <> [] -> (List.length etos <= 12)%nat ->
  let demands := plannerSeries (areaRai * 1600) ki km kl rains 0 etos in
  exists (summary : Planner.SeasonalSummary) (peak : Z),
    Planner.runSeasonalSimulation (Fin areaRai) (Fin ki) (Fin km) (Fin kl)
      (map Fin etos) (map Fin rains) = Some (map FinZ demands, Some summary) /\
    Planner.totalDemand summary = FinZ (sumZ demands) /\
    Planner.maxDemand summary = FinZ peak /\ In peak demands /\
    (forall z, In z demands -> (z <= peak)%Z) /\
    Planner.avgEto summary = Fin (sumR etos / INR (List.length etos)).
Proof.
  intros Hetos Hrains Hlen demands.
  unfold Planner.runSeasonalSimulation. rewrite mul_Fin.
  rewrite (planner_series_value (areaRai * 1600) ki km kl rains etos 0%nat) by lia.
  pose proof (planner_series_length (areaRai * 1600) ki km kl rains etos 0%nat) as Hslen.
  fold demands. fold demands in Hslen.
  destruct etos as [| e0 etos']; [contradiction |].
  destruct rains as [| r0 rains']; [contradiction |].
  destruct demands as [| d0 ds']; [discriminate Hslen |].
  cbn [map]. unfold Planner.updateSeasonalSummary.
  cbn [map].
  destruct (Seasonal.max_list_spec (IZR d0) (map IZR ds')) as (m & Hmax & Hin & Hall).
  assert (Hpeak : exists peak, In peak (d0 :: ds') /\ m = IZR peak).
  { change (IZR d0 :: map IZR ds') with (map IZR (d0 :: ds')) in Hin.
    apply in_map_iff in Hin as (peak & <- & Hp). now exists peak. }
  destruct Hpeak as (peak & Hpin & ->).
  eexists. exists peak.
  split; [reflexivity |].
  cbn [Planner.totalDemand Planner.maxDemand Planner.avgEto].
  split.
  { change (FinZ d0 :: map FinZ ds') with (map FinZ (d0 :: ds')).
    rewrite map_FinZ, fold_add_Fin, sumR_IZR. unfold FinZ. f_equal. lra. }
  split.
  { change (FinZ d0 :: map FinZ ds') with (map FinZ (d0 :: ds')).
    rewrite map_FinZ. exact Hmax. }
  split; [exact Hpin |].
  split.
  { intros z Hz. apply le_IZR. apply Hall.
    change (IZR d0 :: map IZR ds') with (map IZR (d0 :: ds')). now apply in_map. }
  change (Fin e0 :: map Fin etos') with (map Fin (e0 :: etos')).
  rewrite fold_add_Fin. rewrite length_map.
  rewrite div_Fin by (apply not_0_INR; discriminate).
  f_equal. f_equal. lra.
Qed.

(** X17.  On a monthly table of at most twelve rows of finite values, for
    an area that is not negative, the planner's simulation returns one
    demand per ET0 row, each a whole number of litres that is not
    negative; the total it reports is their sum, the peak is one of them
    and peak <= total <= rows x peak, and the average ET0 is the sum of
    the ET0 column over its length.  Without an ET0 cell or without a
    rainfall cell it returns nothing. *)
Theorem planner_simulation_totals (areaRai ki km kl : R) (etos rains : list R) :
  0 <= areaRai -> etos <> [] -> rains <> [] -> (List.length etos <= 12)%nat ->
  (exists (demands : list Z) (summary : Planner.SeasonalSummary) (peak : Z),
     Planner.runSeasonalSimulation (Fin areaRai) (Fin ki) (Fin km) (Fin kl)
       (map Fin etos) (map Fin rains) = Some (map FinZ demands, Some summary) /\
     List.length demands = List.length etos /\
     Forall (fun z => (0 <= z)%Z) demands /\
     Planner.totalDemand summary = FinZ (sumZ demands) /\
     Planner.maxDemand summary = FinZ peak /\ In peak demands /\
     (peak <= sumZ demands <= Z.of_nat (List.length demands) * peak)%Z /\
     Planner.avgEto summary = Fin (sumR etos / INR (List.length etos))) /\
  (forall cells : list num,
     Planner.runSeasonalSimulation (Fin areaRai) (Fin ki) (Fin km) (Fin kl) [] cells = None /\
     Planner.runSeasonalSimulation (Fin areaRai) (Fin ki) (Fin km) (Fin kl) cells [] = None).
Proof.
  intros Ha Hetos Hrains Hlen. split.
  2: { intros cells. split; [reflexivity | destruct cells; reflexivity]. }
  destruct (planner_run_value areaRai ki km kl etos rains Hetos Hrains Hlen)
    as (summary & peak & Hrun & Htot & Hmax & Hin & Hall & Havg).
  pose proof (planner_series_nonneg (areaRai * 1600) ki km kl rains etos
                ltac:(lra) 0%nat) as Hpos.
  exists (plannerSeries (areaRai * 1600) ki km kl rains 0 etos), summary, peak.
  split; [exact Hrun |]. split; [apply planner_series_length |].
  split; [exact Hpos |]. split; [exact Htot |]. split; [exact Hmax |].
  split; [exact Hin |]. split; [now apply sumZ_bounds | exact Havg].
Qed.

Lemma planner_simulation_totals_witness :
  (exists (demands : list Z) (summary : Planner.SeasonalSummary) (peak : Z),
     Planner.runSeasonalSimulation (Fin 10) (Fin 0.3) (Fin 1.0) (Fin 0.7)
       (map Fin Scenario.dryEto) (map Fin Scenario.dryRainfall)
     = Some (map FinZ demands, Some summary) /\
     List.length demands = List.length Scenario.dryEto /\
     Forall (fun z => (0 <= z)%Z) demands /\
     Planner.totalDemand summary = FinZ (sumZ demands) /\
     Planner.maxDemand summary = FinZ peak /\ In peak demands /\
     (peak <= sumZ demands <= Z.of_nat (List.length demands) * peak)%Z /\
     Planner.avgEto summary =
     Fin (sumR Scenario.dryEto / INR (List.length Scenario.dryEto))) /\
  (forall cells : list num,
     Planner.runSeasonalSimulation (Fin 10) (Fin 0.3) (Fin 1.0) (Fin 0.7) [] cells = None /\
     Planner.runSeasonalSimulation (Fin 10) (Fin 0.3) (Fin 1.0) (Fin 0.7) cells [] = None).
Proof.
  apply (planner_simulation_totals 10 0.3 1.0 0.7 Scenario.dryEto Scenario.dryRainfall).
  - lra.
  - discriminate.
  - discriminate.
  - cbn. lia.
Defined.

End SeasonFacts.

(** ** The simulation of [script.js]: averages and peaks *)

Module LegacySeasonFacts.

Import SeasonFacts.

Local Open Scope string_scope.

(** The crop coefficient [script.js] uses in month [i]. *)
Definition legacyKc (ki km kl : R) (i : nat) : R :=
  if (i <? 3)%nat then ki else if (i <? 9)%nat then km else kl.

(** The monthly demand of [script.js] on finite values. *)
Definition legacyDemandR (area ki km kl rain : R) (i : nat) (eto : R) : R :=
  Rmax 0 (legacyKc ki km kl i * eto - rain * 0.8) * area * 10000.

Lemma legacy_month_value (area ki km kl : R) (rains : list R) (i : nat) (eto : R) :
  Legacy.monthRecord (Fin area) (Fin ki) (Fin km) (Fin kl) (map Fin rains) i (Fin eto) =
  {| Legacy.Month.month := nth_error Legacy.months i;
     Legacy.Month.eto := Fin eto;
     Legacy.Month.rainfall := Fin (nth i rains 0);
     Legacy.Month.kc := Fin (legacyKc ki km kl i);
     Legacy.Month.waterDemand := Fin (legacyDemandR area ki km kl (nth i rains 0) i eto) |}.
Proof.
  unfold Legacy.monthRecord, legacyDemandR, legacyKc. rewrite Seasonal.nth_map_Fin.
  destruct (i <? 3)%nat; [| destruct (i <? 9)%nat];
    rewrite ?mul_Fin, ?sub_Fin, ?Math_max_Fin, ?mul_Fin; reflexivity.
Qed.

(** The records of the simulation, from month [i] on. *)
Definition legacyData (area ki km kl : R) (rains : list R) (i : nat) (etos : list R)
  : list Legacy.Month.t :=
  mapi_from
    (Legacy.monthRecord (Fin area) (Fin ki) (Fin km) (Fin kl) (map Fin rains))
    i (map Fin etos).

Lemma legacy_data_nth (area ki km kl : R) (rains etos : list R) :
  forall i j m,
    nth_error (legacyData area ki km kl rains i etos) j = Some m ->
    exists eto,
      nth_error etos j = Some eto /\
      m = Legacy.monthRecord (Fin area) (Fin ki) (Fin km) (Fin kl) (map Fin rains)
            (i + j) (Fin eto).
Proof.
  unfold legacyData.
  induction etos as [| e t IH]; intros i j m H; cbn [map mapi_from] in H.
  - destruct j; discriminate H.
  - destruct j as [| j]; cbn [nth_error] in *.
    + injection H as <-. exists e. rewrite Nat.add_0_r. split; reflexivity.
    + destruct (IH (S i) j m H) as (eto & He & ->). exists eto.
      replace (i + S j)%nat with (S i + j)%nat by lia. split; [exact He | reflexivity].
Qed.

Lemma legacy_data_finite (area ki km kl : R) (rains etos : list R) (i : nat)
  (m : Legacy.Month.t) :
  In m (legacyData area ki km kl rains i etos) ->
  (exists d, Legacy.Month.waterDemand m = Fin d) /\
  (exists r, Legacy.Month.rainfall m = Fin r) /\
  (exists e, Legacy.Month.eto m = Fin e).
Proof.
  intros Hin. apply In_nth_error in Hin as (j & Hj).
  destruct (legacy_data_nth area ki km kl rains etos i j m Hj) as (eto & _ & ->).
  rewrite legacy_month_value.
  cbn [Legacy.Month.waterDemand Legacy.Month.rainfall Legacy.Month.eto].
  repeat split; eexists; reflexivity.
Qed.

Section Keys.

Context {A : Type} (key : A -> num).



End Keys.

(** The three peaks and the three averages of a simulation on finite
    values. *)
Lemma legacy_run_value (area ki km kl : R) (etos rains : list R) :
  etos <> [] ->
  exists x t,
    legacyData area ki km kl rains 0 etos = x :: t /\
    Legacy.runSeasonalSimulation (Fin area) (Fin ki) (Fin km) (Fin kl)
      (map Fin etos) (map Fin rains) =
    Some
      {| Legacy.monthlyData := x :: t;
         Legacy.peakMonth := fold_left (Seasonal.keepLarger Legacy.Month.waterDemand) t x;
         Legacy.peakRainfallMonth :=
           fold_left (Seasonal.keepLarger Legacy.Month.rainfall) t x;
         Legacy.peakETOMonth := fold_left (Seasonal.keepLarger Legacy.Month.eto) t x;
         Legacy.avgDemand :=
           div (fold_left (fun sum m => add sum (Legacy.Month.waterDemand m)) (x :: t) (Fin 0))
               (Fin 12);
         Legacy.avgRainfall :=
           div (fold_left (fun sum m => add sum (Legacy.Month.rainfall m)) (x :: t) (Fin 0))
               (Fin 12);
         Legacy.avgETO :=
           div (fold_left (fun sum m => add sum (Legacy.Month.eto m)) (x :: t) (Fin 0))
               (Fin 12) |}.
Proof.
  intros Hne. unfold Legacy.runSeasonalSimulation. fold (legacyData area ki km kl rains 0 etos).
  pose proof (Seasonal.length_mapi_from
                (Legacy.monthRecord (Fin area) (Fin ki) (Fin km) (Fin kl) (map Fin rains))
                (map Fin etos) 0%nat) as Hlen.
  fold (legacyData area ki km kl rains 0 etos) in Hlen. rewrite length_map in Hlen.
  destruct (legacyData area ki km kl rains 0 etos) as [| x t].
  - destruct etos; [contradiction | discriminate Hlen].
  - exists x, t. split; reflexivity.
Qed.






Section Columns.

Context {A : Type} (key : A -> num).



End Columns.



(** X19.  On a table of finite values with at least one row, the month
    [script.js] reports as rainiest is the first row of largest rainfall,
    and the month it reports for ET0 is the first row of largest ET0; the
    month name of each is that of its row. *)
Theorem legacy_rain_and_eto_peaks (area ki km kl : R) (etos rains : list R) :
  etos <> [] ->
  exists (res : Legacy.SeasonalResult) (iR iE : nat),
    Legacy.runSeasonalSimulation (Fin area) (Fin ki) (Fin km) (Fin kl)
      (map Fin etos) (map Fin rains) = Some res /\
    nth_error (Legacy.monthlyData res) iR = Some (Legacy.peakRainfallMonth res) /\
    Legacy.Month.month (Legacy.peakRainfallMonth res) = nth_error Legacy.months iR /\
    (forall m, In m (Legacy.monthlyData res) ->
       leb (Legacy.Month.rainfall m)
           (Legacy.Month.rainfall (Legacy.peakRainfallMonth res)) = true) /\
    (forall j m, (j < iR)%nat -> nth_error (Legacy.monthlyData res) j = Some m ->
       ltb (Legacy.Month.rainfall m)
           (Legacy.Month.rainfall (Legacy.peakRainfallMonth res)) = true) /\
    nth_error (Legacy.monthlyData res) iE = Some (Legacy.peakETOMonth res) /\
    Legacy.Month.month (Legacy.peakETOMonth res) = nth_error Legacy.months iE /\
    (forall m, In m (Legacy.monthlyData res) ->
       leb (Legacy.Month.eto m) (Legacy.Month.eto (Legacy.peakETOMonth res)) = true) /\
    (forall j m, (j < iE)%nat -> nth_error (Legacy.monthlyData res) j = Some m ->
       ltb (Legacy.Month.eto m) (Legacy.Month.eto (Legacy.peakETOMonth res)) = true).
Proof.
  intros Hne.
  destruct (legacy_run_value area ki km kl etos rains Hne) as (x & t & Hdata & Hrun).
  assert (Hfin : forall m, In m (x :: t) ->
            (exists d, Legacy.Month.waterDemand m = Fin d) /\
            (exists r, Legacy.Month.rainfall m = Fin r) /\
            (exists e, Legacy.Month.eto m = Fin e)).
  { intros m Hm. rewrite <- Hdata in Hm.
    exact (legacy_data_finite area ki km kl rains etos 0 m Hm). }
  assert (Hname : forall i m, nth_error (x :: t) i = Some m ->
            Legacy.Month.month m = nth_error Legacy.months i).
  { intros i m Hm. rewrite <- Hdata in Hm.
    destruct (legacy_data_nth area ki km kl rains etos 0 i m Hm) as (eto & _ & ->).
    reflexivity. }
  destruct (Seasonal.first_max_fold Legacy.Month.rainfall t x
              (fun m Hm => proj1 (proj2 (Hfin m Hm)))) as (iR & HiR & HallR & HfirstR).
  destruct (Seasonal.first_max_fold Legacy.Month.eto t x
              (fun m Hm => proj2 (proj2 (Hfin m Hm)))) as (iE & HiE & HallE & HfirstE).
  eexists. exists iR, iE. split; [exact Hrun |].
  cbn [Legacy.monthlyData Legacy.peakRainfallMonth Legacy.peakETOMonth].
  split; [exact HiR |]. split; [exact (Hname _ _ HiR) |].
  split; [exact HallR |]. split; [exact HfirstR |].
  split; [exact HiE |]. split; [exact (Hname _ _ HiE) |].
  split; [exact HallE | exact HfirstE].
Qed.

Lemma legacy_rain_and_eto_peaks_witness :
  exists (res : Legacy.SeasonalResult) (iR iE : nat),
    Legacy.runSeasonalSimulation (Fin 10) (Fin 0.3) (Fin 1.0) (Fin 0.7)
      (map Fin Scenario.dryEto) (map Fin Scenario.dryRainfall) = Some res /\
    nth_error (Legacy.monthlyData res) iR = Some (Legacy.peakRainfallMonth res) /\
    Legacy.Month.month (Legacy.peakRainfallMonth res) = nth_error Legacy.months iR /\
    nth_error (Legacy.monthlyData res) iE = Some (Legacy.peakETOMonth res) /\
    Legacy.Month.month (Legacy.peakETOMonth res) = nth_error Legacy.months iE.
Proof.
  destruct (legacy_rain_and_eto_peaks 10 0.3 1.0 0.7 Scenario.dryEto Scenario.dryRainfall)
    as (res & iR & iE & Hrun & HiR & HnR & _ & _ & HiE & HnE & _).
  - discriminate.
  - exists res, iR, iE. repeat split; assumption.
Defined.

End LegacySeasonFacts.

(** ** Scenarios: the simulations against the table, and the presets *)

Module ScenarioFacts.

Import RoundFacts.
Import SeasonFacts.
Import LegacySeasonFacts.

Local Open Scope string_scope.

Lemma Forall2_nth_le (l2 l1 : list R) :
  Forall2 Rle l2 l1 -> forall i, nth i l2 0 <= nth i l1 0.
Proof.
  induction 1 as [| x y l2 l1 Hxy _ IH]; intros i.
  - destruct i; cbn; lra.
  - destruct i as [| i]; cbn [nth]; [exact Hxy | apply IH].
Qed.

Lemma Forall2_In_l {A B : Type} (P : A -> B -> Prop) (l1 : list A) (l2 : list B) (x : A) :
  Forall2 P l1 l2 -> In x l1 -> exists y, In y l2 /\ P x y.
Proof.
  induction 1 as [| a b l1 l2 Hab _ IH]; intros Hin; [destruct Hin |].
  destruct Hin as [<- | Hin].
  - exists b. split; [now left | exact Hab].
  - destruct (IH Hin) as (y & Hy & Hp). exists y. split; [now right | exact Hp].
Qed.

Lemma planner_series_le (areaM2 ki km kl : R) (rains1 rains2 etos1 etos2 : list R) :
  0 <= areaM2 -> 0 <= ki -> 0 <= km -> 0 <= kl ->
  Forall2 Rle etos1 etos2 -> (forall i, nth i rains2 0 <= nth i rains1 0) ->
  forall i,
    Forall2 Z.le (plannerSeries areaM2 ki km kl rains1 i etos1)
                 (plannerSeries areaM2 ki km kl rains2 i etos2).
Proof.
  intros Ha Hki Hkm Hkl Hetos Hrains. unfold plannerSeries.
  induction Hetos as [| e1 e2 t1 t2 He _ IH]; intros i; cbn [mapi_from]; constructor.
  - apply monthDemandZ_le; auto.
  - apply IH.
Qed.

Lemma legacyDemandR_le (area ki km kl r1 r2 : R) (i : nat) (e1 e2 : R) :
  0 <= area -> 0 <= ki -> 0 <= km -> 0 <= kl -> e1 <= e2 -> r2 <= r1 ->
  legacyDemandR area ki km kl r1 i e1 <= legacyDemandR area ki km kl r2 i e2.
Proof.
  intros Ha Hki Hkm Hkl He Hr. unfold legacyDemandR.
  assert (Hk : 0 <= legacyKc ki km kl i).
  { unfold legacyKc. destruct (i <? 3)%nat; [| destruct (i <? 9)%nat]; assumption. }
  pose proof (Rmax_l 0 (legacyKc ki km kl i * e1 - r1 * 0.8)) as H0.
  assert (H12 : Rmax 0 (legacyKc ki km kl i * e1 - r1 * 0.8)
                <= Rmax 0 (legacyKc ki km kl i * e2 - r2 * 0.8)).
  { apply Rle_max_compat_l. nra. }
  nra.
Qed.

(** One record of [script.js] against another, by demand. *)
Definition demandLe (m1 m2 : Legacy.Month.t) : Prop :=
  leb (Legacy.Month.waterDemand m1) (Legacy.Month.waterDemand m2) = true.

Lemma legacy_data_le (area ki km kl : R) (rains1 rains2 etos1 etos2 : list R) :
  0 <= area -> 0 <= ki -> 0 <= km -> 0 <= kl ->
  Forall2 Rle etos1 etos2 -> (forall i, nth i rains2 0 <= nth i rains1 0) ->
  forall i,
    Forall2 demandLe (legacyData area ki km kl rains1 i etos1)
                     (legacyData area ki km kl rains2 i etos2).
Proof.
  intros Ha Hki Hkm Hkl Hetos Hrains. unfold legacyData.
  induction Hetos as [| e1 e2 t1 t2 He _ IH]; intros i; cbn [map mapi_from]; constructor.
  - unfold demandLe. rewrite !legacy_month_value. cbn [Legacy.Month.waterDemand].
    apply leb_Fin_true. apply legacyDemandR_le; auto.
  - apply IH.
Qed.

Lemma leb_trans (x y z : num) : leb x y = true -> leb y z = true -> leb x z = true.
Proof.
  destruct x as [a | | |], y as [b | | |], z as [c | | |]; cbn [leb];
    try discriminate; try reflexivity.
  destruct (Rle_dec a b); [| discriminate]. destruct (Rle_dec b c); [| discriminate].
  intros _ _. destruct (Rle_dec a c); [reflexivity | lra].
Qed.

(** X20.  Between two monthly tables of finite values (at most twelve
    rows) where the second has, row by row, at least the ET0 and at most
    the rainfall of the first, and for an area and crop coefficients that
    are not negative, both simulations give the second table at least the
    demand of the first in every month, and at least its peak demand. *)
Theorem simulation_monotone (area ki km kl : R) (etos1 etos2 rains1 rains2 : list R) :
  0 <= area -> 0 <= ki -> 0 <= km -> 0 <= kl ->
  Forall2 Rle etos1 etos2 -> Forall2 Rle rains2 rains1 ->
  etos1 <> [] -> rains1 <> [] -> (List.length etos1 <= 12)%nat ->
  (exists (ds1 ds2 : list Z) (s1 s2 : Planner.SeasonalSummary) (p1 p2 : Z),
     Planner.runSeasonalSimulation (Fin area) (Fin ki) (Fin km) (Fin kl)
       (map Fin etos1) (map Fin rains1) = Some (map FinZ ds1, Some s1) /\
     Planner.runSeasonalSimulation (Fin area) (Fin ki) (Fin km) (Fin kl)
       (map Fin etos2) (map Fin rains2) = Some (map FinZ ds2, Some s2) /\
     Forall2 Z.le ds1 ds2 /\
     Planner.maxDemand s1 = FinZ p1 /\ Planner.maxDemand s2 = FinZ p2 /\ (p1 <= p2)%Z) /\
  (exists res1 res2 : Legacy.SeasonalResult,
     Legacy.runSeasonalSimulation (Fin area) (Fin ki) (Fin km) (Fin kl)
       (map Fin etos1) (map Fin rains1) = Some res1 /\
     Legacy.runSeasonalSimulation (Fin area) (Fin ki) (Fin km) (Fin kl)
       (map Fin etos2) (map Fin rains2) = Some res2 /\
     Forall2 demandLe (Legacy.monthlyData res1) (Legacy.monthlyData res2) /\
     demandLe (Legacy.peakMonth res1) (Legacy.peakMonth res2)).
Proof.
  intros Ha Hki Hkm Hkl Hetos Hrains Hne1 Hrne1 Hlen1.
  pose proof (Forall2_nth_le rains2 rains1 Hrains) as Hnth.
  assert (Hlen : List.length etos2 = List.length etos1).
  { symmetry. exact (Forall2_length Hetos). }
  assert (Hne2 : etos2 <> []).
  { intros ->. destruct etos1; [contradiction | discriminate Hlen]. }
  assert (Hrne2 : rains2 <> []).
  { intros ->. inversion Hrains; subst. contradiction. }
  split.
  - destruct (planner_run_value area ki km kl etos1 rains1 Hne1 Hrne1 Hlen1)
      as (s1 & p1 & Hrun1 & _ & Hmax1 & Hin1 & _ & _).
    destruct (planner_run_value area ki km kl etos2 rains2 Hne2 Hrne2 ltac:(lia))
      as (s2 & p2 & Hrun2 & _ & Hmax2 & _ & Hall2 & _).
    pose proof (planner_series_le (area * 1600) ki km kl rains1 rains2 etos1 etos2
                  ltac:(lra) Hki Hkm Hkl Hetos Hnth 0%nat) as Hle.
    do 2 eexists. exists s1, s2, p1, p2.
    split; [exact Hrun1 |]. split; [exact Hrun2 |]. split; [exact Hle |].
    split; [exact Hmax1 |]. split; [exact Hmax2 |].
    destruct (Forall2_In_l _ _ _ p1 Hle Hin1) as (z & Hz & Hp).
    specialize (Hall2 z Hz). lia.
  - destruct (legacy_run_value area ki km kl etos1 rains1 Hne1) as (x1 & t1 & Hd1 & Hrun1).
    destruct (legacy_run_value area ki km kl etos2 rains2 Hne2) as (x2 & t2 & Hd2 & Hrun2).
    pose proof (legacy_data_le area ki km kl rains1 rains2 etos1 etos2
                  Ha Hki Hkm Hkl Hetos Hnth 0%nat) as Hle.
    rewrite Hd1, Hd2 in Hle.
    do 2 eexists. split; [exact Hrun1 |]. split; [exact Hrun2 |].
    cbn [Legacy.monthlyData Legacy.peakMonth]. split; [exact Hle |].
    assert (Hfin1 : forall m, In m (x1 :: t1) -> exists d, Legacy.Month.waterDemand m = Fin d).
    { intros m Hm. rewrite <- Hd1 in Hm.
      exact (proj1 (legacy_data_finite area ki km kl rains1 etos1 0 m Hm)). }
    assert (Hfin2 : forall m, In m (x2 :: t2) -> exists d, Legacy.Month.waterDemand m = Fin d).
    { intros m Hm. rewrite <- Hd2 in Hm.
      exact (proj1 (legacy_data_finite area ki km kl rains2 etos2 0 m Hm)). }
    destruct (Seasonal.first_max_fold Legacy.Month.waterDemand t1 x1 Hfin1)
      as (i1 & Hi1 & _ & _).
    destruct (Seasonal.first_max_fold Legacy.Month.waterDemand t2 x2 Hfin2)
      as (i2 & _ & Hall2 & _).
    destruct (Forall2_In_l _ _ _ _ Hle (nth_error_In _ _ Hi1)) as (m2 & Hm2 & Hp).
    unfold demandLe in *. exact (leb_trans _ _ _ Hp (Hall2 m2 Hm2)).
Qed.

Lemma simulation_monotone_witness :
  (exists (ds1 ds2 : list Z) (s1 s2 : Planner.SeasonalSummary) (p1 p2 : Z),
     Planner.runSeasonalSimulation (Fin 10) (Fin 0.3) (Fin 1.0) (Fin 0.7)
       (map Fin [4; 5]) (map Fin [2; 1]) = Some (map FinZ ds1, Some s1) /\
     Planner.runSeasonalSimulation (Fin 10) (Fin 0.3) (Fin 1.0) (Fin 0.7)
       (map Fin [5; 5]) (map Fin [1; 1]) = Some (map FinZ ds2, Some s2) /\
     Forall2 Z.le ds1 ds2 /\
     Planner.maxDemand s1 = FinZ p1 /\ Planner.maxDemand s2 = FinZ p2 /\ (p1 <= p2)%Z) /\
  (exists res1 res2 : Legacy.SeasonalResult,
     Legacy.runSeasonalSimulation (Fin 10) (Fin 0.3) (Fin 1.0) (Fin 0.7)
       (map Fin [4; 5]) (map Fin [2; 1]) = Some res1 /\
     Legacy.runSeasonalSimulation (Fin 10) (Fin 0.3) (Fin 1.0) (Fin 0.7)
       (map Fin [5; 5]) (map Fin [1; 1]) = Some res2 /\
     Forall2 demandLe (Legacy.monthlyData res1) (Legacy.monthlyData res2) /\
     demandLe (Legacy.peakMonth res1) (Legacy.peakMonth res2)).
Proof.
  apply (simulation_monotone 10 0.3 1.0 0.7 [4; 5] [5; 5] [2; 1] [1; 1]);
    try lra; try discriminate.
  - repeat constructor; lra.
  - repeat constructor; lra.
  - cbn. lia.
Defined.

(** *** The presets *)

Lemma toFixed_tenths (n : Z) :
  toFixed (Fin (Q2R (QArith_base.Qmake n 10))) 1 = Fin (Q2R (QArith_base.Qmake n 10)).
Proof.
  rewrite toFixed_fixed. f_equal. apply (fixed_exact _ 1 n).
  unfold Q2R. cbn [QArith_base.Qnum QArith_base.Qden].
  replace (IZR (Z.pos 10)) with 10 by reflexivity. field.
Qed.

Ltac fill_cells :=
  unfold Planner.loadScenarioPreset; cbn [Planner.selectPreset String.eqb Ascii.eqb Bool.eqb];
  cbn [Planner.preset_eto Planner.preset_rain Planner.presets_normal Planner.presets_dry
       Planner.presets_wet Planner.fillCells nth_error];
  rewrite !toFixed_tenths; reflexivity.

Lemma planner_preset_cells :
  Planner.loadScenarioPreset "normal" 12 12 =
    Some (Planner.preset_eto Planner.presets_normal,
          Planner.preset_rain Planner.presets_normal) /\
  Planner.loadScenarioPreset "dry" 12 12 =
    Some (Planner.preset_eto Planner.presets_dry, Planner.preset_rain Planner.presets_dry) /\
  Planner.loadScenarioPreset "wet" 12 12 =
    Some (Planner.preset_eto Planner.presets_wet, Planner.preset_rain Planner.presets_wet).
Proof. repeat split; fill_cells. Qed.

(** Choosing a scenario and then running the planner's simulation on the
    twelve rows it fills. *)
Definition plannerScenario (mode : string) (areaRai ki km kl : num)
  : option (list num * option Planner.SeasonalSummary) :=
  match Planner.loadScenarioPreset mode 12 12 with
  | Some (etoCells, rainCells) =>
      Planner.runSeasonalSimulation areaRai ki km kl etoCells rainCells
  | None => None
  end.

(** The same in [script.js]: the simulation on the values the preset
    assigns, when each of the twelve rows is assigned a number. *)
Definition legacyScenario (scenario : string) (area ki km kl : num)
  : option Legacy.SeasonalResult :=
  match Legacy.loadScenarioPreset scenario 12 12 with
  | Some (etoCells, rainfallCells) =>
      if forallb (fun c => match c with Some _ => true | None => false end)
           (etoCells ++ rainfallCells)
      then Legacy.runSeasonalSimulation area ki km kl
             (map (fun c => match c with Some v => v | None => NaN end) etoCells)
             (map (fun c => match c with Some v => v | None => NaN end) rainfallCells)
      else None
  | None => None
  end.

(** The finite values of a column. *)
Definition reals (l : list num) : list R :=
  map (fun v => match v with Fin a => a | _ => 0 end) l.

Ltac columns_le := unfold reals; cbn [map Planner.preset_eto Planner.preset_rain
  Planner.presets_normal Planner.presets_dry Planner.presets_wet
  Legacy.preset_eto Legacy.preset_rainfall
  Legacy.presets_normal Legacy.presets_dry Legacy.presets_wet];
  repeat constructor; lra.

(** X21.  With the table filled by a preset (twelve rows), for an area
    and crop coefficients that are finite and not negative, both
    simulations give, month by month, at most the demand of "normal" under
    "wet" and at least the demand of "normal" under "dry". *)
Theorem presets_ordered (area ki km kl : R) :
  0 <= area -> 0 <= ki -> 0 <= km -> 0 <= kl ->
  (exists (wet normal dry : list Z) (sw sn sd : Planner.SeasonalSummary),
     plannerScenario "wet" (Fin area) (Fin ki) (Fin km) (Fin kl)
       = Some (map FinZ wet, Some sw) /\
     plannerScenario "normal" (Fin area) (Fin ki) (Fin km) (Fin kl)
       = Some (map FinZ normal, Some sn) /\
     plannerScenario "dry" (Fin area) (Fin ki) (Fin km) (Fin kl)
       = Some (map FinZ dry, Some sd) /\
     List.length normal = 12%nat /\
     Forall2 Z.le wet normal /\ Forall2 Z.le normal dry) /\
  (exists wet normal dry : Legacy.SeasonalResult,
     legacyScenario "wet" (Fin area) (Fin ki) (Fin km) (Fin kl) = Some wet /\
     legacyScenario "normal" (Fin area) (Fin ki) (Fin km) (Fin kl) = Some normal /\
     legacyScenario "dry" (Fin area) (Fin ki) (Fin km) (Fin kl) = Some dry /\
     List.length (Legacy.monthlyData normal) = 12%nat /\
     Forall2 demandLe (Legacy.monthlyData wet) (Legacy.monthlyData normal) /\
     Forall2 demandLe (Legacy.monthlyData normal) (Legacy.monthlyData dry)).
Proof.
  intros Ha Hki Hkm Hkl. split.
  - destruct planner_preset_cells as (Hn & Hd & Hw).
    unfold plannerScenario. rewrite Hn, Hd, Hw.
    set (en := reals (Planner.preset_eto Planner.presets_normal)).
    set (rn := reals (Planner.preset_rain Planner.presets_normal)).
    set (ed := reals (Planner.preset_eto Planner.presets_dry)).
    set (rd := reals (Planner.preset_rain Planner.presets_dry)).
    set (ew := reals (Planner.preset_eto Planner.presets_wet)).
    set (rw := reals (Planner.preset_rain Planner.presets_wet)).
    change (Planner.preset_eto Planner.presets_normal) with (map Fin en).
    change (Planner.preset_rain Planner.presets_normal) with (map Fin rn).
    change (Planner.preset_eto Planner.presets_dry) with (map Fin ed).
    change (Planner.preset_rain Planner.presets_dry) with (map Fin rd).
    change (Planner.preset_eto Planner.presets_wet) with (map Fin ew).
    change (Planner.preset_rain Planner.presets_wet) with (map Fin rw).
    destruct (planner_run_value area ki km kl ew rw) as (sw & pw & Hrw & _);
      [discriminate | discriminate | cbn; lia |].
    destruct (planner_run_value area ki km kl en rn) as (sn & pn & Hrn & _);
      [discriminate | discriminate | cbn; lia |].
    destruct (planner_run_value area ki km kl ed rd) as (sd & pd & Hrd & _);
      [discriminate | discriminate | cbn; lia |].
    do 3 eexists. exists sw, sn, sd.
    split; [exact Hrw |]. split; [exact Hrn |]. split; [exact Hrd |].
    split; [rewrite planner_series_length; reflexivity |].
    split; apply planner_series_le; try assumption; try lra;
      try (apply Forall2_nth_le); columns_le.
  - unfold legacyScenario, Legacy.loadScenarioPreset.
    cbn [Legacy.selectPreset String.eqb Ascii.eqb Bool.eqb].
    cbn [Legacy.preset_eto Legacy.preset_rainfall Legacy.presets_normal Legacy.presets_dry
         Legacy.presets_wet seq map nth_error app forallb andb].
    set (en := reals (Legacy.preset_eto Legacy.presets_normal)).
    set (rn := reals (Legacy.preset_rainfall Legacy.presets_normal)).
    set (ed := reals (Legacy.preset_eto Legacy.presets_dry)).
    set (rd := reals (Legacy.preset_rainfall Legacy.presets_dry)).
    set (ew := reals (Legacy.preset_eto Legacy.presets_wet)).
    set (rw := reals (Legacy.preset_rainfall Legacy.presets_wet)).
    destruct (legacy_run_value area ki km kl ew rw) as (xw & tw & Hdw & Hrw);
      [discriminate |].
    destruct (legacy_run_value area ki km kl en rn) as (xn & tn & Hdn & Hrn);
      [discriminate |].
    destruct (legacy_run_value area ki km kl ed rd) as (xd & td & Hdd & Hrd);
      [discriminate |].
    do 3 eexists.
    split; [exact Hrw |]. split; [exact Hrn |]. split; [exact Hrd |].
    cbn [Legacy.monthlyData]. rewrite <- Hdw, <- Hdn, <- Hdd.
    split; [unfold legacyData; rewrite Seasonal.length_mapi_from; reflexivity |].
    split; apply legacy_data_le; try assumption;
      try (apply Forall2_nth_le); columns_le.
Qed.

Lemma presets_ordered_witness :
  (exists (wet normal dry : list Z) (sw sn sd : Planner.SeasonalSummary),
     plannerScenario "wet" (Fin 10) (Fin 0.3) (Fin 1.0) (Fin 0.7)
       = Some (map FinZ wet, Some sw) /\
     plannerScenario "normal" (Fin 10) (Fin 0.3) (Fin 1.0) (Fin 0.7)
       = Some (map FinZ normal, Some sn) /\
     plannerScenario "dry" (Fin 10) (Fin 0.3) (Fin 1.0) (Fin 0.7)
       = Some (map FinZ dry, Some sd) /\
     List.length normal = 12%nat /\
     Forall2 Z.le wet normal /\ Forall2 Z.le normal dry) /\
  (exists wet normal dry : Legacy.SeasonalResult,
     legacyScenario "wet" (Fin 10) (Fin 0.3) (Fin 1.0) (Fin 0.7) = Some wet /\
     legacyScenario "normal" (Fin 10) (Fin 0.3) (Fin 1.0) (Fin 0.7) = Some normal /\
     legacyScenario "dry" (Fin 10) (Fin 0.3) (Fin 1.0) (Fin 0.7) = Some dry /\
     List.length (Legacy.monthlyData normal) = 12%nat /\
     Forall2 demandLe (Legacy.monthlyData wet) (Legacy.monthlyData normal) /\
     Forall2 demandLe (Legacy.monthlyData normal) (Legacy.monthlyData dry)).
Proof.
  apply (presets_ordered 10 0.3 1.0 0.7); lra.
Defined.

Lemma existsb_eqb_false (mode : string) (names : list string) :
  ~ In mode names -> existsb (String.eqb mode) names = false.
Proof.
  intros Hnot. induction names as [| n t IH]; [reflexivity |].
  cbn [existsb]. destruct (String.eqb_spec mode n) as [-> | _].
  - exfalso. apply Hnot. now left.
  - apply IH. intros Hin. apply Hnot. now right.
Qed.

(** X22.  A scenario name that is none of "normal", "dry", "wet" and
    not the name of a member every object inherits is treated as
    "normal", for any number of cells, by both [loadScenarioPreset]; an
    inherited name, with a cell to fill, ends in a TypeError.  The planner
    also ends in a TypeError when a column has more than twelve cells,
    while [script.js] assigns [undefined] to the cells beyond the
    twelfth. *)
Theorem preset_fallback (mode : string) (etoCells rainCells : nat) :
  ~ In mode ("dry" :: "wet" :: Planner.Object_prototype_names) ->
  (Planner.loadScenarioPreset mode etoCells rainCells =
   Planner.loadScenarioPreset "normal" etoCells rainCells /\
   Legacy.loadScenarioPreset mode etoCells rainCells =
   Legacy.loadScenarioPreset "normal" etoCells rainCells) /\
  (forall inherited, In inherited Planner.Object_prototype_names ->
     Planner.loadScenarioPreset inherited (S etoCells) rainCells = None /\
     Legacy.loadScenarioPreset inherited (S etoCells) rainCells = None) /\
  ((12 < etoCells)%nat ->
   Planner.loadScenarioPreset mode etoCells rainCells = None /\
   exists etos rains,
     Legacy.loadScenarioPreset mode etoCells rainCells = Some (etos, rains) /\
     nth_error etos 12 = Some None).
Proof.
  intros Hnot.
  assert (Hsel : Planner.selectPreset mode = Some Planner.presets_normal /\
                 Legacy.selectPreset mode = Some Legacy.presets_normal).
  { unfold Planner.selectPreset, Legacy.selectPreset.
    destruct (String.eqb_spec mode "normal") as [-> | _]; [split; reflexivity |].
    destruct (String.eqb_spec mode "dry") as [-> | _].
    { exfalso. apply Hnot. now left. }
    destruct (String.eqb_spec mode "wet") as [-> | _].
    { exfalso. apply Hnot. right. now left. }
    change Legacy.Object_prototype_names with Planner.Object_prototype_names.
    rewrite existsb_eqb_false; [split; reflexivity |].
    intros Hin. apply Hnot. right. now right. }
  destruct Hsel as [Hp Hl].
  split; [| split].
  - unfold Planner.loadScenarioPreset, Legacy.loadScenarioPreset. rewrite Hp, Hl.
    split; reflexivity.
  - intros inherited Hin.
    assert (Hi : Planner.selectPreset inherited = None /\
                 Legacy.selectPreset inherited = None).
    { cbn [In Planner.Object_prototype_names] in Hin.
      repeat (destruct Hin as [<- | Hin]; [split; reflexivity |]). destruct Hin. }
    destruct Hi as [Hip Hil].
    unfold Planner.loadScenarioPreset, Legacy.loadScenarioPreset. rewrite Hip, Hil.
    split; reflexivity.
  - intros Hbig. unfold Planner.loadScenarioPreset, Legacy.loadScenarioPreset.
    rewrite Hp, Hl. split.
    + assert (Hfill : forall series idx cells,
                (idx <= List.length series)%nat ->
                (List.length series < idx + cells)%nat ->
                Planner.fillCells series idx cells = None).
      { intros series idx cells. revert idx.
        induction cells as [| n IH]; intros idx Hle Hlt; [lia |].
        cbn [Planner.fillCells].
        destruct (nth_error series idx) eqn:Hnth; [| reflexivity].
        assert (idx < List.length series)%nat
          by (apply nth_error_Some; rewrite Hnth; discriminate).
        rewrite IH; [reflexivity | lia | lia]. }
      rewrite Hfill; [reflexivity | cbn; lia | cbn; lia].
    + do 2 eexists. split; [reflexivity |].
      rewrite nth_error_map, nth_error_seq.
      destruct (12 <? etoCells)%nat eqn:E; [reflexivity |].
      apply Nat.ltb_ge in E. lia.
Qed.

Lemma preset_fallback_witness :
  (Planner.loadScenarioPreset "drought" 12 12 = Planner.loadScenarioPreset "normal" 12 12 /\
   Legacy.loadScenarioPreset "drought" 12 12 = Legacy.loadScenarioPreset "normal" 12 12) /\
  (forall inherited, In inherited Planner.Object_prototype_names ->
     Planner.loadScenarioPreset inherited 13 12 = None /\
     Legacy.loadScenarioPreset inherited 13 12 = None).
Proof.
  destruct (preset_fallback "drought" 12 12) as (H1 & H2 & _).
  - cbn [In Planner.Object_prototype_names]. intros H.
    repeat (destruct H as [H | H]; [discriminate H |]). exact H.
  - split; [exact H1 | exact H2].
Defined.

End ScenarioFacts.

(** ** The calculator of [script.js]: pipe length, zones, validation, bill *)

Module LegacyFacts.

Import RoundFacts.

Local Open Scope string_scope.

Lemma sqrt_area (area : R) : 0 <= area -> sqrt (area * 10000) = 100 * sqrt area.
Proof.
  intros Ha. rewrite sqrt_mult by lra.
  replace 10000 with (100 * 100) by lra. rewrite sqrt_square by lra. ring.
Qed.

(** X23.  For a finite area that is not negative, [calculatePipeLength]
    returns a whole number of metres that is not negative and lies within
    half a metre of 240 x sqrt(area in ha), and it does not decrease when
    the area grows; for a negative area it returns [NaN]. *)
Theorem pipe_length_estimate (a1 a2 k e r D M : R) :
  0 <= a1 <= a2 ->
  (exists n1 n2 : Z,
     Legacy.calculatePipeLength (Legacy.mkDom a1 k e r D M) = Fin (IZR n1) /\
     Legacy.calculatePipeLength (Legacy.mkDom a2 k e r D M) = Fin (IZR n2) /\
     (0 <= n1 <= n2)%Z /\
     240 * sqrt a1 - / 2 < IZR n1 <= 240 * sqrt a1 + / 2) /\
  (forall a, a < 0 -> Legacy.calculatePipeLength (Legacy.mkDom a k e r D M) = NaN).
Proof.
  intros [H1 H12]. split.
  - rewrite !HeadLoss.legacy_pipe_length_form by lra.
    rewrite !sqrt_area by lra.
    do 2 eexists. split; [reflexivity |]. split; [reflexivity |].
    pose proof (sqrt_pos a1) as Hs1.
    assert (Hs12 : sqrt a1 <= sqrt a2) by (apply sqrt_le_1; lra).
    split; [split |].
    + apply Zfloor_lub. simpl. lra.
    + apply round_le. lra.
    + pose proof (round_bounds (100 * sqrt a1 * 2 * 1.2)). lra.
  - intros a Ha. unfold Legacy.calculatePipeLength. cbn [Legacy.dom_area].
    rewrite mul_Fin. unfold Math_sqrt.
    destruct (Rlt_dec (a * 10000) 0); [reflexivity | lra].
Qed.

Lemma pipe_length_estimate_witness :
  (exists n1 n2 : Z,
     Legacy.calculatePipeLength (Legacy.mkDom 10 0.9 5 0 110 100) = Fin (IZR n1) /\
     Legacy.calculatePipeLength (Legacy.mkDom 40 0.9 5 0 110 100) = Fin (IZR n2) /\
     (0 <= n1 <= n2)%Z /\
     240 * sqrt 10 - / 2 < IZR n1 <= 240 * sqrt 10 + / 2) /\
  (forall a, a < 0 ->
     Legacy.calculatePipeLength (Legacy.mkDom a 0.9 5 0 110 100) = NaN).
Proof.
  apply (pipe_length_estimate 10 40 0.9 5 0 110 100). lra.
Defined.

(** X24.  For every finite form, [calculateZones] returns a whole
    number of zones, at least 1, such that the demand per zone does not
    exceed 50000 L/day, and no smaller number would do; a single zone is
    returned exactly when the demand is at most 50000 L/day. *)
Theorem zone_capacity (area k e r D M : R) :
  let dom := Legacy.mkDom area k e r D M in
  exists (z : Z) (d : R),
    Legacy.calculateZones dom = Fin (IZR z) /\
    Legacy.calculateWaterDemand dom = Fin d /\
    (1 <= z)%Z /\
    d <= 50000 * IZR z /\
    (z = 1%Z \/ 50000 * IZR (z - 1) < d) /\
    (z = 1%Z <-> d <= 50000).
Proof.
  intros dom. subst dom.
  rewrite ZonesFacts.calculateZones_spec, WaterBalance.legacy_demand_form.
  set (d := Rmax 0 (k * e - r) * area * 10000).
  destruct (ZonesFacts.zone_count_form d) as (z & -> & Hz & Hzv).
  exists z, d. split; [reflexivity |]. split; [reflexivity |]. split; [exact Hz |].
  pose proof (Zceil_bound (d / 50000)) as [Hlo Hhi].
  set (c := Zceil (d / 50000)) in *.
  assert (Hd : d = d / 50000 * 50000) by (unfold Rdiv; field).
  assert (Hcz : IZR c <= IZR z) by (apply IZR_le; lia).
  split; [lra |]. split.
  - destruct (Z.le_gt_cases c 1) as [Hc | Hc]; [left; lia | right].
    replace z with c by lia. rewrite minus_IZR. lra.
  - split.
    + intros ->. lra.
    + intros Hle. assert (Hc1 : (c <= 1)%Z).
      { apply le_IZR. apply Rnot_lt_le. intros Hgt.
        assert (2 <= c)%Z by (apply lt_IZR in Hgt; lia).
        assert (2 <= IZR c) by (now apply (IZR_le 2)). lra. }
      lia.
Qed.

(** The notes of a validation. *)
Definition noteHeadLossOk : string := "Head loss is within acceptable range".

(** X25.  [validateHydraulics] changes nothing but the status and the
    notes.  The status becomes "valid" or "invalid", never stays
    "pending": it is "valid" exactly when the head loss is not above 15,
    the lateral length is not below 0.8 times the setting, and it is not
    the case that the area is above 50 with a main below 110 mm.  It
    writes between one and four notes, and validating again changes
    nothing. *)
Theorem validation_decision (dom : Legacy.Dom) (state : Legacy.CalculationState) :
  let after := Legacy.validateHydraulics dom state in
  (Legacy.waterDemand after = Legacy.waterDemand state /\
   Legacy.pipeLength after = Legacy.pipeLength state /\
   Legacy.headLoss after = Legacy.headLoss state /\
   Legacy.maxLateralLength after = Legacy.maxLateralLength state /\
   Legacy.bom after = Legacy.bom state) /\
  (Legacy.validationStatus after = "valid" \/ Legacy.validationStatus after = "invalid") /\
  (Legacy.validationStatus after = "valid" <->
   gtb (Legacy.headLoss state) (Fin 15) = false /\
   ltb (Legacy.maxLateralLength state) (mul (Legacy.dom_max_lateral dom) (Fin 0.8)) = false /\
   (gtb (Legacy.dom_area dom) (Fin 50) && ltb (Legacy.dom_main_diameter dom) (Fin 110))%bool
   = false) /\
  (1 <= List.length (Legacy.validationNotes after) <= 4)%nat /\
  Legacy.validateHydraulics dom after = after.
Proof.
  intros after. subst after. unfold Legacy.validateHydraulics.
  cbn [Legacy.waterDemand Legacy.pipeLength Legacy.headLoss Legacy.maxLateralLength
       Legacy.bom].
  destruct (gtb (Legacy.headLoss state) (Fin 15)) eqn:E15;
    [| destruct (gtb (Legacy.headLoss state) (Fin 10)) eqn:E10];
    destruct (ltb (Legacy.maxLateralLength state)
                  (mul (Legacy.dom_max_lateral dom) (Fin 0.8))) eqn:Elat;
    destruct (gtb (Legacy.waterDemand state) (Fin 100000)) eqn:Edem;
    destruct (gtb (Legacy.dom_area dom) (Fin 50) &&
              ltb (Legacy.dom_main_diameter dom) (Fin 110))%bool eqn:Earea;
    cbn [Legacy.validationStatus Legacy.validationNotes app List.length];
    (split; [repeat split |]);
    (split; [first [left; reflexivity | right; reflexivity] |]);
    (split; [split; [intros H; first [discriminate H | repeat split; reflexivity]
                    | intros (H1 & H2 & H3); first [discriminate | reflexivity]] |]);
    (split; [lia |]);
    cbn [Legacy.waterDemand Legacy.pipeLength Legacy.headLoss Legacy.maxLateralLength
         Legacy.bom];
    rewrite ?E15, ?E10, ?Elat, ?Edem, ?Earea; reflexivity.
Qed.

Lemma pow_negative_base (a : R) : a < 0 -> Math_pow (Fin a) 1.852 = NaN.
Proof.
  intros Ha. unfold Math_pow.
  destruct (Req_dec_T 1.852 0); [lra |].
  destruct (Rlt_dec 0 a); [lra |].
  destruct (Req_dec_T a 0); [lra |].
  assert (Hfl : Zfloor 1.852 = 1%Z) by (apply Zfloor_eq; lra).
  rewrite Hfl. destruct (Req_dec_T 1.852 1); [lra | reflexivity].
Qed.

Lemma mul_NaN_r (x : num) : mul x NaN = NaN.
Proof. destruct x; reflexivity. Qed.

Lemma div_NaN_r (x : num) : div x NaN = NaN.
Proof. destruct x; reflexivity. Qed.

(** The lateral length [calculateMaxLateralLength] returns for a negative
    area: [NaN], or the setting itself. *)
Lemma negative_area_lateral (area k e r D M : R) :
  area < 0 ->
  let l := Legacy.calculateMaxLateralLength (Legacy.mkDom area k e r D M) in
  l = NaN \/ l = Fin M.
Proof.
  intros Ha l. subst l. unfold Legacy.calculateMaxLateralLength.
  rewrite WaterBalance.legacy_demand_form.
  cbn [Legacy.dom_main_diameter Legacy.dom_max_lateral].
  set (w := Rmax 0 (k * e - r) * area * 10000).
  assert (Hw : w <= 0).
  { unfold w. pose proof (Rmax_l 0 (k * e - r)). nra. }
  rewrite !mul_Fin. rewrite !div_Fin by lra.
  destruct (Req_dec_T w 0) as [Hw0 | Hwn].
  - rewrite Hw0. replace (0 / 10 / (24 * 3600 * 1000)) with 0 by lra.
    rewrite Math_pow_zero by lra. rewrite mul_Fin.
    replace (10.67 * 0) with 0 by lra.
    rewrite (Math_pow_pos 150) by lra. rewrite mul_Fin.
    destruct (Math_pow (Fin (D / 1000)) 4.871) as [p | | |] eqn:Ep.
    + assert (Hp : 0 <= p).
      { unfold Math_pow in Ep.
        destruct (Req_dec_T 4.871 0); [lra |].
        destruct (Rlt_dec 0 (D / 1000)).
        - injection Ep as <-. left. apply Rpower_pos.
        - destruct (Req_dec_T (D / 1000) 0).
          + destruct (Rlt_dec 0 4.871); [injection Ep as <-; lra | discriminate].
          + assert (Hfl : Zfloor 4.871 = 4%Z) by (apply Zfloor_eq; lra).
            rewrite Hfl in Ep.
            destruct (Req_dec_T 4.871 4); [lra | discriminate]. }
      pose proof (Rpower_pos 150 1.852) as Hc.
      rewrite mul_Fin. unfold div. destruct (Req_dec_T 0 0); [| lra].
      unfold inf_of_sign.
      destruct (Rlt_dec 0 (0.05 * 30 * Rpower 150 1.852 * p)); [right; reflexivity |].
      destruct (Rlt_dec (0.05 * 30 * Rpower 150 1.852 * p) 0); [exfalso; nra |].
      left; reflexivity.
    + exfalso. unfold Math_pow in Ep.
      destruct (Req_dec_T 4.871 0); [lra |].
      destruct (Rlt_dec 0 (D / 1000)); [discriminate |].
      destruct (Req_dec_T (D / 1000) 0).
      * destruct (Rlt_dec 0 4.871); [discriminate | lra].
      * destruct (Req_dec_T 4.871 (IZR (Zfloor 4.871))); discriminate.
    + exfalso. unfold Math_pow in Ep.
      destruct (Req_dec_T 4.871 0); [lra |].
      destruct (Rlt_dec 0 (D / 1000)); [discriminate |].
      destruct (Req_dec_T (D / 1000) 0).
      * destruct (Rlt_dec 0 4.871); [discriminate | lra].
      * destruct (Req_dec_T 4.871 (IZR (Zfloor 4.871))); discriminate.
    + left. rewrite mul_NaN_r. reflexivity.
  - assert (Hneg : w / 10 / (24 * 3600 * 1000) < 0).
    { replace (24 * 3600 * 1000) with 86400000 by lra. lra. }
    rewrite (pow_negative_base (w / 10 / (24 * 3600 * 1000)) Hneg).
    rewrite mul_NaN_r, div_NaN_r. left. reflexivity.
Qed.

(** X26.  For a finite form with a negative area and a lateral setting
    that is not negative, [calculateAll] stores [NaN] for the pipe length
    and for the head loss, and [validateHydraulics] then reports the
    status "valid" with a single note, that the head loss is within the
    acceptable range. *)
Theorem negative_area_validates (Number_toString : num -> string)
  (area k e r D M : R) (state : Legacy.CalculationState) :
  area < 0 -> 0 <= M ->
  let dom := Legacy.mkDom area k e r D M in
  let computed := Legacy.calculateAll Number_toString dom state in
  let after := Legacy.validateHydraulics dom computed in
  Legacy.pipeLength computed = NaN /\
  Legacy.headLoss computed = NaN /\
  Legacy.validationStatus after = "valid" /\
  Legacy.validationNotes after = [noteHeadLossOk].
Proof.
  intros Ha HM dom computed after. subst after computed dom.
  assert (Hlen : Legacy.calculatePipeLength (Legacy.mkDom area k e r D M) = NaN).
  { unfold Legacy.calculatePipeLength. cbn [Legacy.dom_area].
    rewrite mul_Fin. unfold Math_sqrt.
    destruct (Rlt_dec (area * 10000) 0); [reflexivity | lra]. }
  assert (Hloss : Legacy.calculateHeadLoss (Legacy.mkDom area k e r D M) = NaN).
  { unfold Legacy.calculateHeadLoss. rewrite Hlen. rewrite mul_NaN_r.
    reflexivity. }
  assert (Hw0 : Rmax 0 (k * e - r) * area * 10000 <= 0).
  { pose proof (Rmax_l 0 (k * e - r)). nra. }
  pose proof (negative_area_lateral area k e r D M Ha) as Hlat. cbv zeta in Hlat.
  assert (Hl : ltb (Legacy.calculateMaxLateralLength (Legacy.mkDom area k e r D M))
                   (Fin (M * 0.8)) = false).
  { destruct Hlat as [-> | ->]; [reflexivity | apply ltb_Fin_false; lra]. }
  unfold Legacy.validateHydraulics, Legacy.calculateAll.
  cbn [Legacy.waterDemand Legacy.pipeLength Legacy.headLoss Legacy.maxLateralLength
       Legacy.bom Legacy.dom_max_lateral Legacy.dom_area Legacy.dom_main_diameter].
  rewrite Hlen, Hloss, WaterBalance.legacy_demand_form. rewrite mul_Fin, Hl.
  unfold gtb. rewrite (ltb_Fin_false 100000) by lra.
  rewrite (ltb_Fin_false 50 area) by lra.
  change (ltb (Fin 15) NaN) with false. change (ltb (Fin 10) NaN) with false.
  cbn [andb Legacy.validationStatus Legacy.validationNotes app].
  repeat split; reflexivity.
Qed.

Lemma negative_area_validates_witness :
  let dom := Scenario.negativeAreaDom in
  let computed := Legacy.calculateAll Scenario.plainNumber dom Legacy.initialState in
  let after := Legacy.validateHydraulics dom computed in
  Legacy.pipeLength computed = NaN /\
  Legacy.headLoss computed = NaN /\
  Legacy.validationStatus after = "valid" /\
  Legacy.validationNotes after = [noteHeadLossOk].
Proof.
  apply (negative_area_validates Scenario.plainNumber (-1) 1 5 0 110 100
           Legacy.initialState); lra.
Defined.

(** X27.  For a finite form with an area that is not negative, every
    quantity of the bill [calculateBOM] returns is a whole number that is
    not negative, every unit price is positive, and the total cost the
    design response reports after [calculateAll] is a finite amount of at
    least 725 (pump, controller and one valve); for a negative area the
    total is [NaN]. *)
Theorem bom_cost_bounds (Number_toString : num -> string) (area k e r D M : R)
  (state : Legacy.CalculationState) (satellite : option Legacy.SatelliteData)
  (now : string) :
  0 <= area ->
  (let dom := Legacy.mkDom area k e r D M in
   let response :=
     Legacy.buildDesignResponseFromState
       (Legacy.calculateAll Number_toString dom state) satellite dom now in
   Forall (fun it => exists q : Z, Legacy.quantity it = Fin (IZR q) /\ (0 <= q)%Z)
          (Legacy.Response.bom response) /\
   Forall (fun it => exists p : R, Legacy.unitPrice it = Fin p /\ 0 < p)
          (Legacy.Response.bom response) /\
   exists c : R, Legacy.Response.totalCost response = Fin c /\ 725 <= c) /\
  (forall a, a < 0 ->
     let dom := Legacy.mkDom a k e r D M in
     Legacy.Response.totalCost
       (Legacy.buildDesignResponseFromState
          (Legacy.calculateAll Number_toString dom state) satellite dom now) = NaN).
Proof.
  intros Ha. split.
  - intros dom response. subst response.
    rewrite Bom.response_bom_copy.
    unfold Legacy.buildDesignResponseFromState. cbn [Legacy.Response.totalCost].
    rewrite Bom.reduce_sumOf.
    unfold Legacy.calculateAll. cbn [Legacy.bom].
    subst dom. unfold Legacy.calculateBOM.
    rewrite HeadLoss.legacy_pipe_length_form by exact Ha.
    cbn [Legacy.dom_area Legacy.dom_main_diameter].
    destruct (Bom.pipe_price_finite D) as (p & -> & Hp).
    rewrite ZonesFacts.calculateZones_spec, WaterBalance.legacy_demand_form.
    destruct (ZonesFacts.zone_count_form (Rmax 0 (k * e - r) * area * 10000))
      as (z & -> & Hz & _).
    unfold Legacy.prices_fittings, Legacy.prices_valves, Legacy.prices_emitters,
      Legacy.prices_pump, Legacy.prices_controller.
    rewrite ?mul_Fin. rewrite ?div_Fin by lra. rewrite ?Math_ceil_Fin, ?mul_Fin.
    set (len := IZR (Zfloor (sqrt (area * 10000) * 2 * 1.2 + / 2))).
    assert (Hlen : 0 <= len).
    { unfold len. apply IZR_le, Zfloor_lub.
      pose proof (sqrt_pos (area * 10000)). lra. }
    assert (Hc : forall x, 0 <= x -> (0 <= Zceil x)%Z).
    { intros x Hx. pose proof (Zceil_bound x) as [_ Hb]. apply le_IZR. lra. }
    pose proof (Hc len Hlen) as H1.
    pose proof (Hc (len * 0.5) ltac:(lra)) as H2.
    pose proof (Hc (len / 20) ltac:(lra)) as H3.
    pose proof (Hc (area * 10000) ltac:(lra)) as H4.
    split; [| split].
    + repeat constructor; cbn [Legacy.quantity];
        first [ eexists; split; [reflexivity | assumption]
              | exists 1%Z; split; [reflexivity | lia]
              | exists z; split; [reflexivity | lia] ].
    + repeat constructor; cbn [Legacy.unitPrice];
        eexists; (split; [reflexivity | lra]).
    + cbn [Spec.sumOf Legacy.total]. rewrite ?add_Fin.
      eexists. split; [reflexivity |].
      apply IZR_le in H1, H2, H3, H4.
      assert (H5 : 1 <= IZR z) by now apply IZR_le.
      nra.
  - intros a Hneg dom.
    unfold Legacy.buildDesignResponseFromState. cbn [Legacy.Response.totalCost].
    rewrite Bom.reduce_sumOf.
    unfold Legacy.calculateAll. cbn [Legacy.bom].
    unfold Legacy.calculateBOM.
    assert (Hlen : Legacy.calculatePipeLength dom = NaN).
    { unfold Legacy.calculatePipeLength, dom. cbn [Legacy.dom_area].
      rewrite mul_Fin. unfold Math_sqrt.
      destruct (Rlt_dec (a * 10000) 0); [reflexivity | lra]. }
    rewrite Hlen. cbn [Spec.sumOf Legacy.total Math_ceil mul add]. reflexivity.
Qed.

Lemma bom_cost_bounds_witness :
  let dom := Scenario.defaultDom in
  let response :=
    Legacy.buildDesignResponseFromState
      (Legacy.calculateAll Scenario.plainNumber dom Legacy.initialState) None dom
      Scenario.someTime in
  Forall (fun it => exists q : Z, Legacy.quantity it = Fin (IZR q) /\ (0 <= q)%Z)
         (Legacy.Response.bom response) /\
  Forall (fun it => exists p : R, Legacy.unitPrice it = Fin p /\ 0 < p)
         (Legacy.Response.bom response) /\
  exists c : R, Legacy.Response.totalCost response = Fin c /\ 725 <= c.
Proof.
  apply (bom_cost_bounds Scenario.plainNumber 10 0.9 5 0 110 100 Legacy.initialState
           None Scenario.someTime). lra.
Defined.

End LegacyFacts.

(** ** Projects *)

Module ProjectFacts.

Local Open Scope string_scope.

(** The project [getCurrentProject] would return with [projectId] as the
    current identifier. *)
Definition projectOf (projectId : string) (app : Legacy.Projects)
  : option Legacy.Project.t :=
  Legacy.getCurrentProject
    {| Legacy.projects := Legacy.projects app;
       Legacy.currentProjectId := Some projectId |}.

Lemma find_filter_same (projectId : string) (l : list Legacy.Project.t) :
  find (fun p => String.eqb (Legacy.Project.id p) projectId)
       (filter (fun p => negb (String.eqb (Legacy.Project.id p) projectId)) l) = None.
Proof.
  induction l as [| p t IH]; [reflexivity |].
  cbn [filter]. destruct (String.eqb (Legacy.Project.id p) projectId) eqn:E; cbn [negb].
  - exact IH.
  - cbn [find]. rewrite E. exact IH.
Qed.

Lemma find_filter_other (projectId other : string) (l : list Legacy.Project.t) :
  other <> projectId ->
  find (fun p => String.eqb (Legacy.Project.id p) other)
       (filter (fun p => negb (String.eqb (Legacy.Project.id p) projectId)) l) =
  find (fun p => String.eqb (Legacy.Project.id p) other) l.
Proof.
  intros Hne. induction l as [| p t IH]; [reflexivity |].
  cbn [filter find].
  destruct (String.eqb_spec (Legacy.Project.id p) projectId) as [Hid | Hid]; cbn [negb].
  - destruct (String.eqb_spec (Legacy.Project.id p) other) as [Ho | _]; [| exact IH].
    exfalso. apply Hne. now rewrite <- Ho, Hid.
  - cbn [find]. destruct (String.eqb (Legacy.Project.id p) other); [reflexivity | exact IH].
Qed.

Lemma filter_length_le {A : Type} (f : A -> bool) (l : list A) :
  (List.length (filter f l) <= List.length l)%nat.
Proof.
  induction l as [| a t IH]; [cbn; lia |].
  cbn [filter]. destruct (f a); cbn [List.length]; lia.
Qed.

Lemma filter_idem {A : Type} (f : A -> bool) (l : list A) :
  filter f (filter f l) = filter f l.
Proof.
  induction l as [| a t IH]; [reflexivity |].
  cbn [filter]. destruct (f a) eqn:E; [cbn [filter]; rewrite E, IH; reflexivity | exact IH].
Qed.

(** X28.  After a confirmed [deleteProject], no project has the deleted
    identifier, the other projects are found as before, and no project is
    current if the deleted one was (otherwise the current project is the
    same); the list does not grow, and deleting again changes nothing.
    Without confirmation nothing changes. *)
Theorem delete_project (projectId : string) (app : Legacy.Projects) :
  let after := Legacy.deleteProject true projectId app in
  projectOf projectId after = None /\
  (forall other, other <> projectId -> projectOf other after = projectOf other app) /\
  (Legacy.currentProjectId app = Some projectId ->
   Legacy.currentProjectId after = None /\ Legacy.getCurrentProject after = None) /\
  (Legacy.currentProjectId app <> Some projectId ->
   Legacy.currentProjectId after = Legacy.currentProjectId app /\
   Legacy.getCurrentProject after = Legacy.getCurrentProject app) /\
  (List.length (Legacy.projects after) <= List.length (Legacy.projects app))%nat /\
  Legacy.deleteProject true projectId after = after /\
  Legacy.deleteProject false projectId app = app.
Proof.
  intros after. subst after.
  unfold Legacy.deleteProject, projectOf, Legacy.getCurrentProject.
  cbn [negb Legacy.projects Legacy.currentProjectId].
  split; [apply find_filter_same |].
  split; [intros other Hne; now apply find_filter_other |].
  split.
  { intros ->. rewrite String.eqb_refl. split; reflexivity. }
  split.
  { intros Hcur. destruct (Legacy.currentProjectId app) as [current |]; [| split; reflexivity].
    destruct (String.eqb_spec current projectId) as [-> | Hne]; [contradiction |].
    split; [reflexivity |]. now apply find_filter_other. }
  split; [apply filter_length_le |].
  split; [| reflexivity].
  rewrite filter_idem. f_equal.
  destruct (Legacy.currentProjectId app) as [current |]; [| reflexivity].
  destruct (String.eqb current projectId) eqn:E; [reflexivity |]. now rewrite E.
Qed.

Lemma find_app_new (projectId : string) (l : list Legacy.Project.t) (p : Legacy.Project.t) :
  Legacy.Project.id p = projectId ->
  find (fun q => String.eqb (Legacy.Project.id q) projectId) (l ++ [p]) =
  match find (fun q => String.eqb (Legacy.Project.id q) projectId) l with
  | Some q => Some q
  | None => Some p
  end.
Proof.
  intros Hid. induction l as [| a t IH]; cbn [app find].
  - rewrite Hid, String.eqb_refl. reflexivity.
  - destruct (String.eqb (Legacy.Project.id a) projectId); [reflexivity | exact IH].
Qed.

(** The project [createProject] builds. *)
Definition newProject (name location : string) (area : num) (crop now nowIso : string)
  : Legacy.Project.t :=
  {| Legacy.Project.id := now;
     Legacy.Project.name := name;
     Legacy.Project.location := location;
     Legacy.Project.area := area;
     Legacy.Project.crop := crop;
     Legacy.Project.lastUpdated := nowIso;
     Legacy.Project.latestMetrics :=
       {| Legacy.demandLday := Fin 0;
          Legacy.totalPipeLength := Fin 0;
          Legacy.headLossPct := Fin 0;
          Legacy.maxLateral := Fin 0;
          Legacy.validationOk := false;
          Legacy.kc := None;
          Legacy.eto := None;
          Legacy.rainfall := None;
          Legacy.mainDiameter := None |} |}.

(** X29.  With a name and a location that are not empty and an area that
    is a number other than 0, [createProject] appends one project, with
    the clock reading as identifier and zeroed metrics, and makes that
    identifier current; when no earlier project has the same identifier
    the new project is the current one, and the form is filled with its
    crop and area and the defaults Kc 0.9, ET0 5, rainfall 0, main
    110 mm and laterals of 100 m.  With an empty name, an empty location
    or an area that is 0 or not a number, nothing changes. *)
Theorem create_project (name location crop now nowIso : string) (area : num)
  (app : Legacy.Projects) :
  name <> "" -> location <> "" -> truthy area = true ->
  let project := newProject name location area crop now nowIso in
  let result := Legacy.createProject name location area crop now nowIso app in
  (Legacy.projects (fst result) = Legacy.projects app ++ [project])%list /\
  Legacy.currentProjectId (fst result) = Some now /\
  (projectOf now app = None ->
   Legacy.getCurrentProject (fst result) = Some project /\
   snd result =
   Some {| Legacy.form_crop_type := crop;
           Legacy.form_area := area;
           Legacy.form_area_value := area;
           Legacy.form_kc := Fin 0.9;
           Legacy.form_eto := Fin 5.0;
           Legacy.form_rainfall := Fin 0;
           Legacy.form_main_diameter := Fin 110;
           Legacy.form_max_lateral := Fin 100 |}) /\
  (forall earlier, projectOf now app = Some earlier ->
     Legacy.getCurrentProject (fst result) = Some earlier) /\
  (forall area', truthy area' = false ->
     Legacy.createProject name location area' crop now nowIso app = (app, None)) /\
  Legacy.createProject "" location area crop now nowIso app = (app, None) /\
  Legacy.createProject name "" area crop now nowIso app = (app, None).
Proof.
  intros Hname Hloc Harea project result. subst result.
  unfold Legacy.createProject.
  destruct (String.eqb_spec name "") as [-> | _]; [contradiction |].
  destruct (String.eqb_spec location "") as [-> | _]; [contradiction |].
  rewrite Harea. cbn [negb orb].
  fold (newProject name location area crop now nowIso). fold project.
  unfold Legacy.loadProject. cbn [Legacy.projects Legacy.currentProjectId].
  assert (Hid : Legacy.Project.id project = now) by reflexivity.
  rewrite Hid. rewrite (find_app_new now (Legacy.projects app) project Hid).
  unfold projectOf, Legacy.getCurrentProject.
  cbn [Legacy.projects Legacy.currentProjectId].
  destruct (find (fun p => String.eqb (Legacy.Project.id p) now) (Legacy.projects app))
    as [earlier |] eqn:Efind; cbn [fst snd Legacy.projects Legacy.currentProjectId].
  - split; [reflexivity |]. split; [reflexivity |].
    split; [intros H; discriminate H |].
    split.
    { intros e He. injection He as <-.
      rewrite (find_app_new now (Legacy.projects app) project Hid), Efind. reflexivity. }
    split; [intros area' Ha'; rewrite Ha'; reflexivity |].
    split; reflexivity.
  - split; [reflexivity |]. split; [reflexivity |].
    split.
    { intros _. split.
      - rewrite (find_app_new now (Legacy.projects app) project Hid), Efind. reflexivity.
      - unfold project, newProject.
        cbn [Legacy.Project.latestMetrics Legacy.Project.crop Legacy.Project.area
             Legacy.kc Legacy.eto Legacy.rainfall Legacy.mainDiameter Legacy.maxLateral
             Legacy.or_default].
        rewrite (or_else_z 0) by reflexivity. reflexivity. }
    split; [intros e He; discriminate He |].
    split; [intros area' Ha'; rewrite Ha'; reflexivity |].
    split; reflexivity.
Qed.

Lemma create_project_witness :
  let app := {| Legacy.projects := []; Legacy.currentProjectId := None |} in
  let project := newProject "Field A" "Khon Kaen" (Fin 12) "Sugarcane" "1700000000000"
                   Scenario.someTime in
  let result :=
    Legacy.createProject "Field A" "Khon Kaen" (Fin 12) "Sugarcane" "1700000000000"
      Scenario.someTime app in
  (Legacy.projects (fst result) = [project]) /\
  Legacy.currentProjectId (fst result) = Some "1700000000000" /\
  Legacy.getCurrentProject (fst result) = Some project.
Proof.
  destruct (create_project "Field A" "Khon Kaen" "Sugarcane" "1700000000000"
              Scenario.someTime (Fin 12)
              {| Legacy.projects := []; Legacy.currentProjectId := None |})
    as (H1 & H2 & H3 & _).
  - discriminate.
  - discriminate.
  - unfold truthy. destruct (Req_dec_T 12 0); [lra | reflexivity].
  - destruct (H3 eq_refl) as [H4 _]. repeat split; assumption.
Defined.

Section AssignFirst.

Variable f : Legacy.Project.t -> Legacy.Project.t.
Hypothesis f_id : forall p, Legacy.Project.id (f p) = Legacy.Project.id p.

Lemma find_assignFirst_same (projectId : string) (l : list Legacy.Project.t) :
  find (fun p => String.eqb (Legacy.Project.id p) projectId)
       (Legacy.assignFirst projectId f l) =
  option_map f (find (fun p => String.eqb (Legacy.Project.id p) projectId) l).
Proof.
  induction l as [| p t IH]; [reflexivity |].
  cbn [Legacy.assignFirst find].
  destruct (String.eqb (Legacy.Project.id p) projectId) eqn:E; cbn [find].
  - rewrite f_id, E. reflexivity.
  - rewrite E. exact IH.
Qed.

Lemma find_assignFirst_other (projectId other : string) (l : list Legacy.Project.t) :
  other <> projectId ->
  find (fun p => String.eqb (Legacy.Project.id p) other)
       (Legacy.assignFirst projectId f l) =
  find (fun p => String.eqb (Legacy.Project.id p) other) l.
Proof.
  intros Hne. induction l as [| p t IH]; [reflexivity |].
  cbn [Legacy.assignFirst find].
  destruct (String.eqb_spec (Legacy.Project.id p) projectId) as [Hid | Hid]; cbn [find].
  - rewrite f_id.
    destruct (String.eqb_spec (Legacy.Project.id p) other) as [Ho | _]; [| reflexivity].
    exfalso. apply Hne. now rewrite <- Ho, Hid.
  - destruct (String.eqb (Legacy.Project.id p) other); [reflexivity | exact IH].
Qed.

Lemma length_assignFirst (projectId : string) (l : list Legacy.Project.t) :
  List.length (Legacy.assignFirst projectId f l) = List.length l.
Proof.
  induction l as [| p t IH]; [reflexivity |].
  cbn [Legacy.assignFirst].
  destruct (String.eqb (Legacy.Project.id p) projectId); cbn [List.length];
    [reflexivity | now rewrite IH].
Qed.

End AssignFirst.

(** X30.  With a current project, [finalizeDesign] stores the results of
    the calculation state and the Kc, ET0, rainfall, main diameter and
    lateral setting of the form in that project and stamps it, leaving its
    name, location, area and crop, the other projects and the number of
    projects as they were; the stored lateral value is the setting of the
    form, not the computed length.  Loading the project afterwards fills
    the form with the stored Kc, ET0, rainfall, diameter and lateral
    setting, each replaced by its default (0.9, 5, 0, 110, 100) when it is
    0 or not a number, and with the area and crop of the project, not
    those of the form.  Without a current project nothing changes. *)
Theorem finalize_then_load (dom : Legacy.Dom) (state : Legacy.CalculationState)
  (nowIso current : string) (project : Legacy.Project.t) (app : Legacy.Projects) :
  Legacy.currentProjectId app = Some current ->
  Legacy.getCurrentProject app = Some project ->
  let after := Legacy.finalizeDesign dom state nowIso app in
  (exists saved : Legacy.Project.t,
     Legacy.getCurrentProject after = Some saved /\
     Legacy.Project.id saved = current /\
     Legacy.Project.name saved = Legacy.Project.name project /\
     Legacy.Project.location saved = Legacy.Project.location project /\
     Legacy.Project.area saved = Legacy.Project.area project /\
     Legacy.Project.crop saved = Legacy.Project.crop project /\
     Legacy.Project.lastUpdated saved = nowIso /\
     Legacy.demandLday (Legacy.Project.latestMetrics saved) = Legacy.waterDemand state /\
     Legacy.totalPipeLength (Legacy.Project.latestMetrics saved) = Legacy.pipeLength state /\
     Legacy.headLossPct (Legacy.Project.latestMetrics saved) = Legacy.headLoss state /\
     Legacy.maxLateral (Legacy.Project.latestMetrics saved) = Legacy.dom_max_lateral dom /\
     Legacy.validationOk (Legacy.Project.latestMetrics saved) =
       String.eqb (Legacy.validationStatus state) "valid") /\
  Legacy.currentProjectId after = Some current /\
  List.length (Legacy.projects after) = List.length (Legacy.projects app) /\
  (forall other, other <> current -> projectOf other after = projectOf other app) /\
  snd (Legacy.loadProject current after) =
  Some {| Legacy.form_crop_type := Legacy.Project.crop project;
          Legacy.form_area := Legacy.Project.area project;
          Legacy.form_area_value := Legacy.Project.area project;
          Legacy.form_kc := or_else (Legacy.dom_kc dom) (Fin 0.9);
          Legacy.form_eto := or_else (Legacy.dom_eto dom) (Fin 5.0);
          Legacy.form_rainfall := or_else (Legacy.dom_rainfall dom) (Fin 0);
          Legacy.form_main_diameter := or_else (Legacy.dom_main_diameter dom) (Fin 110);
          Legacy.form_max_lateral := or_else (Legacy.dom_max_lateral dom) (Fin 100) |} /\
  (forall idle : Legacy.Projects,
     Legacy.getCurrentProject idle = None ->
     Legacy.finalizeDesign dom state nowIso idle = idle).
Proof.
  intros Hcur Hproj after. subst after. unfold Legacy.finalizeDesign.
  rewrite Hproj, Hcur.
  set (f := fun project0 : Legacy.Project.t =>
              {| Legacy.Project.id := Legacy.Project.id project0;
                 Legacy.Project.name := Legacy.Project.name project0;
                 Legacy.Project.location := Legacy.Project.location project0;
                 Legacy.Project.area := Legacy.Project.area project0;
                 Legacy.Project.crop := Legacy.Project.crop project0;
                 Legacy.Project.lastUpdated := nowIso;
                 Legacy.Project.latestMetrics :=
                   {| Legacy.demandLday := Legacy.waterDemand state;
                      Legacy.totalPipeLength := Legacy.pipeLength state;
                      Legacy.headLossPct := Legacy.headLoss state;
                      Legacy.maxLateral := Legacy.dom_max_lateral dom;
                      Legacy.validationOk :=
                        String.eqb (Legacy.validationStatus state) "valid";
                      Legacy.kc := Some (Legacy.dom_kc dom);
                      Legacy.eto := Some (Legacy.dom_eto dom);
                      Legacy.rainfall := Some (Legacy.dom_rainfall dom);
                      Legacy.mainDiameter := Some (Legacy.dom_main_diameter dom) |} |}).
  assert (Hf : forall p, Legacy.Project.id (f p) = Legacy.Project.id p) by reflexivity.
  assert (Hfind : find (fun p => String.eqb (Legacy.Project.id p) current)
                       (Legacy.projects app) = Some project).
  { unfold Legacy.getCurrentProject in Hproj. rewrite Hcur in Hproj. exact Hproj. }
  assert (Hid : Legacy.Project.id project = current).
  { apply find_some in Hfind as [_ He]. now apply String.eqb_eq in He. }
  assert (Hafter : find (fun p => String.eqb (Legacy.Project.id p) current)
                        (Legacy.assignFirst current f (Legacy.projects app)) =
                   Some (f project)).
  { rewrite (find_assignFirst_same f Hf), Hfind. reflexivity. }
  split.
  { exists (f project). unfold Legacy.getCurrentProject.
    cbn [Legacy.currentProjectId Legacy.projects]. rewrite Hafter.
    repeat split; try reflexivity. exact Hid. }
  split; [reflexivity |].
  split; [cbn [Legacy.projects]; apply (length_assignFirst f) |].
  split.
  { intros other Hne. unfold projectOf, Legacy.getCurrentProject.
    cbn [Legacy.currentProjectId Legacy.projects].
    now apply (find_assignFirst_other f Hf). }
  split.
  { unfold Legacy.loadProject. cbn [Legacy.projects]. rewrite Hafter.
    reflexivity. }
  intros idle Hidle. unfold Legacy.finalizeDesign. rewrite Hidle. reflexivity.
Qed.

Lemma finalize_then_load_witness :
  let project := newProject "Field A" "Khon Kaen" (Fin 12) "Sugarcane" "1700000000000"
                   Scenario.someTime in
  let app := {| Legacy.projects := [project];
                Legacy.currentProjectId := Some "1700000000000" |} in
  let after :=
    Legacy.finalizeDesign Scenario.defaultDom Scenario.defaultState Scenario.someTime app in
  snd (Legacy.loadProject "1700000000000" after) =
  Some {| Legacy.form_crop_type := "Sugarcane";
          Legacy.form_area := Fin 12;
          Legacy.form_area_value := Fin 12;
          Legacy.form_kc := or_else (Fin 0.9) (Fin 0.9);
          Legacy.form_eto := or_else (Fin 5) (Fin 5.0);
          Legacy.form_rainfall := or_else (Fin 0) (Fin 0);
          Legacy.form_main_diameter := or_else (Fin 110) (Fin 110);
          Legacy.form_max_lateral := or_else (Fin 100) (Fin 100) |}.
Proof.
  intros project app after.
  destruct (finalize_then_load Scenario.defaultDom Scenario.defaultState Scenario.someTime
              "1700000000000" project app eq_refl eq_refl) as (_ & _ & _ & _ & H & _).
  exact H.
Defined.

End ProjectFacts.
